(** * ModbusRtu.h: a shallow embedding of the Modbus RTU engine

    The embedding follows [src/ModbusRtu.h] function by function.  Fixed
    width integers are [Z] with the wrap-around written out, the frame
    buffer and the register areas are lists indexed with stdpp's lookup
    and insert, and the methods of [class Modbus] are computations in a
    small state monad over the object's fields.  An array access outside
    the declared array stops the computation with [OutOfBounds]: the model
    never reads or writes a list out of range silently. *)

From Stdlib Require Import ZArith Lia Bool.
From stdpp Require Import base list.

Local Open Scope Z_scope.

(** ** Fixed-width integers *)

Definition u8 (x : Z) : Z := x mod 256.
Definition u16 (x : Z) : Z := x mod 65536.
Definition u32 (x : Z) : Z := x mod 4294967296.

(** Conversion to [int8_t] (two's complement). *)
Definition i8 (x : Z) : Z :=
  let y := x mod 256 in if y <? 128 then y else y - 256.

Definition is_u8 (x : Z) : Prop := 0 <= x < 256.
Definition is_u16 (x : Z) : Prop := 0 <= x < 65536.

(** ** Constants of the header *)

Definition RESPONSE_SIZE : Z := 6.
Definition EXCEPTION_SIZE : Z := 3.
Definition CHECKSUM_SIZE : Z := 2.

(** [enum MESSAGE]: indexes to telegram frame positions. *)
Definition ID : Z := 0.
Definition FUNC : Z := 1.
Definition ADD_HI : Z := 2.
Definition ADD_LO : Z := 3.
Definition NB_HI : Z := 4.
Definition NB_LO : Z := 5.
Definition BYTE_CNT : Z := 6.

(** [enum MB_FC]. *)
Definition MB_FC_NONE : Z := 0.
Definition MB_FC_READ_COILS : Z := 1.
Definition MB_FC_READ_DISCRETE_INPUT : Z := 2.
Definition MB_FC_READ_REGISTERS : Z := 3.
Definition MB_FC_READ_INPUT_REGISTER : Z := 4.
Definition MB_FC_WRITE_COIL : Z := 5.
Definition MB_FC_WRITE_REGISTER : Z := 6.
Definition MB_FC_WRITE_MULTIPLE_COILS : Z := 15.
Definition MB_FC_WRITE_MULTIPLE_REGISTERS : Z := 16.

(** [enum COM_STATES]. *)
Definition COM_IDLE : Z := 0.
Definition COM_WAITING : Z := 1.

(** [enum ERR_LIST]. *)
Definition ERR_NOT_MASTER : Z := -1.
Definition ERR_POLLING : Z := -2.
Definition ERR_BUFF_OVERFLOW : Z := -3.
Definition ERR_BAD_CRC : Z := -4.
Definition ERR_EXCEPTION : Z := -5.

Definition NO_REPLY : Z := 255.
Definition EXC_FUNC_CODE : Z := 1.
Definition EXC_ADDR_RANGE : Z := 2.
Definition EXC_REGS_QUANT : Z := 3.
Definition EXC_EXECUTE : Z := 4.

Definition fctsupported : list Z :=
  [ MB_FC_READ_COILS; MB_FC_READ_DISCRETE_INPUT; MB_FC_READ_REGISTERS;
    MB_FC_READ_INPUT_REGISTER; MB_FC_WRITE_COIL; MB_FC_WRITE_REGISTER;
    MB_FC_WRITE_MULTIPLE_COILS; MB_FC_WRITE_MULTIPLE_REGISTERS ].

Definition T35 : Z := 5.
Definition MAX_BUFFER : Z := 64.
Definition SIZE_R_REGS : Z := 16.
Definition SIZE_RW_REGS : Z := 16.
Definition SIZE_R_BITS : Z := 16.
Definition SIZE_RW_BITS : Z := 16.

(** ** Helpers of the Arduino core

    [Arduino.h] is included by the header and is not part of the
    repository; its helpers are written out with their usual
    definitions. *)

(** Modelled from the spec: [word(h, l)] of the Arduino core, the 16-bit
    word with high byte [h] and low byte [l] (the big-endian pairing of
    the register handlers). *)
Definition word (h l : Z) : Z := u16 (Z.lor (Z.shiftl h 8) l).

(** Modelled from the spec: [highByte(w)] of the Arduino core. *)
Definition highByte (w : Z) : Z := u8 (Z.shiftr w 8).

(** Modelled from the spec: [lowByte(w)] of the Arduino core. *)
Definition lowByte (w : Z) : Z := u8 (Z.land w 255).

(** Modelled from the spec: [bitRead(value, bit)] of the Arduino core. *)
Definition bitRead (value bit : Z) : Z := Z.land (Z.shiftr value bit) 1.

(** Modelled from the spec: [bitWrite(value, bit, b)] of the Arduino
    core: sets the bit when [b] is nonzero and clears it otherwise. *)
Definition bitWrite (value bit b : Z) : Z :=
  if b =? 0 then Z.land value (Z.lnot (Z.shiftl 1 bit))
  else Z.lor value (Z.shiftl 1 bit).

(** ** The CRC engine, on values

    The body of the two loops of [Modbus::calcCRC]. *)

(** One turn of the inner loop: [flag = temp & 1; temp >>= 1;
    if (flag) temp ^= 0xA001]. *)
Definition crc_bit (temp : Z) : Z :=
  let flag := Z.land temp 1 in
  let temp := Z.shiftr temp 1 in
  if flag =? 0 then temp else Z.lxor temp 0xA001.

(** One turn of the outer loop: the byte is xor-ed in, then the inner
    loop runs for [j = 1 .. 8]. *)
Definition crc_byte (temp b : Z) : Z :=
  Nat.iter 8 crc_bit (Z.lxor temp b).

(** The reversal of the byte order at the end of [calcCRC]. *)
Definition crc_swap (temp : Z) : Z :=
  let temp2 := Z.shiftr temp 8 in
  let temp := Z.lor (Z.shiftl temp 8) temp2 in
  Z.land temp 0xFFFF.

(** The running value after the bytes of [bytes], from the seed. *)
Definition crc_fold (bytes : list Z) : Z :=
  fold_left crc_byte bytes 0xFFFF.

Definition crc16 (bytes : list Z) : Z := crc_swap (crc_fold bytes).

(** Flipping bit [k] of a byte. *)
Definition flip_bit (b k : Z) : Z := Z.lxor b (Z.shiftl 1 k).

(** Flipping bit [k] of the byte at position [i] of a frame. *)
Definition flip_at (i : nat) (k : Z) (frame : list Z) : list Z :=
  match frame !! i with
  | Some b => <[i := flip_bit b k]> frame
  | None => frame
  end.

(** ** The object state *)

(** The serial port behind [HardwareSerial *port]: the bytes waiting in
    the receive queue, and the bytes written to the line so far. *)
Record HardwareSerial := mkSerial {
  rx_queue : list Z;
  tx_line : list Z
}.

(** The fields of [class Modbus].  [au16regs] is a pointer in the source;
    the record holds the memory image it points to.  The pin and serial
    number fields only drive the RS-485 transceiver and are left out. *)
Record Modbus := mkModbus {
  port : HardwareSerial;
  u8id : Z;
  u8state : Z;
  u8lastError : Z;
  au8Buffer : list Z;
  u8BufferSize : Z;
  u8lastRec : Z;
  au16regs : list Z;
  u16InCnt : Z;
  u16OutCnt : Z;
  u16errCnt : Z;
  u16timeOut : Z;
  r_regArea : list Z;
  rw_regArea : list Z;
  r_bitArea : list Z;
  rw_bitArea : list Z;
  u32time : Z;
  u32timeOut : Z;
  u8regsize : Z
}.

Definition set_port v (m : Modbus) : Modbus :=
  mkModbus v (u8id m) (u8state m) (u8lastError m) (au8Buffer m)
    (u8BufferSize m) (u8lastRec m) (au16regs m) (u16InCnt m) (u16OutCnt m)
    (u16errCnt m) (u16timeOut m) (r_regArea m) (rw_regArea m) (r_bitArea m)
    (rw_bitArea m) (u32time m) (u32timeOut m) (u8regsize m).
Definition set_u8state v (m : Modbus) : Modbus :=
  mkModbus (port m) (u8id m) v (u8lastError m) (au8Buffer m)
    (u8BufferSize m) (u8lastRec m) (au16regs m) (u16InCnt m) (u16OutCnt m)
    (u16errCnt m) (u16timeOut m) (r_regArea m) (rw_regArea m) (r_bitArea m)
    (rw_bitArea m) (u32time m) (u32timeOut m) (u8regsize m).
Definition set_u8lastError v (m : Modbus) : Modbus :=
  mkModbus (port m) (u8id m) (u8state m) v (au8Buffer m)
    (u8BufferSize m) (u8lastRec m) (au16regs m) (u16InCnt m) (u16OutCnt m)
    (u16errCnt m) (u16timeOut m) (r_regArea m) (rw_regArea m) (r_bitArea m)
    (rw_bitArea m) (u32time m) (u32timeOut m) (u8regsize m).
Definition set_au8Buffer v (m : Modbus) : Modbus :=
  mkModbus (port m) (u8id m) (u8state m) (u8lastError m) v
    (u8BufferSize m) (u8lastRec m) (au16regs m) (u16InCnt m) (u16OutCnt m)
    (u16errCnt m) (u16timeOut m) (r_regArea m) (rw_regArea m) (r_bitArea m)
    (rw_bitArea m) (u32time m) (u32timeOut m) (u8regsize m).
Definition set_u8BufferSize v (m : Modbus) : Modbus :=
  mkModbus (port m) (u8id m) (u8state m) (u8lastError m) (au8Buffer m)
    v (u8lastRec m) (au16regs m) (u16InCnt m) (u16OutCnt m)
    (u16errCnt m) (u16timeOut m) (r_regArea m) (rw_regArea m) (r_bitArea m)
    (rw_bitArea m) (u32time m) (u32timeOut m) (u8regsize m).
Definition set_u8lastRec v (m : Modbus) : Modbus :=
  mkModbus (port m) (u8id m) (u8state m) (u8lastError m) (au8Buffer m)
    (u8BufferSize m) v (au16regs m) (u16InCnt m) (u16OutCnt m)
    (u16errCnt m) (u16timeOut m) (r_regArea m) (rw_regArea m) (r_bitArea m)
    (rw_bitArea m) (u32time m) (u32timeOut m) (u8regsize m).
Definition set_au16regs v (m : Modbus) : Modbus :=
  mkModbus (port m) (u8id m) (u8state m) (u8lastError m) (au8Buffer m)
    (u8BufferSize m) (u8lastRec m) v (u16InCnt m) (u16OutCnt m)
    (u16errCnt m) (u16timeOut m) (r_regArea m) (rw_regArea m) (r_bitArea m)
    (rw_bitArea m) (u32time m) (u32timeOut m) (u8regsize m).
Definition set_u16InCnt v (m : Modbus) : Modbus :=
  mkModbus (port m) (u8id m) (u8state m) (u8lastError m) (au8Buffer m)
    (u8BufferSize m) (u8lastRec m) (au16regs m) v (u16OutCnt m)
    (u16errCnt m) (u16timeOut m) (r_regArea m) (rw_regArea m) (r_bitArea m)
    (rw_bitArea m) (u32time m) (u32timeOut m) (u8regsize m).
Definition set_u16OutCnt v (m : Modbus) : Modbus :=
  mkModbus (port m) (u8id m) (u8state m) (u8lastError m) (au8Buffer m)
    (u8BufferSize m) (u8lastRec m) (au16regs m) (u16InCnt m) v
    (u16errCnt m) (u16timeOut m) (r_regArea m) (rw_regArea m) (r_bitArea m)
    (rw_bitArea m) (u32time m) (u32timeOut m) (u8regsize m).
Definition set_u16errCnt v (m : Modbus) : Modbus :=
  mkModbus (port m) (u8id m) (u8state m) (u8lastError m) (au8Buffer m)
    (u8BufferSize m) (u8lastRec m) (au16regs m) (u16InCnt m) (u16OutCnt m)
    v (u16timeOut m) (r_regArea m) (rw_regArea m) (r_bitArea m)
    (rw_bitArea m) (u32time m) (u32timeOut m) (u8regsize m).
Definition set_r_regArea v (m : Modbus) : Modbus :=
  mkModbus (port m) (u8id m) (u8state m) (u8lastError m) (au8Buffer m)
    (u8BufferSize m) (u8lastRec m) (au16regs m) (u16InCnt m) (u16OutCnt m)
    (u16errCnt m) (u16timeOut m) v (rw_regArea m) (r_bitArea m)
    (rw_bitArea m) (u32time m) (u32timeOut m) (u8regsize m).
Definition set_rw_regArea v (m : Modbus) : Modbus :=
  mkModbus (port m) (u8id m) (u8state m) (u8lastError m) (au8Buffer m)
    (u8BufferSize m) (u8lastRec m) (au16regs m) (u16InCnt m) (u16OutCnt m)
    (u16errCnt m) (u16timeOut m) (r_regArea m) v (r_bitArea m)
    (rw_bitArea m) (u32time m) (u32timeOut m) (u8regsize m).
Definition set_r_bitArea v (m : Modbus) : Modbus :=
  mkModbus (port m) (u8id m) (u8state m) (u8lastError m) (au8Buffer m)
    (u8BufferSize m) (u8lastRec m) (au16regs m) (u16InCnt m) (u16OutCnt m)
    (u16errCnt m) (u16timeOut m) (r_regArea m) (rw_regArea m) v
    (rw_bitArea m) (u32time m) (u32timeOut m) (u8regsize m).
Definition set_rw_bitArea v (m : Modbus) : Modbus :=
  mkModbus (port m) (u8id m) (u8state m) (u8lastError m) (au8Buffer m)
    (u8BufferSize m) (u8lastRec m) (au16regs m) (u16InCnt m) (u16OutCnt m)
    (u16errCnt m) (u16timeOut m) (r_regArea m) (rw_regArea m) (r_bitArea m)
    v (u32time m) (u32timeOut m) (u8regsize m).
Definition set_u32time v (m : Modbus) : Modbus :=
  mkModbus (port m) (u8id m) (u8state m) (u8lastError m) (au8Buffer m)
    (u8BufferSize m) (u8lastRec m) (au16regs m) (u16InCnt m) (u16OutCnt m)
    (u16errCnt m) (u16timeOut m) (r_regArea m) (rw_regArea m) (r_bitArea m)
    (rw_bitArea m) v (u32timeOut m) (u8regsize m).
Definition set_u32timeOut v (m : Modbus) : Modbus :=
  mkModbus (port m) (u8id m) (u8state m) (u8lastError m) (au8Buffer m)
    (u8BufferSize m) (u8lastRec m) (au16regs m) (u16InCnt m) (u16OutCnt m)
    (u16errCnt m) (u16timeOut m) (r_regArea m) (rw_regArea m) (r_bitArea m)
    (rw_bitArea m) (u32time m) v (u8regsize m).
Definition set_u8regsize v (m : Modbus) : Modbus :=
  mkModbus (port m) (u8id m) (u8state m) (u8lastError m) (au8Buffer m)
    (u8BufferSize m) (u8lastRec m) (au16regs m) (u16InCnt m) (u16OutCnt m)
    (u16errCnt m) (u16timeOut m) (r_regArea m) (rw_regArea m) (r_bitArea m)
    (rw_bitArea m) (u32time m) (u32timeOut m) v.

(** ** The monad of the methods

    A method runs at one reading [now] of [millis()] (a call returns
    promptly, so one reading serves the whole call), over the fields of
    the object.  It returns a value and the new fields, or it stops at the
    first array access outside the array, or it does not return. *)

Inductive Array :=
  | Arr_au8Buffer | Arr_au16regs
  | Arr_r_regArea | Arr_rw_regArea | Arr_r_bitArea | Arr_rw_bitArea.

Inductive Result (A : Type) :=
  | Ok (a : A) (m : Modbus)
  | OutOfBounds (arr : Array) (index : Z)
  | Hang.
Arguments Ok {A} a m.
Arguments OutOfBounds {A} arr index.
Arguments Hang {A}.

Definition M (A : Type) : Type := Z -> Modbus -> Result A.

Definition ret {A} (a : A) : M A := fun _ m => Ok a m.

Definition bind {A B} (c : M A) (k : A -> M B) : M B :=
  fun now m =>
    match c now m with
    | Ok a m' => k a now m'
    | OutOfBounds arr i => OutOfBounds arr i
    | Hang => Hang
    end.

Declare Scope modbus_scope.
Delimit Scope modbus_scope with M.
Notation "x <- c ;; k" := (bind c (fun x => k))
  (at level 20, c at level 99, k at level 200, only parsing) : modbus_scope.
Notation "c ;; k" := (bind c (fun _ => k))
  (at level 100, k at level 200, right associativity, only parsing)
  : modbus_scope.
Local Open Scope modbus_scope.

Definition millis : M Z := fun now m => Ok now m.
Definition get {A} (f : Modbus -> A) : M A := fun _ m => Ok (f m) m.
Definition modify (f : Modbus -> Modbus) : M unit := fun _ m => Ok tt (f m).
Definition hang {A} : M A := fun _ _ => Hang.

Definition field (arr : Array) : Modbus -> list Z :=
  match arr with
  | Arr_au8Buffer => au8Buffer
  | Arr_au16regs => au16regs
  | Arr_r_regArea => r_regArea
  | Arr_rw_regArea => rw_regArea
  | Arr_r_bitArea => r_bitArea
  | Arr_rw_bitArea => rw_bitArea
  end.

Definition set_field (arr : Array) (v : list Z) (m : Modbus) : Modbus :=
  match arr with
  | Arr_au8Buffer => set_au8Buffer v m
  | Arr_au16regs => set_au16regs v m
  | Arr_r_regArea => set_r_regArea v m
  | Arr_rw_regArea => set_rw_regArea v m
  | Arr_r_bitArea => set_r_bitArea v m
  | Arr_rw_bitArea => set_rw_bitArea v m
  end.

(** [in_array l i]: the index [i] (an [int] in the source) falls inside
    the array. *)
Definition in_array (l : list Z) (i : Z) : bool :=
  (0 <=? i) && (i <? Z.of_nat (length l)).

(** [arr[i]] as an rvalue. *)
Definition load (arr : Array) (i : Z) : M Z :=
  fun _ m =>
    if in_array (field arr m) i
    then Ok (default 0 (field arr m !! Z.to_nat i)) m
    else OutOfBounds arr i.

(** [arr[i] = v]. *)
Definition store (arr : Array) (i v : Z) : M unit :=
  fun _ m =>
    if in_array (field arr m) i
    then Ok tt (set_field arr (<[Z.to_nat i := v]> (field arr m)) m)
    else OutOfBounds arr i.

(** [unsigned int] of the AVR target the header is written for (it drives
    the [UCSRnA] registers): 16 bits.  A sum of two [uint16_t] is an
    [unsigned int] there and wraps at 16 bits. *)
Definition uint (x : Z) : Z := u16 x.

(** [u16errCnt ++] and the like. *)
Definition incr_u16errCnt : M unit :=
  modify (fun m => set_u16errCnt (u16 (u16errCnt m + 1)) m).
Definition incr_u8BufferSize : M unit :=
  modify (fun m => set_u8BufferSize (u8 (u8BufferSize m + 1)) m).

(** [for (uint8_t i = i0; i < bound; i++) body(i)] with a 16-bit bound.
    The counter wraps at 256; 257 turns without leaving the loop mean the
    counter went through all its values below the bound, and the loop
    does not end. *)
Fixpoint for_u8 (fuel : nat) (i bound : Z) (body : Z -> M unit) : M unit :=
  match fuel with
  | O => hang
  | S fuel' =>
      if i <? bound
      then body i ;; for_u8 fuel' (u8 (i + 1)) bound body
      else ret tt
  end.

(** [for (uint16_t i = i0; i < bound; i++) body(i)] with a 16-bit bound:
    [n] counts the turns that are left. *)
Fixpoint for_u16 (n : nat) (i : Z) (body : Z -> M unit) : M unit :=
  match n with
  | O => ret tt
  | S n' => body i ;; for_u16 n' (i + 1) body
  end.

(** ** Private methods *)

(** [Modbus::calcCRC]: the outer loop over [au8Buffer[0 .. u8length-1]]. *)
Fixpoint calcCRC_loop (n : nat) (i temp : Z) : M Z :=
  match n with
  | O => ret temp
  | S n' =>
      b <- load Arr_au8Buffer i ;;
      calcCRC_loop n' (i + 1) (crc_byte temp b)
  end.

Definition calcCRC (u8length : Z) : M Z :=
  temp <- calcCRC_loop (Z.to_nat u8length) 0 0xFFFF ;;
  ret (crc_swap temp).

(** [Modbus::getRxBuffer]: one turn of the loop for each waiting byte. *)
Fixpoint getRxBuffer_loop (rx : list Z) (bBuffOverflow : bool) : M bool :=
  match rx with
  | [] => ret bBuffOverflow
  | b :: rest =>
      size <- get u8BufferSize ;;
      modify (fun m => set_port (mkSerial rest (tx_line (port m))) m) ;;
      store Arr_au8Buffer size b ;;
      incr_u8BufferSize ;;
      size' <- get u8BufferSize ;;
      getRxBuffer_loop rest (bBuffOverflow || (MAX_BUFFER <=? size'))
  end.

Definition getRxBuffer : M Z :=
  modify (set_u8BufferSize 0) ;;
  rx <- get (fun m => rx_queue (port m)) ;;
  bBuffOverflow <- getRxBuffer_loop rx false ;;
  modify (fun m => set_u16InCnt (u16 (u16InCnt m + 1)) m) ;;
  if bBuffOverflow then
    incr_u16errCnt ;;
    ret ERR_BUFF_OVERFLOW
  else
    size <- get u8BufferSize ;;
    ret (i8 size).

(** [Modbus::sendTxBuffer]. *)
Definition sendTxBuffer : M unit :=
  size <- get u8BufferSize ;;
  u16crc <- calcCRC size ;;
  store Arr_au8Buffer size (u8 (Z.shiftr u16crc 8)) ;;
  incr_u8BufferSize ;;
  size <- get u8BufferSize ;;
  store Arr_au8Buffer size (Z.land u16crc 0x00ff) ;;
  incr_u8BufferSize ;;
  modify (fun m =>
    set_port (mkSerial (rx_queue (port m))
                (tx_line (port m)
                 ++ take (Z.to_nat (u8BufferSize m)) (au8Buffer m))) m) ;;
  modify (set_u8BufferSize 0) ;;
  now <- millis ;;
  modify (fun m => set_u32timeOut (u32 (now + u16timeOut m)) m) ;;
  modify (fun m => set_u16OutCnt (u16 (u16OutCnt m + 1)) m).

(** The first test of [validateRequest] and of [validateAnswer]: the CRC
    carried by the last two bytes against the CRC of the bytes before. *)
Definition crc_mismatch : M bool :=
  size <- get u8BufferSize ;;
  hi <- load Arr_au8Buffer (size - 2) ;;
  lo <- load Arr_au8Buffer (size - 1) ;;
  let u16MsgCRC := u16 (Z.lor (Z.shiftl hi 8) lo) in
  crc <- calcCRC (u8 (size - 2)) ;;
  ret (negb (crc =? u16MsgCRC)).

Definition isSupported (fct : Z) : bool :=
  existsb (fun f => f =? fct) fctsupported.

(** [Modbus::validateRequest]. *)
Definition validateRequest : M Z :=
  bad <- crc_mismatch ;;
  if bad then incr_u16errCnt ;; ret NO_REPLY else
  fct <- load Arr_au8Buffer FUNC ;;
  if negb (isSupported fct) then incr_u16errCnt ;; ret EXC_FUNC_CODE else
  add_hi <- load Arr_au8Buffer ADD_HI ;;
  add_lo <- load Arr_au8Buffer ADD_LO ;;
  nb_hi <- load Arr_au8Buffer NB_HI ;;
  nb_lo <- load Arr_au8Buffer NB_LO ;;
  if (fct =? MB_FC_READ_COILS) || (fct =? MB_FC_READ_DISCRETE_INPUT)
     || (fct =? MB_FC_WRITE_MULTIPLE_COILS) then
    let u16regs := u16 (word add_hi add_lo + word nb_hi nb_lo) in
    if SIZE_RW_BITS <? u16regs then ret EXC_ADDR_RANGE else ret 0
  else if fct =? MB_FC_WRITE_COIL then
    let u16regs := word add_hi add_lo in
    if SIZE_RW_BITS <? u16regs then ret EXC_ADDR_RANGE else ret 0
  else if fct =? MB_FC_WRITE_REGISTER then
    let u16regs := word add_hi add_lo in
    if SIZE_RW_REGS <? u16regs then ret EXC_ADDR_RANGE else ret 0
  else if (fct =? MB_FC_READ_REGISTERS) || (fct =? MB_FC_READ_INPUT_REGISTER)
          || (fct =? MB_FC_WRITE_MULTIPLE_REGISTERS) then
    let u16regs := u16 (word add_hi add_lo + word nb_hi nb_lo) in
    if SIZE_RW_REGS <? u16regs then ret EXC_ADDR_RANGE else ret 0
  else ret 0.

(** [Modbus::validateAnswer]; [ERR_EXCEPTION] leaves as a [uint8_t]. *)
Definition validateAnswer : M Z :=
  bad <- crc_mismatch ;;
  if bad then incr_u16errCnt ;; ret NO_REPLY else
  fct <- load Arr_au8Buffer FUNC ;;
  if negb (Z.land fct 0x80 =? 0) then
    incr_u16errCnt ;; ret (u8 ERR_EXCEPTION)
  else if negb (isSupported fct) then incr_u16errCnt ;; ret EXC_FUNC_CODE
  else ret 0.

(** [Modbus::buildException]. *)
Definition buildException (u8exception : Z) : M unit :=
  u8func <- load Arr_au8Buffer FUNC ;;
  id <- get u8id ;;
  store Arr_au8Buffer ID id ;;
  store Arr_au8Buffer FUNC (u8 (u8func + 0x80)) ;;
  store Arr_au8Buffer 2 u8exception ;;
  modify (set_u8BufferSize EXCEPTION_SIZE).

(** [Modbus::get_FC1]: the body is commented out in the source. *)
Definition get_FC1 : M unit := ret tt.

(** [Modbus::get_FC3]. *)
Fixpoint get_FC3_loop (n : nat) (i u8byte : Z) : M unit :=
  match n with
  | O => ret tt
  | S n' =>
      hi <- load Arr_au8Buffer u8byte ;;
      lo <- load Arr_au8Buffer (u8byte + 1) ;;
      store Arr_au16regs i (word hi lo) ;;
      get_FC3_loop n' (i + 1) (u8 (u8byte + 2))
  end.

Definition get_FC3 : M unit :=
  count <- load Arr_au8Buffer 2 ;;
  get_FC3_loop (Z.to_nat (count / 2)) 0 3.

(** ** The function-code handlers of the slave *)

(** The loop of [process_FC1] and [process_FC2] over the coils, reading
    the bit area [bits]. *)
Fixpoint read_coils_loop (bits : Array) (n : nat)
    (u16StartCoil u16currentCoil u8bitsno : Z) : M unit :=
  match n with
  | O => ret tt
  | S n' =>
      let u16coil := u16 (u16StartCoil + u16currentCoil) in
      let u8currentRegister := u8 (u16coil / 16) in
      let u8currentBit := u8 (u16coil mod 16) in
      w <- load bits u8currentRegister ;;
      size <- get u8BufferSize ;;
      cur <- load Arr_au8Buffer size ;;
      store Arr_au8Buffer size
        (u8 (bitWrite cur u8bitsno (bitRead w u8currentBit))) ;;
      let u8bitsno := u8 (u8bitsno + 1) in
      if 7 <? u8bitsno then
        incr_u8BufferSize ;;
        read_coils_loop bits n' u16StartCoil (u16currentCoil + 1) 0
      else
        read_coils_loop bits n' u16StartCoil (u16currentCoil + 1) u8bitsno
  end.

Definition process_read_coils (bits : Array) : M Z :=
  add_hi <- load Arr_au8Buffer ADD_HI ;;
  add_lo <- load Arr_au8Buffer ADD_LO ;;
  nb_hi <- load Arr_au8Buffer NB_HI ;;
  nb_lo <- load Arr_au8Buffer NB_LO ;;
  let u16StartCoil := word add_hi add_lo in
  let u16Coilno := word nb_hi nb_lo in
  let u8bytesno := u8 (u16Coilno / 8) in
  let u8bytesno :=
    if negb (u16Coilno mod 8 =? 0) then u8 (u8bytesno + 1) else u8bytesno in
  store Arr_au8Buffer ADD_HI u8bytesno ;;
  modify (set_u8BufferSize ADD_LO) ;;
  read_coils_loop bits (Z.to_nat u16Coilno) u16StartCoil 0 0 ;;
  (if negb (u16Coilno mod 8 =? 0) then incr_u8BufferSize else ret tt) ;;
  size <- get u8BufferSize ;;
  let u8CopyBufferSize := u8 (size + 2) in
  sendTxBuffer ;;
  ret (i8 u8CopyBufferSize).

(** [Modbus::process_FC1]. *)
Definition process_FC1 : M Z := process_read_coils Arr_rw_bitArea.

(** [Modbus::process_FC2]. *)
Definition process_FC2 : M Z := process_read_coils Arr_r_bitArea.

(** The body of the loop of [process_FC3] and [process_FC4], as the
    source has it: the two assignments have the register on the left and
    the frame buffer on the right,
    [highByte(regs[i]) = au8Buffer[u8BufferSize]] and
    [lowByte(regs[i]) = au8Buffer[u8BufferSize]].  They are read as
    stores to the high and to the low byte of the register; the loop has
    no assignment to the frame buffer. *)
Definition read_regs_body (regs : Array) (i : Z) : M unit :=
  size <- get u8BufferSize ;;
  b <- load Arr_au8Buffer size ;;
  r <- load regs i ;;
  store regs i (Z.lor (Z.shiftl b 8) (Z.land r 0x00ff)) ;;
  incr_u8BufferSize ;;
  size <- get u8BufferSize ;;
  b <- load Arr_au8Buffer size ;;
  r <- load regs i ;;
  store regs i (Z.lor (Z.land r 0xff00) b) ;;
  incr_u8BufferSize.

Section UndeclaredName.

(** [process_FC3] and [process_FC4] declare [u16regsno] and then write
    [au8Buffer[2] = u8regsno * 2]: the name [u8regsno] has no
    declaration in them.  Its value is left open. *)
Variable u8regsno : Z.

Definition process_read_regs (regs : Array) : M Z :=
  add_hi <- load Arr_au8Buffer ADD_HI ;;
  add_lo <- load Arr_au8Buffer ADD_LO ;;
  nb_hi <- load Arr_au8Buffer NB_HI ;;
  nb_lo <- load Arr_au8Buffer NB_LO ;;
  let u16StartAdd := word add_hi add_lo in
  let u16regsno := word nb_hi nb_lo in
  store Arr_au8Buffer 2 (u8 (u8regsno * 2)) ;;
  modify (set_u8BufferSize 3) ;;
  for_u8 257 (u8 u16StartAdd) (uint (u16StartAdd + u16regsno))
    (read_regs_body regs) ;;
  size <- get u8BufferSize ;;
  let u8CopyBufferSize := u8 (size + 2) in
  sendTxBuffer ;;
  ret (i8 u8CopyBufferSize).

(** [Modbus::process_FC3]. *)
Definition process_FC3 : M Z := process_read_regs Arr_rw_regArea.

(** [Modbus::process_FC4]. *)
Definition process_FC4 : M Z := process_read_regs Arr_r_regArea.

End UndeclaredName.

(** [Modbus::process_FC5]. *)
Definition process_FC5 : M Z :=
  add_hi <- load Arr_au8Buffer ADD_HI ;;
  add_lo <- load Arr_au8Buffer ADD_LO ;;
  let u16coil := word add_hi add_lo in
  let u8currentRegister := u8 (u16coil / 16) in
  let u8currentBit := u8 (u16coil mod 16) in
  nb_hi <- load Arr_au8Buffer NB_HI ;;
  w <- load Arr_rw_bitArea u8currentRegister ;;
  store Arr_rw_bitArea u8currentRegister
    (u16 (bitWrite w u8currentBit (if nb_hi =? 0xff then 1 else 0))) ;;
  modify (set_u8BufferSize 6) ;;
  size <- get u8BufferSize ;;
  let u8CopyBufferSize := u8 (size + 2) in
  sendTxBuffer ;;
  ret (i8 u8CopyBufferSize).

(** [Modbus::process_FC6]. *)
Definition process_FC6 : M Z :=
  add_hi <- load Arr_au8Buffer ADD_HI ;;
  add_lo <- load Arr_au8Buffer ADD_LO ;;
  nb_hi <- load Arr_au8Buffer NB_HI ;;
  nb_lo <- load Arr_au8Buffer NB_LO ;;
  let u8add := word add_hi add_lo in
  let u16val := word nb_hi nb_lo in
  store Arr_rw_regArea u8add u16val ;;
  modify (set_u8BufferSize RESPONSE_SIZE) ;;
  size <- get u8BufferSize ;;
  let u8CopyBufferSize := u8 (size + 2) in
  sendTxBuffer ;;
  ret (i8 u8CopyBufferSize).

(** [Modbus::process_FC15]. *)
Fixpoint process_FC15_loop (n : nat)
    (u16StartCoil u16currentCoil u8bitsno u8frameByte : Z) : M unit :=
  match n with
  | O => ret tt
  | S n' =>
      let u16coil := u16 (u16StartCoil + u16currentCoil) in
      let u8currentRegister := u8 (u16coil / 16) in
      let u8currentBit := u8 (u16coil mod 16) in
      fb <- load Arr_au8Buffer u8frameByte ;;
      let bTemp := bitRead fb u8bitsno in
      w <- load Arr_rw_bitArea u8currentRegister ;;
      store Arr_rw_bitArea u8currentRegister
        (u16 (bitWrite w u8currentBit bTemp)) ;;
      let u8bitsno := u8 (u8bitsno + 1) in
      if 7 <? u8bitsno then
        process_FC15_loop n' u16StartCoil (u16currentCoil + 1) 0
          (u8 (u8frameByte + 1))
      else
        process_FC15_loop n' u16StartCoil (u16currentCoil + 1) u8bitsno
          u8frameByte
  end.

Definition process_FC15 : M Z :=
  add_hi <- load Arr_au8Buffer ADD_HI ;;
  add_lo <- load Arr_au8Buffer ADD_LO ;;
  nb_hi <- load Arr_au8Buffer NB_HI ;;
  nb_lo <- load Arr_au8Buffer NB_LO ;;
  let u16StartCoil := word add_hi add_lo in
  let u16Coilno := word nb_hi nb_lo in
  process_FC15_loop (Z.to_nat u16Coilno) u16StartCoil 0 0 7 ;;
  modify (set_u8BufferSize 6) ;;
  size <- get u8BufferSize ;;
  let u8CopyBufferSize := u8 (size + 2) in
  sendTxBuffer ;;
  ret (i8 u8CopyBufferSize).

(** [Modbus::process_FC16]. *)
Definition process_FC16_body (u8StartAdd : Z) (i : Z) : M unit :=
  hi <- load Arr_au8Buffer ((BYTE_CNT + 1) + i * 2) ;;
  lo <- load Arr_au8Buffer ((BYTE_CNT + 2) + i * 2) ;;
  let temp := word hi lo in
  store Arr_rw_regArea (uint (u8StartAdd + i)) temp.

Definition process_FC16 : M Z :=
  u8func <- load Arr_au8Buffer FUNC ;;
  add_hi <- load Arr_au8Buffer ADD_HI ;;
  add_lo <- load Arr_au8Buffer ADD_LO ;;
  nb_hi <- load Arr_au8Buffer NB_HI ;;
  nb_lo <- load Arr_au8Buffer NB_LO ;;
  let u8StartAdd := u16 (Z.lor (Z.shiftl add_hi 8) add_lo) in
  let u8regsno := u16 (Z.lor (Z.shiftl nb_hi 8) nb_lo) in
  store Arr_au8Buffer NB_HI 0 ;;
  store Arr_au8Buffer NB_LO (u8 u8regsno) ;;
  modify (set_u8BufferSize RESPONSE_SIZE) ;;
  for_u8 257 0 u8regsno (process_FC16_body u8StartAdd) ;;
  size <- get u8BufferSize ;;
  let u8CopyBufferSize := u8 (size + 2) in
  sendTxBuffer ;;
  ret (i8 u8CopyBufferSize).

(** ** Public methods *)

(** [struct modbus_t], the master query structure.  [au16reg] is the
    memory image the pointer refers to. *)
Module Telegram.
Record modbus_t := mk {
  u8id : Z;
  u8fct : Z;
  u16RegAdd : Z;
  u16CoilsNo : Z;
  au16reg : list Z
}.
End Telegram.
Abbreviation modbus_t := Telegram.modbus_t.

(** The two comparisons of the clock with a stored deadline:
    [millis() > u32timeOut] for the watchdog and [millis() < u32time] for
    the silence between frames.  Both operands are [uint32_t]. *)
Definition watchdog_fired (now deadline : Z) : bool := deadline <? now.
Definition still_receiving (now deadline : Z) : bool := now <? deadline.

(** [Modbus::getTimeOutState]. *)
Definition getTimeOutState : M bool :=
  now <- millis ;;
  deadline <- get u32timeOut ;;
  ret (watchdog_fired now deadline).

(** The loop of [query] for [MB_FC_WRITE_MULTIPLE_REGISTERS]. *)
Definition query_FC16_body (i : Z) : M unit :=
  r <- load Arr_au16regs i ;;
  size <- get u8BufferSize ;;
  store Arr_au8Buffer size (highByte r) ;;
  incr_u8BufferSize ;;
  size <- get u8BufferSize ;;
  store Arr_au8Buffer size (lowByte r) ;;
  incr_u8BufferSize.

(** The [switch] of [query] on the function code. *)
Definition query_payload (telegram : modbus_t) : M unit :=
  let fct := Telegram.u8fct telegram in
  let u16CoilsNo := Telegram.u16CoilsNo telegram in
  if (fct =? MB_FC_READ_COILS) || (fct =? MB_FC_READ_DISCRETE_INPUT)
     || (fct =? MB_FC_READ_REGISTERS) || (fct =? MB_FC_READ_INPUT_REGISTER)
  then
    store Arr_au8Buffer NB_HI (highByte u16CoilsNo) ;;
    store Arr_au8Buffer NB_LO (lowByte u16CoilsNo) ;;
    modify (set_u8BufferSize 6)
  else if fct =? MB_FC_WRITE_COIL then
    r <- load Arr_au16regs 0 ;;
    store Arr_au8Buffer NB_HI (if 0 <? r then 0xff else 0) ;;
    store Arr_au8Buffer NB_LO 0 ;;
    modify (set_u8BufferSize 6)
  else if fct =? MB_FC_WRITE_REGISTER then
    r <- load Arr_au16regs 0 ;;
    store Arr_au8Buffer NB_HI (highByte r) ;;
    store Arr_au8Buffer NB_LO (lowByte r) ;;
    modify (set_u8BufferSize 6)
  else if fct =? MB_FC_WRITE_MULTIPLE_COILS then
    let u8regsno := u8 (u16CoilsNo / 16) in
    let u8bytesno := u8 (u8regsno * 2) in
    let u8bytesno :=
      if negb (u16CoilsNo mod 16 =? 0) then u8 (u8bytesno + 1)
      else u8bytesno in
    store Arr_au8Buffer NB_HI (highByte u16CoilsNo) ;;
    store Arr_au8Buffer NB_LO (lowByte u16CoilsNo) ;;
    store Arr_au8Buffer (NB_LO + 1) u8bytesno ;;
    modify (set_u8BufferSize 7)
  else if fct =? MB_FC_WRITE_MULTIPLE_REGISTERS then
    store Arr_au8Buffer NB_HI (highByte u16CoilsNo) ;;
    store Arr_au8Buffer NB_LO (lowByte u16CoilsNo) ;;
    store Arr_au8Buffer (NB_LO + 1) (u8 (u16CoilsNo * 2)) ;;
    modify (set_u8BufferSize 7) ;;
    for_u16 (Z.to_nat u16CoilsNo) 0 query_FC16_body
  else ret tt.

(** [Modbus::query]. *)
Definition query (telegram : modbus_t) : M Z :=
  id <- get u8id ;;
  if negb (id =? 0) then ret (-2) else
  state <- get u8state ;;
  if negb (state =? COM_IDLE) then ret (-1) else
  if (Telegram.u8id telegram =? 0) || (247 <? Telegram.u8id telegram)
  then ret (-3) else
  modify (set_au16regs (Telegram.au16reg telegram)) ;;
  store Arr_au8Buffer ID (Telegram.u8id telegram) ;;
  store Arr_au8Buffer FUNC (Telegram.u8fct telegram) ;;
  store Arr_au8Buffer ADD_HI (highByte (Telegram.u16RegAdd telegram)) ;;
  store Arr_au8Buffer ADD_LO (lowByte (Telegram.u16RegAdd telegram)) ;;
  query_payload telegram ;;
  sendTxBuffer ;;
  modify (set_u8state COM_WAITING) ;;
  ret 0.

(** [port->available()] stored in a [uint8_t]. *)
Definition available : M Z :=
  get (fun m => u8 (Z.of_nat (length (rx_queue (port m))))).

(** The [switch] of the master's [poll] on the function code of the
    answer. *)
Definition poll_dispatch (fct : Z) : M unit :=
  if (fct =? MB_FC_READ_COILS) || (fct =? MB_FC_READ_DISCRETE_INPUT)
  then get_FC1
  else if (fct =? MB_FC_READ_INPUT_REGISTER) || (fct =? MB_FC_READ_REGISTERS)
  then get_FC3
  else ret tt.

(** [Modbus::poll()], the cyclic poll of the master. *)
Definition poll : M Z :=
  u8current <- available ;;
  now <- millis ;;
  deadline <- get u32timeOut ;;
  if watchdog_fired now deadline then
    modify (set_u8state COM_IDLE) ;;
    modify (set_u8lastError NO_REPLY) ;;
    incr_u16errCnt ;;
    ret 0
  else
  if u8current =? 0 then ret 0 else
  lastRec <- get u8lastRec ;;
  if negb (u8current =? lastRec) then
    modify (set_u8lastRec u8current) ;;
    modify (set_u32time (u32 (now + T35))) ;;
    ret 0
  else
  silence <- get u32time ;;
  if still_receiving now silence then ret 0 else
  modify (set_u8lastRec 0) ;;
  i8state <- getRxBuffer ;;
  if i8state <? 7 then
    modify (set_u8state COM_IDLE) ;;
    incr_u16errCnt ;;
    ret i8state
  else
  u8exception <- validateAnswer ;;
  if negb (u8exception =? 0) then
    modify (set_u8state COM_IDLE) ;;
    ret (i8 u8exception)
  else
  fct <- load Arr_au8Buffer FUNC ;;
  poll_dispatch fct ;;
  modify (set_u8state COM_IDLE) ;;
  size <- get u8BufferSize ;;
  ret (i8 size).

Section Slave.

Variable u8regsno : Z.

(** The [switch] of the slave's [poll] on the function code of the
    request: function 2 goes to [process_FC1] and function 4 to
    [process_FC3]. *)
Definition poll_slave_dispatch (fct i8state : Z) : M Z :=
  if (fct =? MB_FC_READ_COILS) || (fct =? MB_FC_READ_DISCRETE_INPUT)
  then process_FC1
  else if (fct =? MB_FC_READ_INPUT_REGISTER)
          || (fct =? MB_FC_READ_REGISTERS)
  then process_FC3 u8regsno
  else if fct =? MB_FC_WRITE_COIL then process_FC5
  else if fct =? MB_FC_WRITE_REGISTER then process_FC6
  else if fct =? MB_FC_WRITE_MULTIPLE_COILS then process_FC15
  else if fct =? MB_FC_WRITE_MULTIPLE_REGISTERS then process_FC16
  else ret i8state.

(** The cyclic poll of the slave, declared as
    [poll(uint16_t *regs, uint8_t u8size)]. *)
Definition poll_slave (regs : list Z) (u8size : Z) : M Z :=
  modify (set_au16regs regs) ;;
  modify (set_u8regsize u8size) ;;
  u8current <- available ;;
  if u8current =? 0 then ret 0 else
  lastRec <- get u8lastRec ;;
  now <- millis ;;
  if negb (u8current =? lastRec) then
    modify (set_u8lastRec u8current) ;;
    modify (set_u32time (u32 (now + T35))) ;;
    ret 0
  else
  silence <- get u32time ;;
  if still_receiving now silence then ret 0 else
  modify (set_u8lastRec 0) ;;
  i8state <- getRxBuffer ;;
  modify (set_u8lastError (u8 i8state)) ;;
  if i8state <? 7 then ret i8state else
  id <- load Arr_au8Buffer ID ;;
  own <- get u8id ;;
  if negb (id =? own) then ret 0 else
  u8exception <- validateRequest ;;
  if 0 <? u8exception then
    (if negb (u8exception =? NO_REPLY) then
       buildException u8exception ;;
       sendTxBuffer
     else ret tt) ;;
    modify (set_u8lastError u8exception) ;;
    ret (i8 u8exception)
  else
  modify (fun m => set_u32timeOut (u32 (now + u16timeOut m)) m) ;;
  modify (set_u8lastError 0) ;;
  fct <- load Arr_au8Buffer FUNC ;;
  poll_slave_dispatch fct i8state.

End Slave.

(** ** The register access functions *)

Section Accessors.

(** The access functions are declared in [class Modbus] and work on its
    register areas.  Their two return codes have no definition in the
    header. *)
Variables ERROR_OF_ADR ERROR_OF_POINTER : Z.

(** The loop of [GetRRegs] and [GetRWRegs]; its header reads
    [for (uint16_t i = 0; i < nRegs; ++)], the counter is taken to be
    the operand of the increment.  [pRegs] is the caller's buffer; a
    write past its end is reported as an access outside [au16regs],
    the caller's memory. *)
Fixpoint get_regs_loop (regs : Array) (n : nat) (adrReg i : Z)
    (pRegs : list Z) : M (list Z) :=
  match n with
  | O => ret pRegs
  | S n' =>
      v <- load regs (uint (adrReg + i)) ;;
      if in_array pRegs i
      then get_regs_loop regs n' adrReg (i + 1) (<[Z.to_nat i := v]> pRegs)
      else (fun _ _ => OutOfBounds Arr_au16regs i)
  end.

(** The body shared by [GetRRegs] and [GetRWRegs]; [pRegs = None] is
    the null pointer. *)
Definition get_regs (regs : Array) (size adrReg : Z)
    (pRegs : option (list Z)) (nRegs : Z) : M (Z * option (list Z)) :=
  if size <=? uint (adrReg + nRegs) then ret (ERROR_OF_ADR, pRegs) else
  match pRegs with
  | None => ret (ERROR_OF_POINTER, None)
  | Some out =>
      out' <- get_regs_loop regs (Z.to_nat nRegs) adrReg 0 out ;;
      ret (0, Some out')
  end.

(** [GetRRegs]. *)
Definition GetRRegs := get_regs Arr_r_regArea SIZE_R_REGS.

(** [GetRWRegs]. *)
Definition GetRWRegs := get_regs Arr_rw_regArea SIZE_RW_REGS.

(** The body shared by [GetRReg] and [GetRWReg]. *)
Definition get_reg (regs : Array) (size adrReg : Z)
    (pReg : option Z) : M (Z * option Z) :=
  if size <=? adrReg then ret (ERROR_OF_ADR, pReg) else
  match pReg with
  | None => ret (ERROR_OF_POINTER, None)
  | Some _ => v <- load regs adrReg ;; ret (0, Some v)
  end.

(** [GetRReg]. *)
Definition GetRReg := get_reg Arr_r_regArea SIZE_R_REGS.

(** [GetRWReg]. *)
Definition GetRWReg := get_reg Arr_rw_regArea SIZE_RW_REGS.

(** [SetRWReg]. *)
Definition SetRWReg (adrReg : Z) (pReg : option Z) : M Z :=
  if SIZE_RW_REGS <=? adrReg then ret ERROR_OF_ADR else
  match pReg with
  | None => ret ERROR_OF_POINTER
  | Some v => store Arr_rw_regArea adrReg v ;; ret 0
  end.

End Accessors.

(** ** Concrete objects *)

(** An object after its constructor and [begin()]: [init] stores the node
    address and the default time-out of 1000 ms, [begin] clears the
    counters, [u8lastRec] and [u8BufferSize]; the other fields are those
    of a zero-initialised object.  The arrays have their declared
    sizes. *)
Definition Modbus_begin (id : Z) : Modbus :=
  mkModbus (mkSerial [] []) id COM_IDLE 0 (replicate 64 0) 0 0 [] 0 0 0 1000
    (replicate (Z.to_nat SIZE_R_REGS) 0)
    (replicate (Z.to_nat SIZE_RW_REGS) 0)
    (replicate (Z.to_nat (SIZE_R_BITS / 16 + 1)) 0)
    (replicate (Z.to_nat (SIZE_RW_BITS / 16 + 1)) 0)
    0 0 0.

(** The bytes [bytes] are waiting at the port. *)
Definition receive (bytes : list Z) (m : Modbus) : Modbus :=
  set_port (mkSerial bytes (tx_line (port m))) m.

(** A frame as it goes on the line: the bytes, then the CRC as
    [sendTxBuffer] splits it. *)
Definition with_crc (bytes : list Z) : list Z :=
  bytes ++ [u8 (Z.shiftr (crc16 bytes) 8); Z.land (crc16 bytes) 0x00ff].

(** A slave in the state its [poll] reaches once the frame [frame] has
    arrived and the line has been silent: the bytes wait at the port and
    the previous [poll] has counted them. *)
Definition slave_with_frame (id : Z) (frame : list Z) : Modbus :=
  set_u8lastRec (u8 (Z.of_nat (length frame)))
    (receive frame (Modbus_begin id)).

(** ** Definitions for the statements *)

(** [forall_from n i P]: [P] holds at [i], [i + 1], ..., [i + n - 1]. *)
Fixpoint forall_from (n : nat) (i : Z) (P : Z -> bool) : bool :=
  match n with
  | O => true
  | S n' => P i && forall_from n' (i + 1) P
  end.

(** The turn of the inner loop of [calcCRC] read backwards: bit 15 of the
    result tells whether [0xA001] was xor-ed in. *)
Definition crc_bit_inv (t : Z) : Z :=
  if t <? 32768 then 2 * t else 2 * Z.lxor t 0xA001 + 1.

(** The frame buffer of [m] holds the frame [frame]: [u8BufferSize] is its
    length and the first bytes of [au8Buffer], an array of [MAX_BUFFER]
    bytes, are its bytes. *)
Definition holds_frame (frame : list Z) (m : Modbus) : Prop :=
  u8BufferSize m = Z.of_nat (length frame)
  /\ take (length frame) (au8Buffer m) = frame
  /\ Z.of_nat (length (au8Buffer m)) = MAX_BUFFER.

(** The validation [v] ([validateRequest] or [validateAnswer]) passes the
    CRC check: it returns, and not with [NO_REPLY]. *)
Definition crc_accepted (v : M Z) (now : Z) (m : Modbus) : Prop :=
  exists r m', v now m = Ok r m' /\ r <> NO_REPLY.

(** The validation [v] fails the CRC check: it returns [NO_REPLY]. *)
Definition crc_rejected (v : M Z) (now : Z) (m : Modbus) : Prop :=
  exists m', v now m = Ok NO_REPLY m'.

(** *** Concrete inputs *)

(** A read-holding-registers request body, and a sender whose frame
    buffer holds it. *)
Definition fc3_request : list Z := [1; 3; 0; 0; 0; 2].

Definition sender_fc3 : Modbus :=
  set_u8BufferSize 6
    (set_au8Buffer (fc3_request ++ replicate 58 0) (Modbus_begin 0)).

(** A master that is idle and has three bytes waiting at its port. *)
Definition idle_master_with_bytes : Modbus :=
  receive [1; 2; 3] (Modbus_begin 0).

(** A telegram: a read of two holding registers of slave 1. *)
Definition read_two_regs : modbus_t := Telegram.mk 1 3 0 2 [0; 0].

(** *** What a method keeps, and what holds when it returns *)

(** The method [c] keeps [f]: when it returns, [f] of the object is what
    it was. *)
Definition kept {A B} (f : Modbus -> B) (c : M A) : Prop :=
  forall now m a m', c now m = Ok a m' -> f m' = f m.

(** [Q] holds of the value and the object when [c], started at [now] on
    [m], returns. *)
Definition post {A} (c : M A) (now : Z) (m : Modbus)
    (Q : A -> Modbus -> Prop) : Prop :=
  forall a m', c now m = Ok a m' -> Q a m'.

(** The error counter and the configured time-out. *)
Definition counters (m : Modbus) : Z * Z := (u16errCnt m, u16timeOut m).

(** The object a run ends with; a run that does not return leaves the
    object [m]. *)
Definition final {A} (m : Modbus) (r : Result A) : Modbus :=
  match r with
  | Ok _ m' => m'
  | _ => m
  end.

(** The master of the scenarios: it sent [read_two_regs] when the clock
    read [t0] and is waiting for the reply. *)
Definition master_after_query (t0 : Z) : Modbus :=
  final (Modbus_begin 0) (query read_two_regs t0 (Modbus_begin 0)).

(** A write-single-register request for address 16, one past the last
    register, with its CRC. *)
Definition fc6_past_the_end : list Z := with_crc [1; 6; 0; 16; 0; 255].

(** Slave 1 holding [0x1234; 0x5678] in its first two read-write
    registers, with the request [fc3_request] received. *)
Definition slave_1234_5678 : Modbus :=
  set_rw_regArea ([0x1234; 0x5678] ++ replicate 14 0)
    (slave_with_frame 1 (with_crc fc3_request)).

(** The check of the reply to [fc3_request] for one value of the byte
    count: nine bytes are sent, the payload after the byte count is the
    bytes 3 to 6 of the request, and the two registers hold those
    bytes. *)
Definition fc3_reply_check (k : Z) : bool :=
  match poll_slave k [] 0 10 slave_1234_5678 with
  | Ok r m' =>
      (r =? 9)
      && bool_decide (tx_line (port m')
                      = with_crc [1; 3; u8 (k * 2); 0; 0; 2; 196])
      && bool_decide (rw_regArea m' = [0; 0x02C4] ++ replicate 14 0)
  | _ => false
  end.

(** A request with the unsupported function code [0x83], with its CRC,
    and the same request with the last CRC byte changed. *)
Definition fc83_request : list Z := with_crc [1; 0x83; 0; 0; 0].
Definition fc83_bad_crc : list Z := [1; 0x83; 0; 0; 0; 0; 0].

(** [buildException] followed by [sendTxBuffer], as the slave's [poll]
    runs them. *)
Definition send_exception (u8exception : Z) : M unit :=
  buildException u8exception ;; sendTxBuffer.

(** A master with 65 bytes waiting at its port. *)
Definition master_with_65_bytes : Modbus :=
  receive (replicate 65 7) (Modbus_begin 0).

(** *** States of the further properties *)

(** The object once [getRxBuffer] has drained the frame [frame] into the
    frame buffer: the port is empty, the buffer starts with the frame and
    the message counter has gone up. *)
Definition drained (frame : list Z) (m : Modbus) : Modbus :=
  set_u16InCnt (u16 (u16InCnt m + 1))
    (set_u8BufferSize (Z.of_nat (length frame))
       (set_au8Buffer (frame ++ drop (length frame) (au8Buffer m))
          (set_port (mkSerial [] (tx_line (port m))) m))).

(** A master with three bytes waiting at its port. *)
Definition master_with_3_bytes : Modbus := receive [1; 2; 3] (Modbus_begin 0).

(** A master with 64 bytes waiting at its port. *)
Definition master_with_64_bytes : Modbus :=
  receive (replicate 64 7) (Modbus_begin 0).

(** The frame [frame] has arrived at the slave and the line has been
    silent: the bytes wait at the port, the previous [poll] has counted
    them, and the silence deadline has passed.  The frame leaves room in
    the frame buffer. *)
Definition frame_ready (frame : list Z) (now : Z) (m : Modbus) : Prop :=
  Z.of_nat (length (au8Buffer m)) = MAX_BUFFER
  /\ rx_queue (port m) = frame
  /\ (0 < length frame < 64)%nat
  /\ u8lastRec m = Z.of_nat (length frame)
  /\ u32time m <= now.

(** The slave once its [poll] has drained the frame [frame]: the caller's
    table and its size are noted, the byte count is reset, and the last
    error holds the frame length. *)
Definition slave_drained (regs : list Z) (u8size : Z) (frame : list Z)
    (m : Modbus) : Modbus :=
  set_u8lastError (Z.of_nat (length frame))
    (drained frame
       (set_u8lastRec 0 (set_u8regsize u8size (set_au16regs regs m)))).

(** Slave 1 with the four-byte frame [01 11 C0 2C] ready. *)
Definition slave_with_short_frame : Modbus :=
  slave_with_frame 1 (with_crc [1; 17]).

(** Slave 1 with a request for slave 2 ready. *)
Definition slave_with_foreign_frame : Modbus :=
  slave_with_frame 1 (with_crc [2; 3; 0; 0; 0; 2]).

(** Slave 1 with a seven-byte frame ready whose CRC bytes are wrong. *)
Definition slave_with_bad_crc : Modbus := slave_with_frame 1 fc83_bad_crc.

(** Slave 1 with a request for the unsupported function [0x2B] ready. *)
Definition slave_with_fc2B : Modbus :=
  slave_with_frame 1 (with_crc [1; 0x2B; 0; 0; 0]).

(** The range test of a request: the request asks for more than the
    space holds as [validateRequest] measures it.  Functions 5 and 6
    are measured by their address, the others by address plus quantity
    in 16 bits. *)
Definition range_refused (fct add_hi add_lo nb_hi nb_lo : Z) : Prop :=
  ((fct = MB_FC_WRITE_COIL \/ fct = MB_FC_WRITE_REGISTER)
   /\ 16 < word add_hi add_lo)
  \/ ((fct = MB_FC_READ_COILS \/ fct = MB_FC_READ_DISCRETE_INPUT
       \/ fct = MB_FC_READ_REGISTERS \/ fct = MB_FC_READ_INPUT_REGISTER
       \/ fct = MB_FC_WRITE_MULTIPLE_COILS
       \/ fct = MB_FC_WRITE_MULTIPLE_REGISTERS)
      /\ 16 < u16 (word add_hi add_lo + word nb_hi nb_lo)).

(** Slave 1 with a write of register 17 ready. *)
Definition slave_with_fc6_at_17 : Modbus :=
  slave_with_frame 1 (with_crc [1; 6; 0; 17; 0; 255]).

(** Slave 1 with a write of [0x00FF] to register 5 ready. *)
Definition slave_with_fc6_at_5 : Modbus :=
  slave_with_frame 1 (with_crc [1; 6; 0; 5; 0; 255]).

(** A master that may send: node address 0, idle, with a frame buffer of
    [MAX_BUFFER] bytes. *)
Definition master_ready (m : Modbus) : Prop :=
  u8id m = 0 /\ u8state m = COM_IDLE
  /\ Z.of_nat (length (au8Buffer m)) = MAX_BUFFER.

(** The four read functions. *)
Definition is_read_function (fct : Z) : bool :=
  (fct =? MB_FC_READ_COILS) || (fct =? MB_FC_READ_DISCRETE_INPUT)
  || (fct =? MB_FC_READ_REGISTERS) || (fct =? MB_FC_READ_INPUT_REGISTER).

(** The words of [regs] as bytes, high byte first. *)
Definition be_bytes (regs : list Z) : list Z :=
  flat_map (fun r => [highByte r; lowByte r]) regs.

(** Telegrams of the witnesses. *)
Definition write_reg_5 : modbus_t := Telegram.mk 1 6 5 1 [0x00FF].
Definition write_coil_3 : modbus_t := Telegram.mk 1 5 3 1 [1].
Definition write_two_regs : modbus_t :=
  Telegram.mk 1 16 2 2 [0x1234; 0x5678].
Definition write_28_regs : modbus_t :=
  Telegram.mk 1 16 0 28 (replicate 28 0).
Definition diagnostics : modbus_t := Telegram.mk 1 8 0 0 [].

(** The answer [frame] has arrived at the master and the line has been
    silent: the bytes wait at the port, the previous [poll] has counted
    them, the silence deadline has passed and the watchdog deadline has
    not.  The frame leaves room in the frame buffer. *)
Definition answer_ready (frame : list Z) (now : Z) (m : Modbus) : Prop :=
  Z.of_nat (length (au8Buffer m)) = MAX_BUFFER
  /\ rx_queue (port m) = frame
  /\ (0 < length frame < 64)%nat
  /\ u8lastRec m = Z.of_nat (length frame)
  /\ u32time m <= now
  /\ now <= u32timeOut m.

(** The master once its [poll] has drained the answer [frame]. *)
Definition master_drained (frame : list Z) (m : Modbus) : Modbus :=
  drained frame (set_u8lastRec 0 m).

(** A master waiting for a reply with the answer [frame] ready; its
    watchdog deadline is 1000 and the caller's table has two words. *)
Definition master_with_answer (frame : list Z) : Modbus :=
  set_au16regs [0; 0]
    (set_u32timeOut 1000
       (set_u8state COM_WAITING
          (set_u8lastRec (u8 (Z.of_nat (length frame)))
             (receive frame (Modbus_begin 0))))).

(** Answers of the witnesses: an exception reply, an answer with a wrong
    CRC, an answer with the exception bit, an answer to a read of two
    registers and the echo of a write. *)
Definition exception_answer : list Z := with_crc [1; 0x83; 2].
Definition answer_bad_crc : list Z := [1; 3; 4; 0x12; 0x34; 0x56; 0x78; 0; 0].
Definition answer_with_bit : list Z := with_crc [1; 0x83; 2; 0; 0].
Definition answer_two_regs : list Z :=
  with_crc ([1; 3; 4] ++ be_bytes [0x1234; 0x5678]).
Definition answer_echo : list Z := with_crc [1; 6; 0; 5; 0; 255].

(** The bytes of [bytes] paired into words, high byte first; a last
    byte without its pair is dropped. *)
Fixpoint be_words (bytes : list Z) : list Z :=
  match bytes with
  | h :: l :: rest => word h l :: be_words rest
  | _ => []
  end.

(** A master like [master_with_answer], with a table of one word. *)
Definition master_with_small_table (frame : list Z) : Modbus :=
  set_au16regs [0] (master_with_answer frame).

(** Slave 1 with a write of [0x1234] and [0x5678] to registers 2 and 3
    ready. *)
Definition slave_with_fc16_at_2 : Modbus :=
  slave_with_frame 1
    (with_crc ([1; 16; 0; 2; 0; 2; 4] ++ be_bytes [0x1234; 0x5678])).

(** Slave 1 with a request to set coil 3 ready. *)
Definition slave_with_fc5_at_3 : Modbus :=
  slave_with_frame 1 (with_crc [1; 5; 0; 3; 0xff; 0]).

(** Slave 1 when the bytes of a request have just arrived: no poll has
    seen them yet. *)
Definition slave_with_new_bytes : Modbus :=
  receive (with_crc [1; 6; 0; 5; 0; 255]) (Modbus_begin 1).

(** A master waiting for a reply when the bytes of the answer have just
    arrived; its watchdog deadline is 1000. *)
Definition master_with_new_bytes : Modbus :=
  set_u32timeOut 1000
    (set_u8state COM_WAITING (receive answer_echo (Modbus_begin 0))).

(** The frame of [write_reg_5] on the line. *)
Definition write_reg_5_frame : list Z := with_crc [1; 6; 0; 5; 0; 255].

(** A telegram to write 20 coils from coil 0. *)
Definition write_20_coils : modbus_t :=
  Telegram.mk 1 15 0 20 [0xFFFF; 0x000F].

(** The byte count that [query] announces for [n] coils: two bytes for
    every full word, and one for the rest. *)
Definition coils_byte_count (n : Z) : Z :=
  let u8bytesno := u8 (u8 (n / 16) * 2) in
  if negb (n mod 16 =? 0) then u8 (u8bytesno + 1) else u8bytesno.

(** Coil [c] of a bit area: bit [c mod 16] of word [c / 16]. *)
Definition coil (area : list Z) (c : Z) : Z :=
  bitRead (default 0 (area !! Z.to_nat (c / 16))) (c mod 16).

(** Bit [j] of a sequence of bytes, the low bit of each byte first. *)
Definition frame_bit (bytes : list Z) (j : Z) : Z :=
  bitRead (default 0 (bytes !! Z.to_nat (j / 8))) (j mod 8).

(** Slave 1 with a write of the ten coils 3 to 12 ready; the values are
    the bits of [0xA5] and [0x02]. *)
Definition slave_with_fc15_at_3 : Modbus :=
  slave_with_frame 1 (with_crc [1; 15; 0; 3; 0; 10; 2; 0xA5; 0x02]).

(** Slave 1 with a read of the ten coils 3 to 12 ready. *)
Definition slave_with_fc1_at_3 : Modbus :=
  slave_with_frame 1 (with_crc [1; 1; 0; 3; 0; 10]).

(** A poll has seen the bytes of [frame] waiting at the port and has
    counted them. *)
Definition frame_noted (frame : list Z) (m : Modbus) : Prop :=
  rx_queue (port m) = frame
  /\ (0 < length frame < 256)%nat
  /\ u8lastRec m = Z.of_nat (length frame).

(** The object after the watchdog branch of the master's [poll]. *)
Definition gave_up (m : Modbus) : Modbus :=
  set_u16errCnt (u16 (u16errCnt m + 1))
    (set_u8lastError NO_REPLY (set_u8state COM_IDLE m)).

(** A master whose watchdog deadline and whose silence deadline were
    armed 10 ms before the clock wraps, with the time-out 1000: both
    deadlines are past the wrap.  Three bytes wait at its port and have
    been counted. *)
Definition master_past_the_wrap : Modbus :=
  set_u32time (u32 (4294967286 + 1000))
    (set_u32timeOut (u32 (4294967286 + 1000))
       (set_u8lastRec 3 (receive [1; 2; 3] (Modbus_begin 0)))).

(** * Properties *)

(** ** Arithmetic of the fixed-width values *)

Lemma forall_from_spec (P : Z -> bool) (n : nat) (i : Z) :
  forall_from n i P = true ->
  forall x, i <= x < i + Z.of_nat n -> P x = true.
Proof.
  revert i. induction n as [|n IH]; intros i H x Hx; [lia|].
  cbn [forall_from] in H. apply andb_true_iff in H as [H0 H1].
  destruct (Z.eq_dec x i) as [->|Hne]; [exact H0|].
  apply (IH (i + 1) H1). lia.
Qed.

Lemma lxor_u16 (a b : Z) : is_u16 a -> is_u16 b -> is_u16 (Z.lxor a b).
Proof.
  intros [Ha0 Ha] [Hb0 Hb]. split; [apply Z.lxor_nonneg; lia|].
  destruct (Z.eq_dec (Z.lxor a b) 0) as [->|Hne]; [lia|].
  assert (0 < Z.lxor a b) by (pose proof (proj2 (Z.lxor_nonneg a b)); lia).
  apply (Z.log2_lt_pow2 _ 16); [assumption|].
  pose proof (Z.log2_lxor a b Ha0 Hb0) as Hl.
  assert (Z.log2 a < 16).
  { destruct (Z.eq_dec a 0) as [->|]; [cbn; lia|].
    apply Z.log2_lt_pow2; lia. }
  assert (Z.log2 b < 16).
  { destruct (Z.eq_dec b 0) as [->|]; [cbn; lia|].
    apply Z.log2_lt_pow2; lia. }
  lia.
Qed.

Lemma is_u8_u16 (b : Z) : is_u8 b -> is_u16 b.
Proof. unfold is_u8, is_u16. lia. Qed.

Lemma lxor_cancel_r (a b c : Z) : Z.lxor a c = Z.lxor b c -> a = b.
Proof.
  intros H.
  rewrite <- (Z.lxor_0_r a), <- (Z.lxor_0_r b), <- (Z.lxor_nilpotent c).
  rewrite <- !Z.lxor_assoc.
  now rewrite H.
Qed.

Lemma lxor_cancel_l (a b c : Z) : Z.lxor c a = Z.lxor c b -> a = b.
Proof. rewrite !(Z.lxor_comm c). apply lxor_cancel_r. Qed.

(** ** The CRC engine *)

(** The 16-bit facts about one turn of the inner loop are checked on the
    65536 values of the running CRC. *)
Lemma crc_bit_checked :
  forall_from (Z.to_nat 65536) 0
    (fun t => (0 <=? crc_bit t) && (crc_bit t <? 65536)
              && (crc_bit_inv (crc_bit t) =? t)) = true.
Proof. vm_compute. reflexivity. Qed.

Lemma crc_bit_u16 (t : Z) : is_u16 t -> is_u16 (crc_bit t).
Proof.
  intros Ht. pose proof (forall_from_spec _ _ _ crc_bit_checked t) as H.
  unfold is_u16 in *. rewrite Z2Nat.id in H by lia.
  specialize (H ltac:(lia)). apply andb_true_iff in H as [H _].
  apply andb_true_iff in H as [H0 H1]. lia.
Qed.

Lemma crc_bit_inv_l (t : Z) : is_u16 t -> crc_bit_inv (crc_bit t) = t.
Proof.
  intros Ht. pose proof (forall_from_spec _ _ _ crc_bit_checked t) as H.
  unfold is_u16 in *. rewrite Z2Nat.id in H by lia.
  specialize (H ltac:(lia)). apply andb_true_iff in H as [_ H]. lia.
Qed.

Lemma crc_bit_inj (s t : Z) :
  is_u16 s -> is_u16 t -> crc_bit s = crc_bit t -> s = t.
Proof.
  intros Hs Ht H.
  rewrite <- (crc_bit_inv_l s Hs), <- (crc_bit_inv_l t Ht). now rewrite H.
Qed.

Lemma crc_bits_u16 (n : nat) (t : Z) :
  is_u16 t -> is_u16 (Nat.iter n crc_bit t).
Proof. intros Ht. induction n; cbn; [assumption|]. now apply crc_bit_u16. Qed.

Lemma crc_bits_inj (n : nat) (s t : Z) :
  is_u16 s -> is_u16 t ->
  Nat.iter n crc_bit s = Nat.iter n crc_bit t -> s = t.
Proof.
  intros Hs Ht. induction n as [|n IH]; cbn; [trivial|].
  intros H. apply IH. apply crc_bit_inj; auto using crc_bits_u16.
Qed.

Lemma crc_byte_u16 (t b : Z) : is_u16 t -> is_u8 b -> is_u16 (crc_byte t b).
Proof.
  intros Ht Hb. apply crc_bits_u16, lxor_u16; auto using is_u8_u16.
Qed.

(** The step of the outer loop is one-to-one in the running value ... *)
Lemma crc_byte_inj_state (s t b : Z) :
  is_u16 s -> is_u16 t -> is_u8 b -> crc_byte s b = crc_byte t b -> s = t.
Proof.
  intros Hs Ht Hb H. apply crc_bits_inj in H; auto using lxor_u16, is_u8_u16.
  now apply lxor_cancel_r in H.
Qed.

(** ... and in the byte. *)
Lemma crc_byte_inj_byte (t b c : Z) :
  is_u16 t -> is_u8 b -> is_u8 c -> crc_byte t b = crc_byte t c -> b = c.
Proof.
  intros Ht Hb Hc H. apply crc_bits_inj in H; auto using lxor_u16, is_u8_u16.
  now apply lxor_cancel_l in H.
Qed.

Lemma crc_fold_from_u16 (bytes : list Z) (t : Z) :
  is_u16 t -> Forall is_u8 bytes -> is_u16 (fold_left crc_byte bytes t).
Proof.
  intros Ht Hb. revert t Ht.
  induction Hb as [|b bytes Hb _ IH]; intros t Ht; cbn; [assumption|].
  apply IH. now apply crc_byte_u16.
Qed.

Lemma crc_fold_from_inj (bytes : list Z) (s t : Z) :
  is_u16 s -> is_u16 t -> Forall is_u8 bytes ->
  fold_left crc_byte bytes s = fold_left crc_byte bytes t -> s = t.
Proof.
  intros Hs Ht Hb. revert s t Hs Ht.
  induction Hb as [|b bytes Hb _ IH]; intros s t Hs Ht; cbn; [trivial|].
  intros H. apply IH in H; [|now apply crc_byte_u16..].
  now apply crc_byte_inj_state in H.
Qed.

Lemma seed_u16 : is_u16 0xFFFF.
Proof. unfold is_u16. lia. Qed.

Lemma crc_fold_u16 (bytes : list Z) :
  Forall is_u8 bytes -> is_u16 (crc_fold bytes).
Proof. apply crc_fold_from_u16, seed_u16. Qed.

(** Two sequences that differ in one byte have different running
    values. *)
Lemma crc_fold_one_byte (pre post : list Z) (b c : Z) :
  Forall is_u8 pre -> Forall is_u8 post -> is_u8 b -> is_u8 c -> b <> c ->
  crc_fold (pre ++ b :: post) <> crc_fold (pre ++ c :: post).
Proof.
  intros Hpre Hpost Hb Hc Hne H. unfold crc_fold in H.
  rewrite !fold_left_app in H. cbn in H.
  pose proof (crc_fold_from_u16 pre _ seed_u16 Hpre) as Hs.
  apply crc_fold_from_inj in H; [|now apply crc_byte_u16..|assumption].
  now apply crc_byte_inj_byte in H.
Qed.

(** The swap of the two bytes is checked on the 65536 values: it stays
    within 16 bits, it is its own inverse, and the two bytes that
    [sendTxBuffer] writes join back to the value. *)
Lemma crc_swap_checked :
  forall_from (Z.to_nat 65536) 0
    (fun t => (0 <=? crc_swap t) && (crc_swap t <? 65536)
              && (crc_swap (crc_swap t) =? t)
              && (u16 (Z.lor (Z.shiftl (u8 (Z.shiftr t 8)) 8)
                         (Z.land t 0x00ff)) =? t)
              && (u8 (Z.shiftr t 8) <? 256) && (0 <=? u8 (Z.shiftr t 8))
              && (Z.land t 0x00ff <? 256) && (0 <=? Z.land t 0x00ff)) = true.
Proof. vm_compute. reflexivity. Qed.

Lemma crc_swap_facts (t : Z) :
  is_u16 t ->
  is_u16 (crc_swap t) /\ crc_swap (crc_swap t) = t
  /\ u16 (Z.lor (Z.shiftl (u8 (Z.shiftr t 8)) 8) (Z.land t 0x00ff)) = t
  /\ is_u8 (u8 (Z.shiftr t 8)) /\ is_u8 (Z.land t 0x00ff).
Proof.
  intros Ht. pose proof (forall_from_spec _ _ _ crc_swap_checked t) as H.
  unfold is_u16, is_u8 in *. rewrite Z2Nat.id in H by lia.
  specialize (H ltac:(lia)).
  repeat (apply andb_true_iff in H as [H ?]). lia.
Qed.

Lemma crc16_u16 (bytes : list Z) : Forall is_u8 bytes -> is_u16 (crc16 bytes).
Proof. intros H. apply crc_swap_facts, crc_fold_u16, H. Qed.

Lemma crc16_one_byte (pre post : list Z) (b c : Z) :
  Forall is_u8 pre -> Forall is_u8 post -> is_u8 b -> is_u8 c -> b <> c ->
  crc16 (pre ++ b :: post) <> crc16 (pre ++ c :: post).
Proof.
  intros Hpre Hpost Hb Hc Hne H.
  apply (crc_fold_one_byte pre post b c); auto.
  assert (Forall is_u8 (pre ++ b :: post)) as H1
    by (apply Forall_app; auto).
  assert (Forall is_u8 (pre ++ c :: post)) as H2
    by (apply Forall_app; auto).
  destruct (crc_swap_facts _ (crc_fold_u16 _ H1)) as (_ & <- & _).
  destruct (crc_swap_facts _ (crc_fold_u16 _ H2)) as (_ & <- & _).
  unfold crc16 in H. now rewrite H.
Qed.

(** ** Running the methods *)

Lemma bind_Ok {A B} (c : M A) (k : A -> M B) (now : Z) (m m' : Modbus)
    (a : A) :
  c now m = Ok a m' -> bind c k now m = k a now m'.
Proof. unfold bind. now intros ->. Qed.

Lemma in_array_lt (l : list Z) (i : nat) :
  (i < length l)%nat -> in_array l (Z.of_nat i) = true.
Proof.
  intros H. unfold in_array. apply andb_true_intro.
  split; [apply Z.leb_le | apply Z.ltb_lt]; lia.
Qed.

Lemma in_array_ge (l : list Z) (i : Z) :
  Z.of_nat (length l) <= i -> in_array l i = false.
Proof.
  intros H. unfold in_array. apply andb_false_iff. right.
  apply Z.ltb_ge. lia.
Qed.

Lemma load_Some (arr : Array) (i : nat) (x now : Z) (m : Modbus) :
  field arr m !! i = Some x -> load arr (Z.of_nat i) now m = Ok x m.
Proof.
  intros H. unfold load.
  rewrite in_array_lt by (eapply lookup_lt_Some; eassumption).
  now rewrite Nat2Z.id, H.
Qed.

Lemma store_lt (arr : Array) (i : nat) (v now : Z) (m : Modbus) :
  (i < length (field arr m))%nat ->
  store arr (Z.of_nat i) v now m
  = Ok tt (set_field arr (<[i := v]> (field arr m)) m).
Proof.
  intros H. unfold store. now rewrite in_array_lt, Nat2Z.id by assumption.
Qed.

Lemma store_ge (arr : Array) (i v now : Z) (m : Modbus) :
  Z.of_nat (length (field arr m)) <= i ->
  store arr i v now m = OutOfBounds arr i.
Proof. intros H. unfold store. now rewrite in_array_ge by assumption. Qed.

(** [calcCRC] leaves the object alone and returns the CRC of the first
    [u8length] bytes of the frame buffer. *)
Lemma calcCRC_loop_spec (bytes : list Z) (i : nat) (temp now : Z)
    (m : Modbus) :
  take (length bytes) (drop i (au8Buffer m)) = bytes ->
  calcCRC_loop (length bytes) (Z.of_nat i) temp now m
  = Ok (fold_left crc_byte bytes temp) m.
Proof.
  revert i temp. induction bytes as [|b bytes IH]; intros i temp H; cbn.
  - reflexivity.
  - assert (au8Buffer m !! i = Some b) as Hb.
    { rewrite <- (Nat.add_0_r i), <- lookup_drop.
      destruct (drop i (au8Buffer m)); cbn in H; [discriminate|].
      cbn. congruence. }
    assert (take (length bytes) (drop (S i) (au8Buffer m)) = bytes) as Hr.
    { replace (S i) with (i + 1)%nat by lia. rewrite <- drop_drop.
      destruct (drop i (au8Buffer m)); cbn in H; [discriminate|].
      cbn. rewrite drop_0. congruence. }
    erewrite bind_Ok by (apply (load_Some Arr_au8Buffer); exact Hb).
    replace (Z.of_nat i + 1) with (Z.of_nat (S i)) by lia.
    now apply IH.
Qed.

Lemma calcCRC_spec (bytes : list Z) (now : Z) (m : Modbus) :
  take (length bytes) (au8Buffer m) = bytes ->
  calcCRC (Z.of_nat (length bytes)) now m = Ok (crc16 bytes) m.
Proof.
  intros H. unfold calcCRC. rewrite Nat2Z.id.
  erewrite bind_Ok by (apply (calcCRC_loop_spec bytes 0); exact H).
  reflexivity.
Qed.

Lemma crc_mismatch_spec (body : list Z) (hi lo now : Z) (m : Modbus) :
  holds_frame (body ++ [hi; lo]) m ->
  crc_mismatch now m
  = Ok (negb (crc16 body =? u16 (Z.lor (Z.shiftl hi 8) lo))) m.
Proof.
  intros (Hsize & Htake & Hlen). unfold MAX_BUFFER in Hlen.
  rewrite length_app in Hsize, Htake. cbn [length] in Hsize, Htake.
  assert (length body + 2 <= 64)%nat as Hle.
  { apply (f_equal length) in Htake. rewrite length_take, length_app in Htake.
    cbn [length] in Htake. apply Nat.min_l_iff in Htake. lia. }
  assert (au8Buffer m !! length body = Some hi) as Hhi.
  { rewrite <- (lookup_take_lt _ (length body + 2)) by lia.
    rewrite Htake, lookup_app_r by lia. now rewrite Nat.sub_diag. }
  assert (au8Buffer m !! S (length body) = Some lo) as Hlo.
  { rewrite <- (lookup_take_lt _ (length body + 2)) by lia.
    rewrite Htake, lookup_app_r by lia.
    now replace (S (length body) - length body)%nat with 1%nat by lia. }
  assert (take (length body) (au8Buffer m) = body) as Hbody.
  { transitivity (take (length body) (take (length body + 2) (au8Buffer m))).
    - rewrite take_take. f_equal. symmetry. apply Nat.min_l. lia.
    - now rewrite Htake, take_app_length. }
  unfold crc_mismatch.
  erewrite bind_Ok by reflexivity. rewrite Hsize.
  replace (Z.of_nat (length body + 2) - 2) with (Z.of_nat (length body)) by lia.
  replace (Z.of_nat (length body + 2) - 1) with (Z.of_nat (S (length body)))
    by lia.
  erewrite bind_Ok by (apply (load_Some Arr_au8Buffer); exact Hhi).
  erewrite bind_Ok by (apply (load_Some Arr_au8Buffer); exact Hlo).
  replace (u8 (Z.of_nat (length body))) with (Z.of_nat (length body))
    by (unfold u8; rewrite Z.mod_small; lia).
  erewrite bind_Ok by (apply calcCRC_spec; exact Hbody).
  reflexivity.
Qed.

Lemma u8_small (x : Z) : 0 <= x < 256 -> u8 x = x.
Proof. intros H. unfold u8. now apply Z.mod_small. Qed.

Lemma take_two_inserts (l : list Z) (n : nat) (a b : Z) :
  (n + 2 <= length l)%nat ->
  take (S (S n)) (<[S n := b]> (<[n := a]> l)) = take n l ++ [a; b].
Proof.
  intros H.
  rewrite (take_S_r _ (S n) b)
    by (apply list_lookup_insert_eq; rewrite length_insert; lia).
  rewrite (take_S_r _ n a).
  - rewrite !take_insert_ge by lia. now rewrite <- app_assoc.
  - rewrite list_lookup_insert_ne by lia.
    apply list_lookup_insert_eq. lia.
Qed.

Lemma sendTxBuffer_spec (bytes : list Z) (now : Z) (m : Modbus) :
  u8BufferSize m = Z.of_nat (length bytes) ->
  take (length bytes) (au8Buffer m) = bytes ->
  (length bytes + 2 <= length (au8Buffer m))%nat ->
  (length bytes + 2 < 256)%nat ->
  exists m',
    sendTxBuffer now m = Ok tt m'
    /\ tx_line (port m') = tx_line (port m) ++ with_crc bytes
    /\ rx_queue (port m') = rx_queue (port m)
    /\ u32timeOut m' = u32 (now + u16timeOut m)
    /\ u16OutCnt m' = u16 (u16OutCnt m + 1)
    /\ u8BufferSize m' = 0
    /\ u8state m' = u8state m /\ u8lastError m' = u8lastError m
    /\ u16errCnt m' = u16errCnt m /\ u16timeOut m' = u16timeOut m
    /\ u8id m' = u8id m.
Proof.
  intros Hsize Htake Hlen Hsmall. destruct m. cbn in Hsize, Htake, Hlen.
  subst u8BufferSize0. unfold sendTxBuffer.
  erewrite bind_Ok by reflexivity. cbn [u8BufferSize].
  erewrite bind_Ok by (apply calcCRC_spec; exact Htake).
  erewrite bind_Ok by (apply store_lt; cbn; lia).
  erewrite bind_Ok by reflexivity.
  erewrite bind_Ok by reflexivity.
  cbn [u8BufferSize set_u8BufferSize set_field set_au8Buffer field au8Buffer
       port u8id u8state u8lastError u8lastRec au16regs u16InCnt u16OutCnt
       u16errCnt u16timeOut r_regArea rw_regArea r_bitArea rw_bitArea u32time
       u32timeOut u8regsize].
  rewrite (u8_small (Z.of_nat (length bytes) + 1)) by lia.
  replace (Z.of_nat (length bytes) + 1) with (Z.of_nat (S (length bytes)))
    by lia.
  erewrite bind_Ok by (apply store_lt; cbn; rewrite length_insert; lia).
  eexists. split; [reflexivity|].
  cbn. rewrite u8_small by lia.
  replace (Z.to_nat (Z.of_nat (S (length bytes)) + 1))
    with (S (S (length bytes))) by lia.
  rewrite take_two_inserts, Htake by lia.
  repeat split; reflexivity.
Qed.

Lemma load_in (arr : Array) (i now : Z) (m : Modbus) :
  in_array (field arr m) i = true ->
  load arr i now m = Ok (default 0 (field arr m !! Z.to_nat i)) m.
Proof. intros H. unfold load. now rewrite H. Qed.

(** A frame buffer of [MAX_BUFFER] bytes has the header bytes. *)
Lemma header_in_array (m : Modbus) (i : Z) :
  Z.of_nat (length (au8Buffer m)) = MAX_BUFFER -> 0 <= i < 64 ->
  in_array (field Arr_au8Buffer m) i = true.
Proof.
  unfold MAX_BUFFER, in_array. cbn [field]. intros -> H.
  apply andb_true_intro. split; [apply Z.leb_le | apply Z.ltb_lt]; lia.
Qed.

Ltac load_header H :=
  erewrite bind_Ok
    by (apply load_in, header_in_array;
        [exact H | unfold FUNC, ADD_HI, ADD_LO, NB_HI, NB_LO; lia]).

(** [validateRequest] returns [NO_REPLY] exactly when the CRC check
    fails. *)
Lemma validateRequest_crc (bad : bool) (now : Z) (m : Modbus) :
  Z.of_nat (length (au8Buffer m)) = MAX_BUFFER ->
  crc_mismatch now m = Ok bad m ->
  if bad then crc_rejected validateRequest now m
  else crc_accepted validateRequest now m.
Proof.
  intros Hlen Hcrc. unfold crc_rejected, crc_accepted, validateRequest.
  erewrite bind_Ok by exact Hcrc. destruct bad.
  - eexists. reflexivity.
  - load_header Hlen.
    destruct (negb (isSupported _));
      [eexists _, _; split; [reflexivity | discriminate]|].
    repeat load_header Hlen.
    repeat match goal with
           | |- context [if ?c then _ else _] => destruct c
           end;
      eexists _, _; (split; [reflexivity | discriminate]).
Qed.

(** So does [validateAnswer]. *)
Lemma validateAnswer_crc (bad : bool) (now : Z) (m : Modbus) :
  Z.of_nat (length (au8Buffer m)) = MAX_BUFFER ->
  crc_mismatch now m = Ok bad m ->
  if bad then crc_rejected validateAnswer now m
  else crc_accepted validateAnswer now m.
Proof.
  intros Hlen Hcrc. unfold crc_rejected, crc_accepted, validateAnswer.
  erewrite bind_Ok by exact Hcrc. destruct bad.
  - eexists. reflexivity.
  - load_header Hlen.
    repeat match goal with
           | |- context [if ?c then _ else _] => destruct c
           end;
      eexists _, _; (split; [reflexivity | discriminate]).
Qed.

(** The word carried by the last two bytes of a frame, checked on all
    pairs of bytes; and a flipped bit changes a byte. *)
Lemma msg_crc_checked :
  forall_from 256 0 (fun hi => forall_from 256 0 (fun lo =>
    u16 (Z.lor (Z.shiftl hi 8) lo) =? hi * 256 + lo)) = true.
Proof. vm_compute. reflexivity. Qed.

Lemma msg_crc_value (hi lo : Z) :
  is_u8 hi -> is_u8 lo -> u16 (Z.lor (Z.shiftl hi 8) lo) = hi * 256 + lo.
Proof.
  unfold is_u8. intros Hhi Hlo.
  pose proof (forall_from_spec _ _ _ msg_crc_checked hi ltac:(lia)) as H.
  cbv beta in H.
  pose proof (forall_from_spec _ _ _ H lo ltac:(lia)) as H'.
  cbv beta in H'. lia.
Qed.

Lemma flip_bit_checked :
  forall_from 256 0 (fun b => forall_from 8 0 (fun k =>
    (0 <=? flip_bit b k) && (flip_bit b k <? 256)
    && negb (flip_bit b k =? b))) = true.
Proof. vm_compute. reflexivity. Qed.

Lemma flip_bit_u8 (b k : Z) :
  is_u8 b -> 0 <= k < 8 -> is_u8 (flip_bit b k) /\ flip_bit b k <> b.
Proof.
  unfold is_u8. intros Hb Hk.
  pose proof (forall_from_spec _ _ _ flip_bit_checked b ltac:(lia)) as H.
  cbv beta in H.
  pose proof (forall_from_spec _ _ _ H k ltac:(lia)) as H'.
  cbv beta in H'. apply andb_true_iff in H' as [H' Hne].
  apply andb_true_iff in H' as [H0 H1].
  apply negb_true_iff, Z.eqb_neq in Hne. lia.
Qed.

(** The two bytes that [sendTxBuffer] appends carry the CRC. *)
Lemma with_crc_check (bytes : list Z) :
  Forall is_u8 bytes ->
  let hi := u8 (Z.shiftr (crc16 bytes) 8) in
  let lo := Z.land (crc16 bytes) 0x00ff in
  is_u8 hi /\ is_u8 lo /\ crc16 bytes = hi * 256 + lo.
Proof.
  intros H hi lo.
  destruct (crc_swap_facts _ (crc16_u16 _ H)) as (_ & _ & Hj & Hhi & Hlo).
  repeat split; try apply Hhi; try apply Hlo.
  subst hi lo. now rewrite <- msg_crc_value, Hj.
Qed.

Lemma with_crc_u8 (bytes : list Z) :
  Forall is_u8 bytes -> Forall is_u8 (with_crc bytes).
Proof.
  intros H. destruct (with_crc_check bytes H) as (Hhi & Hlo & _).
  unfold with_crc. apply Forall_app. split; [assumption|].
  constructor; [assumption|]. constructor; [assumption|]. constructor.
Qed.

(** A frame that carries its CRC passes the check. *)
Lemma crc_mismatch_with_crc (bytes : list Z) (now : Z) (m : Modbus) :
  Forall is_u8 bytes -> holds_frame (with_crc bytes) m ->
  crc_mismatch now m = Ok false m.
Proof.
  intros Hb Hm. unfold with_crc in Hm.
  rewrite (crc_mismatch_spec _ _ _ _ _ Hm).
  destruct (with_crc_check bytes Hb) as (Hhi & Hlo & Hcrc).
  rewrite msg_crc_value, <- Hcrc, Z.eqb_refl by assumption. reflexivity.
Qed.

(** A frame that carries its CRC, with one bit flipped in the bytes or in
    the CRC, fails it. *)
Lemma crc_mismatch_flipped (bytes : list Z) (i : nat) (k now : Z)
    (m : Modbus) :
  Forall is_u8 bytes -> (i < length (with_crc bytes))%nat -> 0 <= k < 8 ->
  holds_frame (flip_at i k (with_crc bytes)) m ->
  crc_mismatch now m = Ok true m.
Proof.
  intros Hb Hi Hk Hm.
  destruct (with_crc_check bytes Hb) as (Hhi & Hlo & Hcrc).
  unfold with_crc in *. rewrite length_app in Hi. cbn [length] in Hi.
  set (hi := u8 (Z.shiftr (crc16 bytes) 8)) in *.
  set (lo := Z.land (crc16 bytes) 0x00ff) in *.
  unfold flip_at in Hm.
  destruct (Nat.lt_ge_cases i (length bytes)) as [Hlt|Hge].
  - (* a bit of the byte sequence *)
    destruct (lookup_lt_is_Some_2 bytes i Hlt) as [b Hbi].
    rewrite lookup_app_l, Hbi, insert_app_l in Hm by assumption.
    rewrite (crc_mismatch_spec _ _ _ _ _ Hm).
    rewrite insert_take_drop by assumption.
    rewrite msg_crc_value, <- Hcrc by assumption.
    pose proof (take_drop_middle bytes i b Hbi) as Hmid.
    assert (is_u8 b) as Hbu8 by (eapply Forall_lookup_1; eassumption).
    destruct (flip_bit_u8 b k Hbu8 Hk) as [Hf Hne].
    assert (crc16 (take i bytes ++ flip_bit b k :: drop (S i) bytes)
            <> crc16 bytes) as Hcne.
    { rewrite <- Hmid at 3.
      apply crc16_one_byte; auto using Forall_take, Forall_drop. }
    apply Z.eqb_neq in Hcne. now rewrite Hcne.
  - destruct (Nat.eq_dec i (length bytes)) as [->|Hne].
    + (* a bit of the first CRC byte *)
      rewrite lookup_app_r, Nat.sub_diag in Hm by lia. cbn in Hm.
      rewrite <- (Nat.add_0_r (length bytes)), insert_app_r in Hm.
      cbn in Hm. rewrite (crc_mismatch_spec _ _ _ _ _ Hm).
      destruct (flip_bit_u8 hi k Hhi Hk) as [Hf Hfne].
      rewrite msg_crc_value by assumption.
      assert (crc16 bytes <> flip_bit hi k * 256 + lo) as Hcne
        by (unfold is_u8 in *; lia).
      apply Z.eqb_neq in Hcne. now rewrite Hcne.
    + (* a bit of the second CRC byte *)
      assert (i = length bytes + 1)%nat as -> by lia.
      rewrite lookup_app_r in Hm by lia.
      replace (length bytes + 1 - length bytes)%nat with 1%nat in Hm by lia.
      cbn in Hm. rewrite insert_app_r in Hm.
      cbn in Hm. rewrite (crc_mismatch_spec _ _ _ _ _ Hm).
      destruct (flip_bit_u8 lo k Hlo Hk) as [Hf Hfne].
      rewrite msg_crc_value by assumption.
      assert (crc16 bytes <> hi * 256 + flip_bit lo k) as Hcne
        by (unfold is_u8 in *; lia).
      apply Z.eqb_neq in Hcne. now rewrite Hcne.
Qed.

(** ** The CRC round trip *)

(** C2: for every byte sequence held by the frame buffer, [sendTxBuffer]
    puts the bytes on the line followed by the CRC of [calcCRC], low byte
    first and high byte second; a frame buffer that holds the frame so
    sent passes the CRC check of [validateRequest] and of
    [validateAnswer]; and a frame buffer that holds it with any one bit
    flipped, in the bytes or in the CRC, fails the check of both. *)
Theorem crc_roundtrip (bytes : list Z) (now : Z) (sender : Modbus) :
  Forall is_u8 bytes ->
  holds_frame bytes sender ->
  (length bytes + 2 <= 64)%nat ->
  exists sender',
    sendTxBuffer now sender = Ok tt sender'
    /\ tx_line (port sender') = tx_line (port sender) ++ with_crc bytes
    /\ (forall now' rcv,
          holds_frame (with_crc bytes) rcv ->
          crc_accepted validateRequest now' rcv
          /\ crc_accepted validateAnswer now' rcv)
    /\ (forall now' rcv (i : nat) (k : Z),
          (i < length (with_crc bytes))%nat -> 0 <= k < 8 ->
          holds_frame (flip_at i k (with_crc bytes)) rcv ->
          crc_rejected validateRequest now' rcv
          /\ crc_rejected validateAnswer now' rcv).
Proof.
  intros Hb (Hsize & Htake & Hlen) Hfit. unfold MAX_BUFFER in Hlen.
  destruct (sendTxBuffer_spec bytes now sender Hsize Htake)
    as (sender' & Hsend & Htx & _); [lia..|].
  exists sender'. split; [exact Hsend|]. split; [exact Htx|]. split.
  - intros now' rcv Hrcv.
    pose proof (crc_mismatch_with_crc bytes now' rcv Hb Hrcv) as Hcrc.
    destruct Hrcv as (_ & _ & Hl). split.
    + exact (validateRequest_crc false now' rcv Hl Hcrc).
    + exact (validateAnswer_crc false now' rcv Hl Hcrc).
  - intros now' rcv i k Hi Hk Hrcv.
    pose proof (crc_mismatch_flipped bytes i k now' rcv Hb Hi Hk Hrcv)
      as Hcrc.
    destruct Hrcv as (_ & _ & Hl). split.
    + exact (validateRequest_crc true now' rcv Hl Hcrc).
    + exact (validateAnswer_crc true now' rcv Hl Hcrc).
Qed.

Lemma crc_roundtrip_witness :
  exists sender',
    sendTxBuffer 0 sender_fc3 = Ok tt sender'
    /\ tx_line (port sender')
       = tx_line (port sender_fc3) ++ with_crc fc3_request
    /\ (forall now' rcv,
          holds_frame (with_crc fc3_request) rcv ->
          crc_accepted validateRequest now' rcv
          /\ crc_accepted validateAnswer now' rcv)
    /\ (forall now' rcv (i : nat) (k : Z),
          (i < length (with_crc fc3_request))%nat -> 0 <= k < 8 ->
          holds_frame (flip_at i k (with_crc fc3_request)) rcv ->
          crc_rejected validateRequest now' rcv
          /\ crc_rejected validateAnswer now' rcv).
Proof.
  apply (crc_roundtrip fc3_request 0 sender_fc3).
  - repeat (constructor; [unfold is_u8; lia|]). constructor.
  - repeat split; reflexivity.
  - cbn. lia.
Defined.

(** ** The master: [query] and [poll] *)

(** The first test of [poll] is the watchdog: when it fires, nothing else
    of [poll] runs. *)
Lemma poll_watchdog_fired (now : Z) (m : Modbus) :
  watchdog_fired now (u32timeOut m) = true ->
  poll now m
  = Ok 0 (set_u16errCnt (u16 (u16errCnt m + 1))
            (set_u8lastError NO_REPLY (set_u8state COM_IDLE m))).
Proof.
  intros H. unfold poll, bind, available, get, millis. rewrite H.
  reflexivity.
Qed.

(** C10: whenever the clock is past the stored deadline, [poll] sets the
    state to [COM_IDLE], sets the last error to [NO_REPLY], adds one to
    the error counter and returns 0, whatever the communication state
    and whatever waits at the port; nothing else changes. *)
Theorem poll_watchdog_first (now : Z) (m : Modbus) :
  u32timeOut m < now ->
  poll now m
  = Ok 0 (set_u16errCnt (u16 (u16errCnt m + 1))
            (set_u8lastError NO_REPLY (set_u8state COM_IDLE m))).
Proof.
  intros H. apply poll_watchdog_fired. unfold watchdog_fired.
  now apply Z.ltb_lt.
Qed.

Lemma poll_watchdog_first_witness :
  u8state idle_master_with_bytes = COM_IDLE
  /\ rx_queue (port idle_master_with_bytes) = [1; 2; 3]
  /\ poll 5 idle_master_with_bytes
     = Ok 0 (set_u16errCnt 1
               (set_u8lastError NO_REPLY
                  (set_u8state COM_IDLE idle_master_with_bytes))).
Proof.
  split; [reflexivity|]. split; [reflexivity|].
  apply (poll_watchdog_first 5 idle_master_with_bytes). cbn. lia.
Defined.


(** ** Deadlines *)

(** A query that leaves at 4294966796 arms the deadline 500,
    and the [poll] that comes 100 ms later gives the reply up. *)
Lemma poll_gives_up_early :
  let m1 := master_after_query 4294966796 in
  query read_two_regs 4294966796 (Modbus_begin 0) = Ok 0 m1
  /\ u32timeOut m1 = 500
  /\ poll 4294966896 m1
     = Ok 0 (set_u16errCnt 1
               (set_u8lastError NO_REPLY (set_u8state COM_IDLE m1))).
Proof. vm_compute. repeat split; reflexivity. Qed.

(** ** What the methods keep *)

Lemma bind_inv {A B} (c : M A) (k : A -> M B) (now : Z) (m m' : Modbus)
    (b : B) :
  bind c k now m = Ok b m' ->
  exists a m1, c now m = Ok a m1 /\ k a now m1 = Ok b m'.
Proof.
  unfold bind. destruct (c now m) as [a m1| |]; [|discriminate..].
  intros H. now exists a, m1.
Qed.

Section Kept.

Context {B : Type} (f : Modbus -> B).

Lemma kept_ret {A} (a : A) : kept f (ret a).
Proof. intros now m a' m' [= _ <-]. reflexivity. Qed.

Lemma kept_bind {A C} (c : M A) (k : A -> M C) :
  kept f c -> (forall a, kept f (k a)) -> kept f (bind c k).
Proof.
  intros Hc Hk now m b m' H.
  apply bind_inv in H as (a & m1 & H1 & H2).
  rewrite (Hk a _ _ _ _ H2). exact (Hc _ _ _ _ H1).
Qed.

Lemma kept_get {A} (g : Modbus -> A) : kept f (get g).
Proof. intros now m a' m' [= _ <-]. reflexivity. Qed.

Lemma kept_millis : kept f millis.
Proof. intros now m a' m' [= _ <-]. reflexivity. Qed.

Lemma kept_hang {A} : kept f (@hang A).
Proof. intros now m a' m' [=]. Qed.

Lemma kept_modify (g : Modbus -> Modbus) :
  (forall m, f (g m) = f m) -> kept f (modify g).
Proof. intros Hg now m a' m' [= _ <-]. apply Hg. Qed.

Lemma kept_load (arr : Array) (i : Z) : kept f (load arr i).
Proof.
  intros now m a' m'. unfold load.
  destruct (in_array _ _); [|discriminate]. now intros [= _ <-].
Qed.

Lemma kept_store (arr : Array) (i v : Z) :
  (forall l m, f (set_field arr l m) = f m) -> kept f (store arr i v).
Proof.
  intros Hs now m a' m'. unfold store.
  destruct (in_array _ _); [|discriminate]. intros [= _ <-]. apply Hs.
Qed.

Lemma kept_for_u16 (body : Z -> M unit) (n : nat) (i : Z) :
  (forall j, kept f (body j)) -> kept f (for_u16 n i body).
Proof.
  intros Hb. revert i. induction n as [|n IH]; intros i; cbn [for_u16].
  - apply kept_ret.
  - apply kept_bind; [apply Hb | intros _; apply IH].
Qed.

Lemma kept_for_u8 (body : Z -> M unit) (fuel : nat) (i bound : Z) :
  (forall j, kept f (body j)) -> kept f (for_u8 fuel i bound body).
Proof.
  intros Hb. revert i. induction fuel as [|fuel IH]; intros i; cbn [for_u8].
  - apply kept_hang.
  - destruct (i <? bound); [|apply kept_ret].
    apply kept_bind; [apply Hb | intros _; apply IH].
Qed.

Lemma kept_calcCRC_loop (n : nat) (i temp : Z) :
  kept f (calcCRC_loop n i temp).
Proof.
  revert i temp. induction n as [|n IH]; intros i temp;
    cbn [calcCRC_loop].
  - apply kept_ret.
  - apply kept_bind; [apply kept_load | intros b; apply IH].
Qed.

End Kept.

Lemma kept_calcCRC {B} (f : Modbus -> B) (u8length : Z) :
  kept f (calcCRC u8length).
Proof.
  unfold calcCRC. apply kept_bind; [apply kept_calcCRC_loop|].
  intros temp. apply kept_ret.
Qed.

(** The steps of a proof that a method keeps [f]: the method is taken
    apart at its binds and its tests. *)
Ltac kept_step :=
  lazymatch goal with
  | |- kept _ (ret _) => apply kept_ret
  | |- kept _ (get _) => apply kept_get
  | |- kept _ millis => apply kept_millis
  | |- kept _ hang => apply kept_hang
  | |- kept _ (load _ _) => apply kept_load
  | |- kept _ (store _ _ _) => apply kept_store; intros; reflexivity
  | |- kept _ (modify _) => apply kept_modify; intros; reflexivity
  | |- kept _ (bind _ _) => apply kept_bind; [|intros ?]
  | |- kept _ (if ?c then _ else _) => destruct c
  | |- kept _ (calcCRC _) => apply kept_calcCRC
  | |- kept _ (for_u16 _ _ _) => apply kept_for_u16; intros ?
  | |- kept _ (for_u8 _ _ _ _) => apply kept_for_u8; intros ?
  | |- kept _ incr_u8BufferSize => unfold incr_u8BufferSize
  | |- kept _ incr_u16errCnt => unfold incr_u16errCnt
  end.

Lemma kept_query_payload (telegram : modbus_t) :
  kept counters (query_payload telegram).
Proof.
  unfold query_payload. cbv zeta. repeat kept_step.
  unfold query_FC16_body. repeat kept_step.
Qed.

Section Post.

Context {A : Type} (now : Z) (m : Modbus) (Q : A -> Modbus -> Prop).

Lemma post_ret (a : A) : Q a m -> post (ret a) now m Q.
Proof. intros H a' m' [= <- <-]. exact H. Qed.

Lemma post_bind {C} (c : M C) (k : C -> M A) :
  post c now m (fun x m1 => post (k x) now m1 Q) -> post (bind c k) now m Q.
Proof.
  intros H a m' Hb. apply bind_inv in Hb as (x & m1 & H1 & H2).
  exact (H x m1 H1 a m' H2).
Qed.

Lemma post_kept {B} (f : Modbus -> B) (c : M A) :
  kept f c -> (forall a m', f m' = f m -> Q a m') -> post c now m Q.
Proof. intros Hk HQ a m' Hc. apply HQ. exact (Hk _ _ _ _ Hc). Qed.

Lemma post_get (g : Modbus -> A) : Q (g m) m -> post (get g) now m Q.
Proof. intros H a' m' [= <- <-]. exact H. Qed.

End Post.

(** One step of a method that keeps the counters. *)
Ltac keeps_counters :=
  apply post_bind; apply (post_kept _ _ _ counters);
  [repeat kept_step | intros ? ? ?].

(** When [sendTxBuffer] returns, the watchdog deadline is the clock plus
    the configured time-out; the error counter and the time-out are
    kept. *)
Lemma sendTxBuffer_arms (now : Z) (m m' : Modbus) :
  sendTxBuffer now m = Ok tt m' ->
  u32timeOut m' = u32 (now + u16timeOut m) /\ counters m' = counters m.
Proof.
  revert m'.
  assert (post sendTxBuffer now m (fun _ m' =>
    u32timeOut m' = u32 (now + u16timeOut m) /\ counters m' = counters m))
    as H; [|intros m' Hs; exact (H tt m' Hs)].
  unfold sendTxBuffer. do 9 keeps_counters.
  intros r mf [= _ <-]. unfold counters in *. cbn.
  split; congruence.
Qed.

(** When [query] returns 0, the master waits, its watchdog deadline is
    the clock plus the configured time-out, and the error counter is
    kept. *)
Lemma query_arms (telegram : modbus_t) (now : Z) (m m' : Modbus) :
  query telegram now m = Ok 0 m' ->
  u8state m' = COM_WAITING
  /\ u32timeOut m' = u32 (now + u16timeOut m)
  /\ u16errCnt m' = u16errCnt m.
Proof.
  revert m'.
  assert (post (query telegram) now m (fun r m' => r = 0 ->
    u8state m' = COM_WAITING
    /\ u32timeOut m' = u32 (now + u16timeOut m)
    /\ u16errCnt m' = u16errCnt m))
    as H; [|intros m' Hs; exact (H 0 m' Hs eq_refl)].
  unfold query.
  apply post_bind, post_get.
  destruct (negb _); [apply post_ret; discriminate|].
  apply post_bind, post_get.
  destruct (negb _); [apply post_ret; discriminate|].
  destruct (_ || _); [apply post_ret; discriminate|].
  do 5 keeps_counters.
  apply post_bind, (post_kept _ _ _ counters); [apply kept_query_payload|].
  intros ? ? ?.
  apply post_bind. intros [] m7 Hsend. apply sendTxBuffer_arms in Hsend.
  intros r mf [= _ <-] _. unfold counters in *. cbn.
  repeat split; try reflexivity; destruct Hsend; congruence.
Qed.

(** ** The reply time-out *)

(** C6, as the code has it: after a query that left when the clock read
    [t0], a [poll] at a clock reading [t1] past [t0] plus the configured
    time-out (the clock not having wrapped in between) returns 0, sets
    the last error to [NO_REPLY], adds one to the error counter
    (modulo 65536), leaves the state [COM_IDLE] and leaves the port as it
    was. *)
Theorem reply_timeout (telegram : modbus_t) (t0 t1 : Z) (m m1 : Modbus) :
  query telegram t0 m = Ok 0 m1 ->
  0 <= t0 -> 0 <= u16timeOut m ->
  t0 + u16timeOut m < t1 -> t1 < 4294967296 ->
  exists m2,
    poll t1 m1 = Ok 0 m2
    /\ u8state m2 = COM_IDLE
    /\ u8lastError m2 = NO_REPLY
    /\ u16errCnt m2 = u16 (u16errCnt m + 1)
    /\ port m2 = port m1.
Proof.
  intros Hq H0 Ht Hlt Hwrap.
  apply query_arms in Hq as (_ & Hdeadline & Herr).
  assert (u32timeOut m1 < t1) as Hfired.
  { rewrite Hdeadline. unfold u32. rewrite Z.mod_small; lia. }
  apply Z.ltb_lt in Hfired.
  eexists. split; [exact (poll_watchdog_fired t1 m1 Hfired)|].
  cbn. now rewrite Herr.
Qed.

Lemma reply_timeout_witness :
  exists m2,
    poll 1001 (master_after_query 0) = Ok 0 m2
    /\ u8state m2 = COM_IDLE
    /\ u8lastError m2 = NO_REPLY
    /\ u16errCnt m2 = u16 (u16errCnt (Modbus_begin 0) + 1)
    /\ port m2 = port (master_after_query 0).
Proof.
  apply (reply_timeout read_two_regs 0 1001 (Modbus_begin 0)
           (master_after_query 0)).
  - vm_compute. reflexivity.
  - lia.
  - cbn. lia.
  - cbn. lia.
  - lia.
Defined.

(** C6, as stated, fails on the value returned: the master sends a query
    at 0 with the time-out of 1000 ms, nothing arrives, and the [poll] at
    1001 returns 0, not [NO_REPLY]. *)
Lemma reply_timeout_counterexample :
  query read_two_regs 0 (Modbus_begin 0) = Ok 0 (master_after_query 0)
  /\ rx_queue (port (master_after_query 0)) = []
  /\ u32timeOut (master_after_query 0) < 1001
  /\ ~ exists m2, poll 1001 (master_after_query 0) = Ok NO_REPLY m2.
Proof.
  split; [vm_compute; reflexivity|]. split; [vm_compute; reflexivity|].
  split; [vm_compute; reflexivity|].
  intros (m2 & H). vm_compute in H. discriminate H.
Qed.

(** ** The slave: validation and the handlers *)

(** C1 at a request the code accepts: function 6 for address 16.  The
    drained frame passes [validateRequest] (16 is not above
    [SIZE_RW_REGS]), and [process_FC6] stores at index 16 of the sixteen
    read-write registers. *)
Theorem fc6_stores_past_the_end (u8regsno : Z) :
  let m := slave_with_frame 1 fc6_past_the_end in
  let received := final m (getRxBuffer 10 m) in
  Z.of_nat (length (rw_regArea m)) = SIZE_RW_REGS
  /\ getRxBuffer 10 m = Ok 8 received
  /\ validateRequest 10 received = Ok 0 received
  /\ process_FC6 10 received = OutOfBounds Arr_rw_regArea 16
  /\ poll_slave u8regsno [] 0 10 m = OutOfBounds Arr_rw_regArea 16.
Proof. vm_compute. repeat split; reflexivity. Qed.

(** The sum of start address and quantity is kept in 16 bits: a
    write-multiple-registers request for 65535 registers from address 1
    passes the validation as well. *)
Lemma validateRequest_wraps :
  let m := slave_with_frame 1 (with_crc [1; 16; 0; 1; 255; 255; 0]) in
  let received := final m (getRxBuffer 10 m) in
  validateRequest 10 received = Ok 0 received
  /\ process_FC16 10 received = OutOfBounds Arr_rw_regArea 16.
Proof. vm_compute. split; reflexivity. Qed.

(** [process_FC3] uses the undeclared [u8regsno] for the byte count only,
    and only modulo 256. *)
Lemma process_read_regs_byte_count (u8regsno : Z) (regs : Array) :
  process_read_regs u8regsno regs
  = process_read_regs (u8 (u8regsno * 2) / 2) regs.
Proof.
  unfold process_read_regs.
  replace (u8 (u8 (u8regsno * 2) / 2 * 2)) with (u8 (u8regsno * 2));
    [reflexivity|].
  unfold u8.
  replace 256 with (128 * 2) by reflexivity.
  rewrite Zmult_mod_distr_r. rewrite Z.div_mul by lia.
  rewrite Zmult_mod_distr_r. now rewrite Z.mod_mod by lia.
Qed.

Lemma poll_slave_byte_count (u8regsno : Z) :
  exists k,
    0 <= k < 128
    /\ u8 (u8regsno * 2) = u8 (k * 2)
    /\ poll_slave u8regsno = poll_slave k.
Proof.
  exists (u8 (u8regsno * 2) / 2). split; [|split].
  - unfold u8.
    pose proof (Z.mod_pos_bound (u8regsno * 2) 256 ltac:(lia)).
    split; [apply Z.div_pos; lia | apply Z.div_lt_upper_bound; lia].
  - unfold u8. replace 256 with (128 * 2) by reflexivity.
    rewrite Zmult_mod_distr_r. rewrite Z.div_mul by lia.
    rewrite Zmult_mod_distr_r. now rewrite Z.mod_mod by lia.
  - unfold poll_slave, poll_slave_dispatch, process_FC3.
    now rewrite process_read_regs_byte_count.
Qed.

Lemma fc3_reply_checked : forall_from 128 0 fc3_reply_check = true.
Proof. vm_compute. reflexivity. Qed.

Lemma fc3_reply_check_true (k : Z) :
  fc3_reply_check k = true ->
  exists m',
    poll_slave k [] 0 10 slave_1234_5678 = Ok 9 m'
    /\ tx_line (port m') = with_crc [1; 3; u8 (k * 2); 0; 0; 2; 196]
    /\ rw_regArea m' = [0; 0x02C4] ++ replicate 14 0.
Proof.
  unfold fc3_reply_check.
  destruct (poll_slave k [] 0 10 slave_1234_5678) as [r m'| |];
    [|discriminate..].
  intros H. apply andb_true_iff in H as [H Hregs].
  apply andb_true_iff in H as [Hr Htx].
  apply Z.eqb_eq in Hr. apply bool_decide_eq_true in Htx, Hregs.
  subst r. exists m'. split; [reflexivity|]. split; assumption.
Qed.

(** C4 at the request of the claim, a read of two registers from address
    0 on a store holding [0x1234; 0x5678]: the reply of the code is not
    [04 12 34 56 78].  [process_FC3] copies from the frame buffer into
    the registers, so the payload that follows the byte count is what the
    request had at those places, [00 00 02 C4], and the two registers are
    overwritten with it; this holds whatever [u8regsno] is. *)
Theorem fc3_reply_is_not_the_registers (u8regsno : Z) :
  exists m',
    poll_slave u8regsno [] 0 10 slave_1234_5678 = Ok 9 m'
    /\ tx_line (port m')
       = with_crc [1; 3; u8 (u8regsno * 2); 0; 0; 2; 196]
    /\ rw_regArea m' = [0; 0x02C4] ++ replicate 14 0.
Proof.
  destruct (poll_slave_byte_count u8regsno) as (k & Hk & -> & ->).
  apply fc3_reply_check_true.
  apply (forall_from_spec _ _ _ fc3_reply_checked). cbn. lia.
Qed.

(** ** The exception reply *)

(** The exception reply, for any frame buffer of [MAX_BUFFER] bytes: the
    node address, the function byte of the request plus [0x80] modulo
    256, the exception code, and the CRC. *)
Lemma send_exception_spec (u8exception now : Z) (m : Modbus) :
  Z.of_nat (length (au8Buffer m)) = MAX_BUFFER ->
  exists m',
    send_exception u8exception now m = Ok tt m'
    /\ tx_line (port m')
       = tx_line (port m)
         ++ with_crc [u8id m;
                      u8 (default 0 (au8Buffer m !! 1%nat) + 0x80);
                      u8exception].
Proof.
  intros Hlen. unfold MAX_BUFFER in Hlen.
  unfold send_exception, buildException.
  erewrite bind_Ok.
  2:{ erewrite bind_Ok
        by (apply load_in, header_in_array; [exact Hlen | unfold FUNC; lia]).
      erewrite bind_Ok by reflexivity.
      erewrite bind_Ok by (apply (store_lt _ 0); cbn; lia).
      erewrite bind_Ok
        by (apply (store_lt _ 1); cbn; rewrite length_insert; lia).
      erewrite bind_Ok
        by (apply (store_lt _ 2); cbn; rewrite !length_insert; lia).
      reflexivity. }
  cbn [field set_field u8id set_au8Buffer set_u8BufferSize FUNC
       Z.to_nat Pos.to_nat Pos.iter_op Nat.add].
  match goal with
  | |- context [sendTxBuffer now ?s] =>
      destruct (sendTxBuffer_spec
                  [u8id m; u8 (default 0 (au8Buffer m !! 1%nat) + 0x80);
                   u8exception] now s)
        as (m' & Hsend & Htx & _)
  end.
  - reflexivity.
  - cbn. destruct (au8Buffer m) as [|b0 [|b1 [|b2 l]]]; cbn in Hlen; try lia.
    reflexivity.
  - cbn. rewrite !length_insert. lia.
  - cbn. lia.
  - exists m'. split; [exact Hsend|]. rewrite Htx. reflexivity.
Qed.

(** C7 at a request the slave can receive: function byte [0x83],
    addressed to slave 1, with a good CRC.  The function code is not
    supported, the slave answers with exception 1, and the function byte
    of its reply is [0x83 + 0x80] cut to eight bits, [0x03]: bit [0x80]
    is not set.  The same request with a bad CRC gets no reply. *)
Theorem exception_reply_loses_its_bit (u8regsno : Z) :
  let m := slave_with_frame 1 fc83_request in
  let m' := final m (poll_slave u8regsno [] 0 10 m) in
  let bad := slave_with_frame 1 fc83_bad_crc in
  poll_slave u8regsno [] 0 10 m = Ok EXC_FUNC_CODE m'
  /\ tx_line (port m') = with_crc [1; 0x03; EXC_FUNC_CODE]
  /\ Z.land 0x03 0x80 = 0
  /\ tx_line (port (final bad (poll_slave u8regsno [] 0 10 bad))) = [].
Proof. vm_compute. repeat split; reflexivity. Qed.

(** For a function byte below [0x80] the sum sets the bit. *)
Lemma exception_bit_set (u8func : Z) :
  0 <= u8func < 128 ->
  u8 (u8func + 0x80) = Z.lor u8func 0x80
  /\ Z.land (u8 (u8func + 0x80)) 0x80 = 0x80.
Proof.
  intros H.
  assert (forall_from 128 0 (fun f =>
            (u8 (f + 0x80) =? Z.lor f 0x80)
            && (Z.land (u8 (f + 0x80)) 0x80 =? 0x80)) = true) as Hall
    by (vm_compute; reflexivity).
  pose proof (forall_from_spec _ _ _ Hall u8func ltac:(lia)) as Hf.
  cbv beta in Hf. apply andb_true_iff in Hf as [H1 H2]. lia.
Qed.

(** ** Draining the port *)

(** The loop of [getRxBuffer] writes at index 64 once it has filled the
    buffer and a byte is still waiting. *)
Lemma getRxBuffer_loop_overruns (rx : list Z) (ovf : bool) (now : Z)
    (m : Modbus) :
  Z.of_nat (length (au8Buffer m)) = MAX_BUFFER ->
  0 <= u8BufferSize m <= MAX_BUFFER ->
  MAX_BUFFER - u8BufferSize m < Z.of_nat (length rx) ->
  getRxBuffer_loop rx ovf now m = OutOfBounds Arr_au8Buffer 64.
Proof.
  unfold MAX_BUFFER. revert ovf m.
  induction rx as [|b rest IH]; intros ovf m Hlen Hsize Hrx;
    cbn [length] in Hrx; [lia|].
  cbn [getRxBuffer_loop]. unfold bind at 1. unfold get at 1.
  unfold bind at 1. unfold modify at 1.
  destruct (Z.eq_dec (u8BufferSize m) 64) as [Hfull|Hroom].
  - unfold bind at 1. rewrite store_ge; [now rewrite Hfull|].
    cbn. lia.
  - unfold bind at 1.
    replace (u8BufferSize m) with (Z.of_nat (Z.to_nat (u8BufferSize m)))
      at 1 by lia.
    rewrite store_lt by (cbn; lia).
    unfold bind at 1, incr_u8BufferSize at 1, modify at 1.
    unfold bind at 1, get at 1.
    apply IH; cbn; rewrite ?length_insert; rewrite ?u8_small; lia.
Qed.

(** C8 on every drain of more than 64 bytes: the sixty-fifth byte is
    written at index 64 of the frame buffer, outside the array of
    [MAX_BUFFER] bytes; the overflow flag is raised only after the
    write. *)
Theorem getRxBuffer_overruns (now : Z) (m : Modbus) :
  Z.of_nat (length (au8Buffer m)) = MAX_BUFFER ->
  MAX_BUFFER < Z.of_nat (length (rx_queue (port m))) ->
  getRxBuffer now m = OutOfBounds Arr_au8Buffer 64.
Proof.
  intros Hlen Hrx. unfold getRxBuffer.
  unfold bind at 1, modify at 1. unfold bind at 1, get at 1.
  cbn [port rx_queue set_u8BufferSize]. unfold bind at 1.
  rewrite getRxBuffer_loop_overruns; [reflexivity|exact Hlen|..];
    unfold MAX_BUFFER in *; cbn; lia.
Qed.

Lemma getRxBuffer_overruns_witness :
  getRxBuffer 10 master_with_65_bytes = OutOfBounds Arr_au8Buffer 64.
Proof.
  apply (getRxBuffer_overruns 10 master_with_65_bytes).
  - reflexivity.
  - vm_compute. reflexivity.
Defined.

(** A drain of exactly 64 bytes stays within the buffer and reports
    [ERR_BUFF_OVERFLOW]. *)
Lemma getRxBuffer_full :
  let m := receive (replicate 64 7) (Modbus_begin 0) in
  exists m', getRxBuffer 10 m = Ok ERR_BUFF_OVERFLOW m'
             /\ u16errCnt m' = 1.
Proof. vm_compute. eexists. split; reflexivity. Qed.

(** ** The register access functions *)

(** C3 at the whole of a register space: [GetRRegs] and [GetRWRegs]
    asked for the 16 registers from address 0, and for the last register
    alone, return [ERROR_OF_ADR] and leave the caller's buffer as it
    was, while [GetRReg] and [GetRWReg] read the last register. *)
Theorem get_regs_refuses_last_register
    (ERROR_OF_ADR ERROR_OF_POINTER now : Z) (out : list Z) (m : Modbus) :
  GetRRegs ERROR_OF_ADR ERROR_OF_POINTER 0 (Some out) 16 now m
  = Ok (ERROR_OF_ADR, Some out) m
  /\ GetRWRegs ERROR_OF_ADR ERROR_OF_POINTER 0 (Some out) 16 now m
     = Ok (ERROR_OF_ADR, Some out) m
  /\ GetRRegs ERROR_OF_ADR ERROR_OF_POINTER 15 (Some out) 1 now m
     = Ok (ERROR_OF_ADR, Some out) m
  /\ GetRWRegs ERROR_OF_ADR ERROR_OF_POINTER 15 (Some out) 1 now m
     = Ok (ERROR_OF_ADR, Some out) m
  /\ GetRReg ERROR_OF_ADR ERROR_OF_POINTER 15 (Some 0) now (Modbus_begin 1)
     = Ok (0, Some 0) (Modbus_begin 1)
  /\ GetRWReg ERROR_OF_ADR ERROR_OF_POINTER 15 (Some 0) now (Modbus_begin 1)
     = Ok (0, Some 0) (Modbus_begin 1).
Proof. repeat split; reflexivity. Qed.

(** Below the last register the multi-register read copies the values. *)
Lemma get_regs_in_range (ERROR_OF_ADR ERROR_OF_POINTER : Z) :
  GetRWRegs ERROR_OF_ADR ERROR_OF_POINTER 0 (Some [9; 9]) 2 10
    slave_1234_5678
  = Ok (0, Some [0x1234; 0x5678]) slave_1234_5678.
Proof. vm_compute. reflexivity. Qed.

(** * Further properties of the methods *)

(** ** Exact results of the building blocks *)

(** Projections of the fields out of the setters. *)
Ltac fields :=
  cbn [port u8id u8state u8lastError au8Buffer u8BufferSize u8lastRec
       au16regs u16InCnt u16OutCnt u16errCnt u16timeOut r_regArea
       rw_regArea r_bitArea rw_bitArea u32time u32timeOut u8regsize
       set_port set_u8state set_u8lastError set_au8Buffer set_u8BufferSize
       set_u8lastRec set_au16regs set_u16InCnt set_u16OutCnt set_u16errCnt
       set_r_regArea set_rw_regArea set_r_bitArea set_rw_bitArea
       set_u32time set_u32timeOut set_u8regsize field set_field
       rx_queue tx_line].

Tactic Notation "fields" "in" hyp(H) :=
  cbn [port u8id u8state u8lastError au8Buffer u8BufferSize u8lastRec
       au16regs u16InCnt u16OutCnt u16errCnt u16timeOut r_regArea
       rw_regArea r_bitArea rw_bitArea u32time u32timeOut u8regsize
       set_port set_u8state set_u8lastError set_au8Buffer set_u8BufferSize
       set_u8lastRec set_au16regs set_u16InCnt set_u16OutCnt set_u16errCnt
       set_r_regArea set_rw_regArea set_r_bitArea set_rw_bitArea
       set_u32time set_u32timeOut set_u8regsize field set_field
       rx_queue tx_line] in H.

(** One step of a run: the first method of a bind returns. *)
Ltac run_get := unfold bind at 1, get at 1.
Ltac run_modify := unfold bind at 1, modify at 1.

Lemma bind_get {A B} (f : Modbus -> A) (k : A -> M B) (now : Z) (m : Modbus) :
  bind (get f) k now m = k (f m) now m.
Proof. reflexivity. Qed.

Lemma bind_modify {B} (f : Modbus -> Modbus) (k : unit -> M B) (now : Z)
    (m : Modbus) :
  bind (modify f) k now m = k tt now (f m).
Proof. reflexivity. Qed.

Lemma bind_millis {B} (k : Z -> M B) (now : Z) (m : Modbus) :
  bind millis k now m = k now now m.
Proof. reflexivity. Qed.

Lemma bind_ret {A B} (a : A) (k : A -> M B) (now : Z) (m : Modbus) :
  bind (ret a) k now m = k a now m.
Proof. reflexivity. Qed.

Lemma bind_assoc {A B C} (c : M A) (k : A -> M B) (h : B -> M C) (now : Z)
    (m : Modbus) :
  bind (bind c k) h now m = bind c (fun a => bind (k a) h) now m.
Proof. unfold bind. now destruct (c now m). Qed.

Lemma bind_load {B} (arr : Array) (i : nat) (x : Z) (k : Z -> M B) (now : Z)
    (m : Modbus) :
  field arr m !! i = Some x ->
  bind (load arr (Z.of_nat i)) k now m = k x now m.
Proof. intros H. apply bind_Ok, load_Some, H. Qed.

Lemma bind_store {B} (arr : Array) (i : nat) (v : Z) (k : unit -> M B)
    (now : Z) (m : Modbus) :
  (i < length (field arr m))%nat ->
  bind (store arr (Z.of_nat i) v) k now m
  = k tt now (set_field arr (<[i := v]> (field arr m)) m).
Proof. intros H. apply bind_Ok, store_lt, H. Qed.

(** [sendTxBuffer], exactly. *)
Lemma sendTxBuffer_exact (bytes : list Z) (now : Z) (m : Modbus) :
  u8BufferSize m = Z.of_nat (length bytes) ->
  take (length bytes) (au8Buffer m) = bytes ->
  (length bytes + 2 <= length (au8Buffer m))%nat ->
  (length bytes + 2 < 256)%nat ->
  sendTxBuffer now m
  = Ok tt
      (set_u16OutCnt (u16 (u16OutCnt m + 1))
         (set_u32timeOut (u32 (now + u16timeOut m))
            (set_u8BufferSize 0
               (set_port (mkSerial (rx_queue (port m))
                            (tx_line (port m) ++ with_crc bytes))
                  (set_au8Buffer
                     (<[S (length bytes) := Z.land (crc16 bytes) 0x00ff]>
                        (<[length bytes := u8 (Z.shiftr (crc16 bytes) 8)]>
                           (au8Buffer m))) m))))).
Proof.
  intros Hsize Htake Hlen Hsmall. destruct m. cbn in Hsize, Htake, Hlen.
  subst u8BufferSize0. unfold sendTxBuffer.
  rewrite bind_get. fields.
  erewrite bind_Ok by (apply calcCRC_spec; exact Htake).
  rewrite bind_store by (cbn; lia).
  unfold incr_u8BufferSize. rewrite bind_modify, bind_get. fields.
  rewrite (u8_small (Z.of_nat (length bytes) + 1)) by lia.
  replace (Z.of_nat (length bytes) + 1) with (Z.of_nat (S (length bytes)))
    by lia.
  rewrite bind_store by (cbn; rewrite length_insert; lia).
  rewrite !bind_modify, bind_millis, bind_modify. unfold modify. fields.
  rewrite u8_small by lia.
  replace (Z.to_nat (Z.of_nat (S (length bytes)) + 1))
    with (S (S (length bytes))) by lia.
  rewrite take_two_inserts, Htake by lia. reflexivity.
Qed.

(** ** Draining the port within the buffer *)

Lemma take_insert_next (l : list Z) (s : nat) (b : Z) :
  (s < length l)%nat -> take (S s) (<[s := b]> l) = take s l ++ [b].
Proof.
  intros H. rewrite (take_S_r _ s b) by (apply list_lookup_insert_eq; lia).
  now rewrite take_insert_ge by lia.
Qed.

(** The loop of [getRxBuffer] from fill level [s]: the waiting bytes go
    to [au8Buffer[s ..]], the port is emptied, and the flag is raised
    when the fill level reaches [MAX_BUFFER]. *)
Lemma getRxBuffer_loop_exact (rx : list Z) :
  forall (ovf : bool) (now : Z) (m : Modbus) (s : nat),
    rx_queue (port m) = rx ->
    u8BufferSize m = Z.of_nat s ->
    (s + length rx <= length (au8Buffer m))%nat ->
    (length (au8Buffer m) < 256)%nat ->
    getRxBuffer_loop rx ovf now m
    = Ok (ovf || negb (Nat.eqb (length rx) 0)
                 && (MAX_BUFFER <=? Z.of_nat (s + length rx)))
        (set_u8BufferSize (Z.of_nat (s + length rx))
           (set_au8Buffer
              (take s (au8Buffer m) ++ rx
               ++ drop (s + length rx) (au8Buffer m))
              (set_port (mkSerial [] (tx_line (port m))) m))).
Proof.
  induction rx as [|b rest IH]; intros ovf now m s Hrx Hsize Hfit Hlen.
  - cbn [getRxBuffer_loop length Nat.eqb negb andb]. rewrite orb_false_r.
    unfold ret. f_equal. destruct m as [[rxq txl] ? ? ? buf]. 
    cbn in Hrx, Hsize |- *. subst. rewrite Nat.add_0_r, take_drop.
    reflexivity.
  - cbn [getRxBuffer_loop length] in *.
    rewrite bind_get, bind_modify, Hsize.
    rewrite bind_store by (fields; lia).
    unfold incr_u8BufferSize. rewrite bind_modify, bind_get. fields.
    rewrite Hsize, (u8_small (Z.of_nat s + 1)) by lia.
    replace (Z.of_nat s + 1) with (Z.of_nat (S s)) by lia.
    rewrite (IH _ now _ (S s)); fields; rewrite ?length_insert;
      try reflexivity; try lia.
    f_equal.
    + cbn [Nat.eqb negb andb].
      replace (S s + length rest)%nat with (s + S (length rest))%nat by lia.
      destruct ovf; cbn [orb]; [reflexivity|].
      destruct (MAX_BUFFER <=? Z.of_nat (S s)) eqn:E1;
        destruct (MAX_BUFFER <=? Z.of_nat (s + S (length rest))) eqn:E2;
        destruct (Nat.eqb (length rest) 0) eqn:E3; cbn; try reflexivity;
        try (apply Z.leb_le in E1); try (apply Z.leb_gt in E1);
        try (apply Z.leb_le in E2); try (apply Z.leb_gt in E2);
        try (apply Nat.eqb_eq in E3); try lia.
    + destruct m as [[rxq txl] ? ? ? buf]. fields. cbn in Hfit.
      replace (S s + length rest)%nat with (s + S (length rest))%nat by lia.
      rewrite take_insert_next by lia.
      rewrite drop_insert_lt by lia.
      rewrite <- app_assoc. reflexivity.
Qed.

Lemma i8_small (x : Z) : 0 <= x < 128 -> i8 x = x.
Proof.
  intros H. unfold i8. rewrite Z.mod_small by lia.
  destruct (Z.ltb_spec x 128); lia.
Qed.

(** [getRxBuffer] on a frame shorter than the buffer, exactly. *)
Lemma getRxBuffer_exact (now : Z) (m : Modbus) :
  Z.of_nat (length (au8Buffer m)) = MAX_BUFFER ->
  Z.of_nat (length (rx_queue (port m))) < MAX_BUFFER ->
  getRxBuffer now m
  = Ok (Z.of_nat (length (rx_queue (port m))))
       (drained (rx_queue (port m)) m).
Proof.
  unfold MAX_BUFFER. intros Hlen Hrx. unfold getRxBuffer.
  rewrite bind_modify, bind_get. fields.
  erewrite bind_Ok.
  2:{ apply (getRxBuffer_loop_exact _ false now _ 0); fields;
        [reflexivity | reflexivity | lia | lia]. }
  fields. rewrite bind_modify. cbn [orb].
  assert (negb (Nat.eqb (length (rx_queue (port m))) 0)
          && (MAX_BUFFER <=? Z.of_nat (0 + length (rx_queue (port m))))
          = false) as ->.
  { apply andb_false_iff. right. apply Z.leb_gt. unfold MAX_BUFFER. lia. }
  rewrite bind_get. fields. unfold ret.
  rewrite i8_small by lia. reflexivity.
Qed.

(** X1: [getRxBuffer] on a drain within the buffer: it returns the number of
    bytes, the frame buffer holds them in order, the port is empty, the
    message counter goes up by one and nothing is sent. *)
Theorem getRxBuffer_drains (now : Z) (m : Modbus) :
  Z.of_nat (length (au8Buffer m)) = MAX_BUFFER ->
  Z.of_nat (length (rx_queue (port m))) < MAX_BUFFER ->
  exists m',
    getRxBuffer now m = Ok (Z.of_nat (length (rx_queue (port m)))) m'
    /\ holds_frame (rx_queue (port m)) m'
    /\ rx_queue (port m') = []
    /\ tx_line (port m') = tx_line (port m)
    /\ u16InCnt m' = u16 (u16InCnt m + 1)
    /\ u16errCnt m' = u16errCnt m.
Proof.
  intros Hlen Hrx. rewrite getRxBuffer_exact by assumption.
  eexists. split; [reflexivity|]. unfold drained, holds_frame. fields.
  unfold MAX_BUFFER in *.
  repeat split; try reflexivity.
  - now rewrite take_app_length.
  - rewrite length_app, length_drop. lia.
Qed.

Lemma getRxBuffer_drains_witness :
  exists m',
    getRxBuffer 10 master_with_3_bytes
    = Ok (Z.of_nat (length (rx_queue (port master_with_3_bytes)))) m'
    /\ holds_frame (rx_queue (port master_with_3_bytes)) m'
    /\ rx_queue (port m') = []
    /\ tx_line (port m') = tx_line (port master_with_3_bytes)
    /\ u16InCnt m' = u16 (u16InCnt master_with_3_bytes + 1)
    /\ u16errCnt m' = u16errCnt master_with_3_bytes.
Proof.
  apply (getRxBuffer_drains 10 master_with_3_bytes).
  - reflexivity.
  - vm_compute. reflexivity.
Defined.

(** X2: [getRxBuffer] on a drain of exactly [MAX_BUFFER] bytes: every byte
    is stored inside the buffer, and the drain is reported as an
    overflow, with the error counter going up by one. *)
Theorem getRxBuffer_full_is_overflow (now : Z) (m : Modbus) :
  Z.of_nat (length (au8Buffer m)) = MAX_BUFFER ->
  Z.of_nat (length (rx_queue (port m))) = MAX_BUFFER ->
  exists m',
    getRxBuffer now m = Ok ERR_BUFF_OVERFLOW m'
    /\ au8Buffer m' = rx_queue (port m)
    /\ rx_queue (port m') = []
    /\ u16errCnt m' = u16 (u16errCnt m + 1).
Proof.
  unfold MAX_BUFFER. intros Hlen Hrx. unfold getRxBuffer.
  rewrite bind_modify, bind_get. fields.
  erewrite bind_Ok.
  2:{ apply (getRxBuffer_loop_exact _ false now _ 0); fields;
        [reflexivity | reflexivity | lia | lia]. }
  fields. rewrite bind_modify. cbn [orb].
  assert (negb (Nat.eqb (length (rx_queue (port m))) 0)
          && (MAX_BUFFER <=? Z.of_nat (0 + length (rx_queue (port m))))
          = true) as ->.
  { apply andb_true_intro. split.
    - destruct (rx_queue (port m)); [cbn in Hrx; lia | reflexivity].
    - apply Z.leb_le. unfold MAX_BUFFER. lia. }
  unfold incr_u16errCnt. rewrite bind_modify. unfold ret. fields.
  eexists. split; [reflexivity|]. fields. repeat split; try reflexivity.
  rewrite drop_ge by lia. cbn. now rewrite app_nil_r.
Qed.

Lemma getRxBuffer_full_is_overflow_witness :
  exists m',
    getRxBuffer 10 master_with_64_bytes = Ok ERR_BUFF_OVERFLOW m'
    /\ au8Buffer m' = rx_queue (port master_with_64_bytes)
    /\ rx_queue (port m') = []
    /\ u16errCnt m' = u16 (u16errCnt master_with_64_bytes + 1).
Proof.
  apply (getRxBuffer_full_is_overflow 10 master_with_64_bytes);
    vm_compute; reflexivity.
Defined.

(** ** The slave's [poll]: frames it does not answer *)

(** The slave's [poll] up to the drain, for a frame that is ready. *)
Lemma poll_slave_drains (u8regsno : Z) (regs : list Z) (u8size : Z)
    (frame : list Z) (now : Z) (m : Modbus) :
  frame_ready frame now m ->
  poll_slave u8regsno regs u8size now m
  = (if Z.of_nat (length frame) <? 7 then ret (Z.of_nat (length frame)) else
       bind (load Arr_au8Buffer ID) (fun id =>
       bind (get u8id) (fun own =>
       if negb (id =? own) then ret 0 else
       bind validateRequest (fun u8exception =>
       if 0 <? u8exception then
         bind (if negb (u8exception =? NO_REPLY)
               then bind (buildException u8exception)
                         (fun _ => sendTxBuffer)
               else ret tt) (fun _ =>
         bind (modify (set_u8lastError u8exception)) (fun _ =>
         ret (i8 u8exception)))
       else
         bind (modify (fun m => set_u32timeOut (u32 (now + u16timeOut m)) m))
           (fun _ =>
         bind (modify (set_u8lastError 0)) (fun _ =>
         bind (load Arr_au8Buffer FUNC) (fun fct =>
         poll_slave_dispatch u8regsno fct (Z.of_nat (length frame)))))))))
      now (slave_drained regs u8size frame m).
Proof.
  intros (Hlen & Hrx & Hn & Hlast & Htime). unfold poll_slave.
  rewrite !bind_modify. unfold available. rewrite bind_get. fields.
  rewrite Hrx, (u8_small (Z.of_nat (length frame))) by lia.
  destruct (Z.eqb_spec (Z.of_nat (length frame)) 0) as [H0|_]; [lia|].
  rewrite bind_get, bind_millis. fields. rewrite Hlast, Z.eqb_refl.
  cbn [negb]. rewrite bind_get. fields.
  assert (still_receiving now (u32time m) = false) as ->
    by (apply Z.ltb_ge; exact Htime).
  rewrite bind_modify.
  erewrite bind_Ok.
  2:{ apply getRxBuffer_exact; fields; rewrite ?Hrx; unfold MAX_BUFFER in *;
        [exact Hlen | lia]. }
  fields. rewrite Hrx, bind_modify.
  rewrite (u8_small (Z.of_nat (length frame))) by lia.
  reflexivity.
Qed.

(** X3: A frame of fewer than seven bytes is dropped: the slave's [poll]
    returns its length, sends nothing, leaves the error counter alone and
    records the length as the last error. *)
Theorem poll_slave_short_frame (u8regsno : Z) (regs : list Z) (u8size : Z)
    (frame : list Z) (now : Z) (m : Modbus) :
  frame_ready frame now m ->
  (length frame < 7)%nat ->
  exists m',
    poll_slave u8regsno regs u8size now m = Ok (Z.of_nat (length frame)) m'
    /\ tx_line (port m') = tx_line (port m)
    /\ rx_queue (port m') = []
    /\ u16errCnt m' = u16errCnt m
    /\ u8lastError m' = Z.of_nat (length frame).
Proof.
  intros Hready Hshort. rewrite (poll_slave_drains _ _ _ frame) by assumption.
  assert ((Z.of_nat (length frame) <? 7) = true) as -> by (apply Z.ltb_lt; lia).
  eexists. split; [reflexivity|]. unfold slave_drained, drained. fields.
  repeat split; reflexivity.
Qed.

Lemma poll_slave_short_frame_witness :
  exists m',
    poll_slave 0 [] 0 10 slave_with_short_frame
    = Ok (Z.of_nat (length (with_crc [1; 17]))) m'
    /\ tx_line (port m') = tx_line (port slave_with_short_frame)
    /\ rx_queue (port m') = []
    /\ u16errCnt m' = u16errCnt slave_with_short_frame
    /\ u8lastError m' = Z.of_nat (length (with_crc [1; 17])).
Proof.
  apply (poll_slave_short_frame 0 [] 0 (with_crc [1; 17]) 10
           slave_with_short_frame).
  - repeat split; try reflexivity; cbn; lia.
  - cbn. lia.
Defined.

(** X4: A frame for another node is dropped without a trace on the line: the
    slave's [poll] returns 0, sends nothing and leaves the error counter
    alone. *)
Theorem poll_slave_other_node (u8regsno : Z) (regs : list Z) (u8size : Z)
    (frame : list Z) (id now : Z) (m : Modbus) :
  frame_ready frame now m ->
  (7 <= length frame)%nat ->
  frame !! 0%nat = Some id ->
  id <> u8id m ->
  exists m',
    poll_slave u8regsno regs u8size now m = Ok 0 m'
    /\ tx_line (port m') = tx_line (port m)
    /\ rx_queue (port m') = []
    /\ u16errCnt m' = u16errCnt m
    /\ rw_regArea m' = rw_regArea m
    /\ rw_bitArea m' = rw_bitArea m.
Proof.
  intros Hready Hlong Hid Hne.
  rewrite (poll_slave_drains _ _ _ frame) by assumption.
  assert ((Z.of_nat (length frame) <? 7) = false) as -> by (apply Z.ltb_ge; lia).
  rewrite (bind_load _ 0 id)
    by (unfold slave_drained, drained; fields;
        now apply lookup_app_l_Some).
  rewrite bind_get. unfold slave_drained at 1, drained at 1. fields.
  destruct (Z.eqb_spec id (u8id m)) as [He|_]; [contradiction|].
  cbn [negb]. eexists. split; [reflexivity|].
  unfold slave_drained, drained. fields. repeat split; reflexivity.
Qed.

Lemma poll_slave_other_node_witness :
  exists m',
    poll_slave 0 [] 0 10 slave_with_foreign_frame = Ok 0 m'
    /\ tx_line (port m') = tx_line (port slave_with_foreign_frame)
    /\ rx_queue (port m') = []
    /\ u16errCnt m' = u16errCnt slave_with_foreign_frame
    /\ rw_regArea m' = rw_regArea slave_with_foreign_frame
    /\ rw_bitArea m' = rw_bitArea slave_with_foreign_frame.
Proof.
  apply (poll_slave_other_node 0 [] 0 (with_crc [2; 3; 0; 0; 0; 2]) 2 10
           slave_with_foreign_frame).
  - repeat split; try reflexivity; cbn; lia.
  - cbn. lia.
  - reflexivity.
  - cbn. lia.
Defined.

(** ** The slave's [poll]: frames it refuses *)

Lemma validateRequest_bad_crc (now : Z) (m : Modbus) :
  crc_mismatch now m = Ok true m ->
  validateRequest now m
  = Ok NO_REPLY (set_u16errCnt (u16 (u16errCnt m + 1)) m).
Proof.
  intros H. unfold validateRequest. erewrite bind_Ok by exact H.
  reflexivity.
Qed.

Lemma validateRequest_unsupported (fct now : Z) (m : Modbus) :
  crc_mismatch now m = Ok false m ->
  au8Buffer m !! 1%nat = Some fct ->
  isSupported fct = false ->
  validateRequest now m
  = Ok EXC_FUNC_CODE (set_u16errCnt (u16 (u16errCnt m + 1)) m).
Proof.
  intros H Hf Hs. unfold validateRequest. erewrite bind_Ok by exact H.
  cbv beta iota. change FUNC with (Z.of_nat 1). rewrite (bind_load _ 1 fct) by exact Hf.
  rewrite Hs. reflexivity.
Qed.

(** The frame buffer of a drained slave. *)
Lemma slave_drained_holds (regs : list Z) (u8size : Z) (frame : list Z)
    (m : Modbus) :
  Z.of_nat (length (au8Buffer m)) = MAX_BUFFER ->
  (length frame < 64)%nat ->
  holds_frame frame (slave_drained regs u8size frame m).
Proof.
  unfold MAX_BUFFER. intros Hlen Hn.
  unfold holds_frame, slave_drained, drained. fields. repeat split.
  - now rewrite take_app_length.
  - rewrite length_app, length_drop. unfold MAX_BUFFER. lia.
Qed.

Lemma slave_drained_lookup (regs : list Z) (u8size : Z) (frame : list Z)
    (m : Modbus) (i : nat) (x : Z) :
  frame !! i = Some x ->
  au8Buffer (slave_drained regs u8size frame m) !! i = Some x.
Proof.
  intros H. unfold slave_drained, drained. fields.
  now apply lookup_app_l_Some.
Qed.

(** X5: A frame of at least seven bytes for this node whose last two
    bytes are not the CRC of the bytes before gets no reply: the slave's
    [poll] returns -1 ([NO_REPLY] as an [int8_t]), sends nothing, counts
    one error and records [NO_REPLY] as the last error; the registers
    and the coils are untouched. *)
Theorem poll_slave_bad_crc (u8regsno : Z) (regs : list Z) (u8size : Z)
    (body : list Z) (hi lo now : Z) (m : Modbus) :
  frame_ready (body ++ [hi; lo]) now m ->
  (5 <= length body)%nat ->
  body !! 0%nat = Some (u8id m) ->
  crc16 body <> u16 (Z.lor (Z.shiftl hi 8) lo) ->
  exists m',
    poll_slave u8regsno regs u8size now m = Ok (-1) m'
    /\ tx_line (port m') = tx_line (port m)
    /\ u16errCnt m' = u16 (u16errCnt m + 1)
    /\ u8lastError m' = NO_REPLY
    /\ rw_regArea m' = rw_regArea m
    /\ rw_bitArea m' = rw_bitArea m.
Proof.
  intros Hready Hlong Hid Hcrc.
  pose proof Hready as (Hlen & _ & Hn & _).
  rewrite length_app in Hn. cbn [length] in Hn.
  rewrite (poll_slave_drains _ _ _ (body ++ [hi; lo])) by assumption.
  rewrite length_app. cbn [length].
  assert ((Z.of_nat (length body + 2) <? 7) = false) as ->
    by (apply Z.ltb_ge; lia).
  change ID with (Z.of_nat 0).
  rewrite (bind_load _ 0 (u8id m))
    by (apply slave_drained_lookup; now apply lookup_app_l_Some).
  rewrite bind_get. unfold slave_drained at 1, drained at 1. fields.
  rewrite Z.eqb_refl. cbn [negb].
  erewrite bind_Ok.
  2:{ apply validateRequest_bad_crc.
      rewrite (crc_mismatch_spec body hi lo)
        by (apply slave_drained_holds;
            [exact Hlen | rewrite length_app; cbn [length]; lia]).
      apply Z.eqb_neq in Hcrc. now rewrite Hcrc. }
  cbn [Z.ltb Z.compare NO_REPLY Z.eqb Pos.eqb negb].
  rewrite bind_ret, bind_modify. unfold ret.
  eexists. split; [reflexivity|].
  unfold slave_drained, drained. fields. repeat split; reflexivity.
Qed.

Lemma poll_slave_bad_crc_witness :
  exists m',
    poll_slave 0 [] 0 10 slave_with_bad_crc = Ok (-1) m'
    /\ tx_line (port m') = tx_line (port slave_with_bad_crc)
    /\ u16errCnt m' = u16 (u16errCnt slave_with_bad_crc + 1)
    /\ u8lastError m' = NO_REPLY
    /\ rw_regArea m' = rw_regArea slave_with_bad_crc
    /\ rw_bitArea m' = rw_bitArea slave_with_bad_crc.
Proof.
  apply (poll_slave_bad_crc 0 [] 0 [1; 0x83; 0; 0; 0] 0 0 10
           slave_with_bad_crc).
  - repeat split; try reflexivity; cbn; lia.
  - cbn. lia.
  - reflexivity.
  - vm_compute. discriminate.
Defined.

Lemma buildException_exact (u8exception fct now : Z) (m : Modbus) :
  (3 <= length (au8Buffer m))%nat ->
  au8Buffer m !! 1%nat = Some fct ->
  buildException u8exception now m
  = Ok tt (set_u8BufferSize EXCEPTION_SIZE
             (set_au8Buffer
                (<[2%nat := u8exception]>
                   (<[1%nat := u8 (fct + 0x80)]>
                      (<[0%nat := u8id m]> (au8Buffer m)))) m)).
Proof.
  intros Hlen Hf. unfold buildException.
  change FUNC with (Z.of_nat 1). rewrite (bind_load _ 1 fct) by exact Hf.
  rewrite bind_get. change ID with (Z.of_nat 0).
  rewrite bind_store by (fields; lia). fields.
  rewrite bind_store by (fields; rewrite length_insert; lia). fields.
  change 2 with (Z.of_nat 2).
  rewrite bind_store by (fields; rewrite !length_insert; lia). fields.
  reflexivity.
Qed.

(** The exception reply of the slave's [poll], exactly. *)
Lemma exception_reply_exact (u8exception fct now : Z) (m : Modbus) :
  Z.of_nat (length (au8Buffer m)) = MAX_BUFFER ->
  au8Buffer m !! 1%nat = Some fct ->
  bind (buildException u8exception) (fun _ => sendTxBuffer) now m
  = Ok tt
      (set_u16OutCnt (u16 (u16OutCnt m + 1))
         (set_u32timeOut (u32 (now + u16timeOut m))
            (set_u8BufferSize 0
               (set_port
                  (mkSerial (rx_queue (port m))
                     (tx_line (port m)
                      ++ with_crc [u8id m; u8 (fct + 0x80); u8exception]))
                  (set_au8Buffer
                     (take 5
                        (with_crc [u8id m; u8 (fct + 0x80); u8exception])
                      ++ drop 5 (au8Buffer m)) m))))).
Proof.
  unfold MAX_BUFFER. intros Hlen Hf.
  erewrite bind_Ok by (apply (buildException_exact _ fct); [lia|exact Hf]).
  destruct m as [? ? ? ? buf]. cbn in Hlen, Hf.
  destruct buf as [|b0 [|b1 [|b2 [|b3 [|b4 buf]]]]]; cbn in Hlen; try lia.
  rewrite (sendTxBuffer_exact [u8id0; u8 (fct + 0x80); u8exception]);
    fields; cbn [length]; try reflexivity; try lia.
  rewrite !length_insert. cbn [length]. lia.
Qed.

(** X6: A request of at least seven bytes for this node with a good CRC
    and a function code outside the eight supported ones is answered
    with exception 1: the reply is the node address, the function byte
    plus [0x80] modulo 256, the code 1 and the CRC; [poll] returns 1,
    counts one error, and the registers and coils are untouched. *)
Theorem poll_slave_unsupported_function (u8regsno : Z) (regs : list Z)
    (u8size : Z) (body : list Z) (fct now : Z) (m : Modbus) :
  frame_ready (with_crc body) now m ->
  Forall is_u8 body ->
  (5 <= length body)%nat ->
  body !! 0%nat = Some (u8id m) ->
  body !! 1%nat = Some fct ->
  isSupported fct = false ->
  exists m',
    poll_slave u8regsno regs u8size now m = Ok EXC_FUNC_CODE m'
    /\ tx_line (port m')
       = tx_line (port m) ++ with_crc [u8id m; u8 (fct + 0x80); EXC_FUNC_CODE]
    /\ u16errCnt m' = u16 (u16errCnt m + 1)
    /\ u8lastError m' = EXC_FUNC_CODE
    /\ rw_regArea m' = rw_regArea m
    /\ rw_bitArea m' = rw_bitArea m.
Proof.
  intros Hready Hb Hlong Hid Hfct Hsup.
  pose proof Hready as (Hlen & _ & Hn & _).
  unfold with_crc in Hn. rewrite length_app in Hn. cbn [length] in Hn.
  rewrite (poll_slave_drains _ _ _ (with_crc body)) by assumption.
  assert (length (with_crc body) = length body + 2)%nat as Hwl
    by (unfold with_crc; rewrite length_app; reflexivity).
  rewrite Hwl.
  assert ((Z.of_nat (length body + 2) <? 7) = false) as ->
    by (apply Z.ltb_ge; lia).
  change ID with (Z.of_nat 0).
  rewrite (bind_load _ 0 (u8id m))
    by (apply slave_drained_lookup; unfold with_crc;
        now apply lookup_app_l_Some).
  rewrite bind_get. unfold slave_drained at 1, drained at 1. fields.
  rewrite Z.eqb_refl. cbn [negb].
  assert (holds_frame (with_crc body)
            (slave_drained regs u8size (with_crc body) m)) as Hholds
    by (apply slave_drained_holds; [exact Hlen | lia]).
  erewrite bind_Ok.
  2:{ apply (validateRequest_unsupported fct).
      - now apply (crc_mismatch_with_crc body).
      - apply slave_drained_lookup. unfold with_crc.
        now apply lookup_app_l_Some.
      - exact Hsup. }
  cbn [Z.ltb Z.compare EXC_FUNC_CODE NO_REPLY Z.eqb Pos.eqb negb].
  erewrite bind_Ok.
  2:{ apply (exception_reply_exact _ fct).
      - destruct Hholds as (_ & _ & Hl). exact Hl.
      - fields. apply slave_drained_lookup. unfold with_crc.
        now apply lookup_app_l_Some. }
  rewrite bind_modify. unfold ret.
  eexists. split; [reflexivity|].
  unfold slave_drained, drained. fields. repeat split; reflexivity.
Qed.

Lemma poll_slave_unsupported_function_witness :
  exists m',
    poll_slave 0 [] 0 10 slave_with_fc2B = Ok EXC_FUNC_CODE m'
    /\ tx_line (port m')
       = tx_line (port slave_with_fc2B)
         ++ with_crc [u8id slave_with_fc2B; u8 (0x2B + 0x80); EXC_FUNC_CODE]
    /\ u16errCnt m' = u16 (u16errCnt slave_with_fc2B + 1)
    /\ u8lastError m' = EXC_FUNC_CODE
    /\ rw_regArea m' = rw_regArea slave_with_fc2B
    /\ rw_bitArea m' = rw_bitArea slave_with_fc2B.
Proof.
  apply (poll_slave_unsupported_function 0 [] 0 [1; 0x2B; 0; 0; 0] 0x2B 10
           slave_with_fc2B).
  - repeat split; try reflexivity; cbn; lia.
  - repeat (constructor; [unfold is_u8; lia|]). constructor.
  - cbn. lia.
  - reflexivity.
  - reflexivity.
  - reflexivity.
Defined.

Lemma isSupported_cases (fct : Z) :
  isSupported fct = true ->
  fct = MB_FC_READ_COILS \/ fct = MB_FC_READ_DISCRETE_INPUT
  \/ fct = MB_FC_READ_REGISTERS \/ fct = MB_FC_READ_INPUT_REGISTER
  \/ fct = MB_FC_WRITE_COIL \/ fct = MB_FC_WRITE_REGISTER
  \/ fct = MB_FC_WRITE_MULTIPLE_COILS
  \/ fct = MB_FC_WRITE_MULTIPLE_REGISTERS.
Proof.
  unfold isSupported, fctsupported. cbn [existsb].
  rewrite !orb_true_iff, !Z.eqb_eq.
  intros [H|[H|[H|[H|[H|[H|[H|[H|H]]]]]]]]; try discriminate H;
    symmetry in H; auto 10.
Qed.

(** [validateRequest] after the CRC test, on the header bytes of the
    frame buffer. *)
Lemma validateRequest_header (fct add_hi add_lo nb_hi nb_lo now : Z)
    (m : Modbus) :
  crc_mismatch now m = Ok false m ->
  take 5 (drop 1 (au8Buffer m)) = [fct; add_hi; add_lo; nb_hi; nb_lo] ->
  isSupported fct = true ->
  validateRequest now m
  = (if (fct =? MB_FC_READ_COILS) || (fct =? MB_FC_READ_DISCRETE_INPUT)
        || (fct =? MB_FC_WRITE_MULTIPLE_COILS) then
       if SIZE_RW_BITS <? u16 (word add_hi add_lo + word nb_hi nb_lo)
       then ret EXC_ADDR_RANGE else ret 0
     else if fct =? MB_FC_WRITE_COIL then
       if SIZE_RW_BITS <? word add_hi add_lo
       then ret EXC_ADDR_RANGE else ret 0
     else if fct =? MB_FC_WRITE_REGISTER then
       if SIZE_RW_REGS <? word add_hi add_lo
       then ret EXC_ADDR_RANGE else ret 0
     else if (fct =? MB_FC_READ_REGISTERS)
             || (fct =? MB_FC_READ_INPUT_REGISTER)
             || (fct =? MB_FC_WRITE_MULTIPLE_REGISTERS) then
       if SIZE_RW_REGS <? u16 (word add_hi add_lo + word nb_hi nb_lo)
       then ret EXC_ADDR_RANGE else ret 0
     else ret 0) now m.
Proof.
  intros Hcrc Hhdr Hsup. unfold validateRequest.
  erewrite bind_Ok by exact Hcrc. cbv beta iota.
  destruct (au8Buffer m) as [|b0 [|b1 [|b2 [|b3 [|b4 [|b5 buf]]]]]] eqn:Hbuf;
    try discriminate Hhdr.
  cbn in Hhdr. injection Hhdr as -> -> -> -> ->.
  change FUNC with (Z.of_nat 1). change ADD_HI with (Z.of_nat 2).
  change ADD_LO with (Z.of_nat 3). change NB_HI with (Z.of_nat 4).
  change NB_LO with (Z.of_nat 5).
  rewrite (bind_load _ 1 fct) by (cbn [field]; now rewrite Hbuf).
  rewrite Hsup. cbn [negb].
  rewrite (bind_load _ 2 add_hi) by (cbn [field]; now rewrite Hbuf).
  rewrite (bind_load _ 3 add_lo) by (cbn [field]; now rewrite Hbuf).
  rewrite (bind_load _ 4 nb_hi) by (cbn [field]; now rewrite Hbuf).
  rewrite (bind_load _ 5 nb_lo) by (cbn [field]; now rewrite Hbuf).
  reflexivity.
Qed.

Lemma validateRequest_refuses (fct add_hi add_lo nb_hi nb_lo now : Z)
    (m : Modbus) :
  crc_mismatch now m = Ok false m ->
  take 5 (drop 1 (au8Buffer m)) = [fct; add_hi; add_lo; nb_hi; nb_lo] ->
  range_refused fct add_hi add_lo nb_hi nb_lo ->
  validateRequest now m = Ok EXC_ADDR_RANGE m.
Proof.
  intros Hcrc Hhdr Hr.
  assert (isSupported fct = true) as Hsup
    by (destruct Hr as [[[->| ->] _]|[[->|[->|[->|[->|[->| ->]]]]] _]];
        reflexivity).
  rewrite (validateRequest_header fct add_hi add_lo nb_hi nb_lo)
    by assumption.
  unfold SIZE_RW_BITS, SIZE_RW_REGS.
  destruct Hr as [[[->| ->] H]|[[->|[->|[->|[->|[->| ->]]]]] H]];
    apply Z.ltb_lt in H; cbn [Z.eqb Pos.eqb orb MB_FC_READ_COILS
      MB_FC_READ_DISCRETE_INPUT MB_FC_READ_REGISTERS
      MB_FC_READ_INPUT_REGISTER MB_FC_WRITE_COIL MB_FC_WRITE_REGISTER
      MB_FC_WRITE_MULTIPLE_COILS MB_FC_WRITE_MULTIPLE_REGISTERS];
    rewrite H; reflexivity.
Qed.

Lemma validateRequest_accepts (fct add_hi add_lo nb_hi nb_lo now : Z)
    (m : Modbus) :
  crc_mismatch now m = Ok false m ->
  take 5 (drop 1 (au8Buffer m)) = [fct; add_hi; add_lo; nb_hi; nb_lo] ->
  isSupported fct = true ->
  ~ range_refused fct add_hi add_lo nb_hi nb_lo ->
  validateRequest now m = Ok 0 m.
Proof.
  intros Hcrc Hhdr Hsup Hr.
  rewrite (validateRequest_header fct add_hi add_lo nb_hi nb_lo)
    by assumption.
  unfold SIZE_RW_BITS, SIZE_RW_REGS. unfold range_refused in Hr.
  destruct (isSupported_cases fct Hsup)
    as [->|[->|[->|[->|[->|[->|[->| ->]]]]]]];
    cbn [Z.eqb Pos.eqb orb MB_FC_READ_COILS
      MB_FC_READ_DISCRETE_INPUT MB_FC_READ_REGISTERS
      MB_FC_READ_INPUT_REGISTER MB_FC_WRITE_COIL MB_FC_WRITE_REGISTER
      MB_FC_WRITE_MULTIPLE_COILS MB_FC_WRITE_MULTIPLE_REGISTERS];
    match goal with
    | |- context [?a <? ?b] =>
        destruct (Z.ltb_spec a b) as [Hlt|_]; [|reflexivity]
    end;
    exfalso; apply Hr; auto 10.
Qed.

Lemma word_range (h l : Z) : 0 <= word h l < 65536.
Proof. unfold word, u16. apply Z.mod_pos_bound. lia. Qed.

Lemma bind_store_Z {B} (arr : Array) (i v : Z) (k : unit -> M B) (now : Z)
    (m : Modbus) :
  0 <= i < Z.of_nat (length (field arr m)) ->
  bind (store arr i v) k now m
  = k tt now (set_field arr (<[Z.to_nat i := v]> (field arr m)) m).
Proof.
  intros H. apply bind_Ok. unfold store, in_array.
  destruct (Z.leb_spec 0 i); [|lia].
  destruct (Z.ltb_spec i (Z.of_nat (length (field arr m)))); [|lia].
  reflexivity.
Qed.

Lemma bind_load_Z {B} (arr : Array) (i : Z) (k : Z -> M B) (now : Z)
    (m : Modbus) :
  0 <= i < Z.of_nat (length (field arr m)) ->
  bind (load arr i) k now m
  = k (default 0 (field arr m !! Z.to_nat i)) now m.
Proof.
  intros H. apply bind_Ok. unfold load, in_array.
  destruct (Z.leb_spec 0 i); [|lia].
  destruct (Z.ltb_spec i (Z.of_nat (length (field arr m)))); [|lia].
  reflexivity.
Qed.

(** The header of a drained request. *)
Lemma slave_drained_header (regs : list Z) (u8size : Z)
    (id fct add_hi add_lo nb_hi nb_lo : Z) (rest : list Z) (m : Modbus) :
  au8Buffer
    (slave_drained regs u8size
       (with_crc (id :: fct :: add_hi :: add_lo :: nb_hi :: nb_lo :: rest)) m)
  = id :: fct :: add_hi :: add_lo :: nb_hi :: nb_lo
    :: drop 6
         (au8Buffer
            (slave_drained regs u8size
               (with_crc
                  (id :: fct :: add_hi :: add_lo :: nb_hi :: nb_lo :: rest))
               m)).
Proof. unfold slave_drained, drained, with_crc. fields. reflexivity. Qed.

(** The slave's [poll] up to the end of the validation, for a request
    addressed to this node with a good CRC. *)
Lemma poll_slave_validates (u8regsno : Z) (regs : list Z) (u8size : Z)
    (fct add_hi add_lo nb_hi nb_lo : Z) (rest : list Z) (now : Z)
    (m : Modbus) :
  let body := u8id m :: fct :: add_hi :: add_lo :: nb_hi :: nb_lo :: rest in
  let m1 := slave_drained regs u8size (with_crc body) m in
  frame_ready (with_crc body) now m ->
  Forall is_u8 body ->
  poll_slave u8regsno regs u8size now m
  = bind validateRequest (fun u8exception =>
       if 0 <? u8exception then
         bind (if negb (u8exception =? NO_REPLY)
               then bind (buildException u8exception)
                         (fun _ => sendTxBuffer)
               else ret tt) (fun _ =>
         bind (modify (set_u8lastError u8exception)) (fun _ =>
         ret (i8 u8exception)))
       else
         bind (modify (fun m => set_u32timeOut (u32 (now + u16timeOut m)) m))
           (fun _ =>
         bind (modify (set_u8lastError 0)) (fun _ =>
         bind (load Arr_au8Buffer FUNC) (fun fct =>
         poll_slave_dispatch u8regsno fct
           (Z.of_nat (length (with_crc body)))))))
      now m1
  /\ crc_mismatch now m1 = Ok false m1
  /\ take 5 (drop 1 (au8Buffer m1)) = [fct; add_hi; add_lo; nb_hi; nb_lo]
  /\ Z.of_nat (length (au8Buffer m1)) = MAX_BUFFER.
Proof.
  intros body m1 Hready Hb.
  pose proof Hready as (Hlen & _ & Hn & _).
  assert (length (with_crc body) = length rest + 8)%nat as Hwl
    by (unfold with_crc, body; rewrite length_app; cbn [length]; lia).
  rewrite Hwl in Hn.
  assert (holds_frame (with_crc body) m1) as Hholds
    by (apply slave_drained_holds; [exact Hlen | lia]).
  split; [|split; [|split]].
  - rewrite (poll_slave_drains _ _ _ (with_crc body)) by assumption.
    rewrite Hwl.
    assert ((Z.of_nat (length rest + 8) <? 7) = false) as ->
      by (apply Z.ltb_ge; lia).
    change ID with (Z.of_nat 0).
    rewrite (bind_load _ 0 (u8id m))
      by (apply slave_drained_lookup; reflexivity).
    rewrite bind_get. unfold slave_drained at 1, drained at 1. fields.
    rewrite Z.eqb_refl. cbn [negb]. reflexivity.
  - now apply (crc_mismatch_with_crc body).
  - unfold m1, body. rewrite slave_drained_header. reflexivity.
  - destruct Hholds as (_ & _ & Hl). exact Hl.
Qed.

(** X7: A request for this node with a good CRC that [validateRequest]
    measures as out of range is answered with exception 2: the reply is
    the node address, the function code plus [0x80], the code 2 and the
    CRC; [poll] returns 2, the registers and coils are untouched, and the
    error counter is not moved. *)
Theorem poll_slave_range_exception (u8regsno : Z) (regs : list Z)
    (u8size : Z) (fct add_hi add_lo nb_hi nb_lo : Z) (rest : list Z)
    (now : Z) (m : Modbus) :
  let body := u8id m :: fct :: add_hi :: add_lo :: nb_hi :: nb_lo :: rest in
  frame_ready (with_crc body) now m ->
  Forall is_u8 body ->
  range_refused fct add_hi add_lo nb_hi nb_lo ->
  exists m',
    poll_slave u8regsno regs u8size now m = Ok EXC_ADDR_RANGE m'
    /\ tx_line (port m')
       = tx_line (port m) ++ with_crc [u8id m; fct + 0x80; EXC_ADDR_RANGE]
    /\ u16errCnt m' = u16errCnt m
    /\ u8lastError m' = EXC_ADDR_RANGE
    /\ rw_regArea m' = rw_regArea m
    /\ rw_bitArea m' = rw_bitArea m.
Proof.
  intros body Hready Hb Hr.
  destruct (poll_slave_validates u8regsno regs u8size fct add_hi add_lo
              nb_hi nb_lo rest now m Hready Hb) as (-> & Hcrc & Hhdr & Hlen).
  erewrite bind_Ok
    by (apply (validateRequest_refuses fct add_hi add_lo nb_hi nb_lo);
        assumption).
  cbn [Z.ltb Z.compare EXC_ADDR_RANGE NO_REPLY Z.eqb Pos.eqb negb].
  erewrite bind_Ok.
  2:{ apply (exception_reply_exact _ fct); [exact Hlen|].
      rewrite slave_drained_header. reflexivity. }
  rewrite bind_modify. unfold ret.
  assert (u8 (fct + 0x80) = fct + 0x80) as ->.
  { apply u8_small.
    destruct Hr as [[[->| ->] _]|[[->|[->|[->|[->|[->| ->]]]]] _]];
      vm_compute; (split; [discriminate | reflexivity]). }
  eexists. split; [reflexivity|].
  unfold slave_drained, drained. fields. repeat split; reflexivity.
Qed.

Lemma poll_slave_range_exception_witness :
  exists m',
    poll_slave 0 [] 0 10 slave_with_fc6_at_17 = Ok EXC_ADDR_RANGE m'
    /\ tx_line (port m')
       = tx_line (port slave_with_fc6_at_17)
         ++ with_crc [u8id slave_with_fc6_at_17; 6 + 0x80; EXC_ADDR_RANGE]
    /\ u16errCnt m' = u16errCnt slave_with_fc6_at_17
    /\ u8lastError m' = EXC_ADDR_RANGE
    /\ rw_regArea m' = rw_regArea slave_with_fc6_at_17
    /\ rw_bitArea m' = rw_bitArea slave_with_fc6_at_17.
Proof.
  apply (poll_slave_range_exception 0 [] 0 6 0 17 0 255 [] 10
           slave_with_fc6_at_17).
  - repeat split; try reflexivity; cbn; lia.
  - repeat (constructor; [unfold is_u8; cbn; lia|]). constructor.
  - left. split; [right; reflexivity | vm_compute; reflexivity].
Defined.

(** ** The slave's [poll]: requests it carries out *)

(** [process_FC6] on a frame buffer that starts with the six header
    bytes, for an address inside the register area. *)
Lemma process_FC6_exact (b0 b1 add_hi add_lo nb_hi nb_lo : Z) (tl : list Z)
    (now : Z) (m : Modbus) :
  au8Buffer m = b0 :: b1 :: add_hi :: add_lo :: nb_hi :: nb_lo :: tl ->
  (2 <= length tl < 200)%nat ->
  word add_hi add_lo < Z.of_nat (length (rw_regArea m)) ->
  exists m',
    process_FC6 now m = Ok 8 m'
    /\ rw_regArea m'
       = <[Z.to_nat (word add_hi add_lo) := word nb_hi nb_lo]> (rw_regArea m)
    /\ tx_line (port m')
       = tx_line (port m)
         ++ with_crc [b0; b1; add_hi; add_lo; nb_hi; nb_lo]
    /\ u32timeOut m' = u32 (now + u16timeOut m)
    /\ u8lastError m' = u8lastError m
    /\ u16errCnt m' = u16errCnt m
    /\ rw_bitArea m' = rw_bitArea m
    /\ u8state m' = u8state m.
Proof.
  intros Hbuf Htl Hadd. pose proof (word_range add_hi add_lo) as Hw.
  unfold process_FC6.
  change ADD_HI with (Z.of_nat 2). change ADD_LO with (Z.of_nat 3).
  change NB_HI with (Z.of_nat 4). change NB_LO with (Z.of_nat 5).
  rewrite (bind_load _ 2 add_hi) by (cbn [field]; now rewrite Hbuf).
  rewrite (bind_load _ 3 add_lo) by (cbn [field]; now rewrite Hbuf).
  rewrite (bind_load _ 4 nb_hi) by (cbn [field]; now rewrite Hbuf).
  rewrite (bind_load _ 5 nb_lo) by (cbn [field]; now rewrite Hbuf).
  cbv zeta. rewrite bind_store_Z by (cbn [field]; lia).
  rewrite bind_modify, bind_get. fields.
  erewrite bind_Ok.
  2:{ apply (sendTxBuffer_exact [b0; b1; add_hi; add_lo; nb_hi; nb_lo]);
        fields; rewrite ?Hbuf; cbn [length]; try reflexivity; lia. }
  unfold ret. eexists. split; [reflexivity|]. fields.
  repeat split; reflexivity.
Qed.

Lemma poll_slave_dispatch_FC6 (u8regsno i8state : Z) :
  poll_slave_dispatch u8regsno MB_FC_WRITE_REGISTER i8state = process_FC6.
Proof. reflexivity. Qed.

(** The slave's [poll] from the validation on, for a write of a
    register of the register area. *)
Lemma poll_slave_runs_FC6 (u8regsno i8state id : Z)
    (add_hi add_lo nb_hi nb_lo now : Z) (tl : list Z) (m : Modbus) :
  crc_mismatch now m = Ok false m ->
  au8Buffer m
  = id :: MB_FC_WRITE_REGISTER :: add_hi :: add_lo :: nb_hi :: nb_lo :: tl ->
  (2 <= length tl < 200)%nat ->
  Z.of_nat (length (rw_regArea m)) = SIZE_RW_REGS ->
  word add_hi add_lo < SIZE_RW_REGS ->
  exists m',
    bind validateRequest (fun u8exception =>
       if 0 <? u8exception then
         bind (if negb (u8exception =? NO_REPLY)
               then bind (buildException u8exception)
                         (fun _ => sendTxBuffer)
               else ret tt) (fun _ =>
         bind (modify (set_u8lastError u8exception)) (fun _ =>
         ret (i8 u8exception)))
       else
         bind (modify (fun m => set_u32timeOut (u32 (now + u16timeOut m)) m))
           (fun _ =>
         bind (modify (set_u8lastError 0)) (fun _ =>
         bind (load Arr_au8Buffer FUNC) (fun fct =>
         poll_slave_dispatch u8regsno fct i8state))))
      now m
    = Ok 8 m'
    /\ rw_regArea m'
       = <[Z.to_nat (word add_hi add_lo) := word nb_hi nb_lo]> (rw_regArea m)
    /\ tx_line (port m')
       = tx_line (port m)
         ++ with_crc [id; MB_FC_WRITE_REGISTER; add_hi; add_lo; nb_hi; nb_lo]
    /\ u8lastError m' = 0
    /\ u16errCnt m' = u16errCnt m
    /\ u32timeOut m' = u32 (now + u16timeOut m)
    /\ rw_bitArea m' = rw_bitArea m.
Proof.
  intros Hcrc Hbuf Htl Hregs Hadd. unfold SIZE_RW_REGS in *.
  erewrite bind_Ok.
  2:{ apply (validateRequest_accepts MB_FC_WRITE_REGISTER add_hi add_lo
               nb_hi nb_lo);
        [exact Hcrc | rewrite Hbuf; reflexivity | reflexivity |].
      intros [[_ H]|[[H|[H|[H|[H|[H|H]]]]] _]];
        [lia | discriminate H..]. }
  cbn [Z.ltb Z.compare]. rewrite !bind_modify.
  change FUNC with (Z.of_nat 1).
  rewrite (bind_load _ 1 MB_FC_WRITE_REGISTER)
    by (fields; rewrite Hbuf; reflexivity).
  rewrite poll_slave_dispatch_FC6.
  match goal with
  | |- context [process_FC6 now ?s] =>
      destruct (process_FC6_exact id MB_FC_WRITE_REGISTER
                  add_hi add_lo nb_hi nb_lo tl now s)
        as (m' & Hrun & Hregs' & Htx & Hto & Herr & Hcnt & Hbits & _)
  end.
  - exact Hbuf.
  - exact Htl.
  - fields. lia.
  - exists m'. split; [exact Hrun|].
    rewrite Hregs', Htx, Hto, Herr, Hcnt, Hbits.
    fields. repeat split; reflexivity.
Qed.

(** X8: A write-single-register request for this node, with a good CRC and
    an address below 16, is carried out: the register takes the value,
    the reply is the request itself, byte for byte, [poll] returns 8, the
    last error is cleared, the error counter is not moved and the
    watchdog deadline is moved to the clock plus the time-out. *)
Theorem poll_slave_write_register (u8regsno : Z) (regs : list Z)
    (u8size : Z) (add_hi add_lo nb_hi nb_lo now : Z) (m : Modbus) :
  let body :=
    [u8id m; MB_FC_WRITE_REGISTER; add_hi; add_lo; nb_hi; nb_lo] in
  frame_ready (with_crc body) now m ->
  Forall is_u8 body ->
  Z.of_nat (length (rw_regArea m)) = SIZE_RW_REGS ->
  word add_hi add_lo < SIZE_RW_REGS ->
  exists m',
    poll_slave u8regsno regs u8size now m = Ok 8 m'
    /\ rw_regArea m'
       = <[Z.to_nat (word add_hi add_lo) := word nb_hi nb_lo]> (rw_regArea m)
    /\ tx_line (port m') = tx_line (port m) ++ with_crc body
    /\ u8lastError m' = 0
    /\ u16errCnt m' = u16errCnt m
    /\ u32timeOut m' = u32 (now + u16timeOut m)
    /\ rw_bitArea m' = rw_bitArea m.
Proof.
  intros body Hready Hb Hregs Hadd.
  pose proof Hready as (Hlen & _ & Hfl & _). unfold MAX_BUFFER in Hlen.
  destruct (poll_slave_validates u8regsno regs u8size MB_FC_WRITE_REGISTER
              add_hi add_lo nb_hi nb_lo [] now m Hready Hb)
    as (-> & Hcrc & _ & _).
  destruct (poll_slave_runs_FC6 u8regsno
              (Z.of_nat (length (with_crc body)))
              (u8id m) add_hi add_lo nb_hi nb_lo now
              ([u8 (Z.shiftr (crc16 body) 8); Z.land (crc16 body) 0x00ff]
               ++ drop (length (with_crc body)) (au8Buffer m))
              (slave_drained regs u8size (with_crc body) m))
    as (m' & Hrun & H1 & H2 & H3 & H4 & H5 & H6).
  - exact Hcrc.
  - reflexivity.
  - rewrite length_app, length_drop. unfold with_crc, body.
    rewrite length_app. cbn [length]. lia.
  - exact Hregs.
  - exact Hadd.
  - exists m'. split; [exact Hrun|].
    split; [exact H1|]. split; [exact H2|]. split; [exact H3|].
    split; [exact H4|]. split; [exact H5|exact H6].
Qed.

Lemma poll_slave_write_register_witness :
  exists m',
    poll_slave 0 [] 0 10 slave_with_fc6_at_5 = Ok 8 m'
    /\ rw_regArea m'
       = <[Z.to_nat (word 0 5) := word 0 255]> (rw_regArea slave_with_fc6_at_5)
    /\ tx_line (port m')
       = tx_line (port slave_with_fc6_at_5)
         ++ with_crc [u8id slave_with_fc6_at_5; MB_FC_WRITE_REGISTER;
                      0; 5; 0; 255]
    /\ u8lastError m' = 0
    /\ u16errCnt m' = u16errCnt slave_with_fc6_at_5
    /\ u32timeOut m' = u32 (10 + u16timeOut slave_with_fc6_at_5)
    /\ rw_bitArea m' = rw_bitArea slave_with_fc6_at_5.
Proof.
  apply (poll_slave_write_register 0 [] 0 0 5 0 255 10 slave_with_fc6_at_5).
  - repeat split; try reflexivity; cbn; lia.
  - repeat (constructor; [vm_compute; split; [discriminate|reflexivity]|]).
    constructor.
  - reflexivity.
  - vm_compute. reflexivity.
Defined.

(** ** The master's [query]: the frames it builds *)

(** [query] past its three tests and its four header stores, for a
    master that may send. *)
Lemma query_header (telegram : modbus_t) (now : Z) (m : Modbus) :
  master_ready m ->
  1 <= Telegram.u8id telegram <= 247 ->
  query telegram now m
  = bind (query_payload telegram) (fun _ =>
      bind sendTxBuffer (fun _ =>
      bind (modify (set_u8state COM_WAITING)) (fun _ => ret 0)))
      now
      (set_au8Buffer
         (Telegram.u8id telegram :: Telegram.u8fct telegram
          :: highByte (Telegram.u16RegAdd telegram)
          :: lowByte (Telegram.u16RegAdd telegram)
          :: drop 4 (au8Buffer m))
         (set_au16regs (Telegram.au16reg telegram) m)).
Proof.
  intros (Hid & Hst & Hlen) Htid. unfold MAX_BUFFER in Hlen.
  unfold query. rewrite bind_get, Hid. cbn [Z.eqb negb].
  rewrite bind_get, Hst. cbn [Z.eqb negb COM_IDLE].
  destruct (Z.eqb_spec (Telegram.u8id telegram) 0) as [H0|_]; [lia|].
  destruct (Z.ltb_spec 247 (Telegram.u8id telegram)) as [H0|_]; [lia|].
  cbn [orb]. rewrite bind_modify.
  destruct m as [? ? ? ? buf]. fields. cbn in Hlen.
  destruct buf as [|b0 [|b1 [|b2 [|b3 buf]]]]; cbn in Hlen; try lia.
  change ID with (Z.of_nat 0). change FUNC with (Z.of_nat 1).
  change ADD_HI with (Z.of_nat 2). change ADD_LO with (Z.of_nat 3).
  rewrite bind_store by (fields; cbn [length]; lia). fields.
  rewrite bind_store by (fields; cbn; lia). fields.
  rewrite bind_store by (fields; cbn; lia). fields.
  rewrite bind_store by (fields; cbn; lia). fields.
  reflexivity.
Qed.

(** X9: A query with one of the four read functions puts on the line the
    target, the function code, the start address and the quantity, both
    high byte first, and the CRC; the master then waits, with the
    watchdog deadline at the clock plus the time-out. *)
Theorem query_read_frame (telegram : modbus_t) (now : Z) (m : Modbus) :
  master_ready m ->
  1 <= Telegram.u8id telegram <= 247 ->
  is_read_function (Telegram.u8fct telegram) = true ->
  exists m',
    query telegram now m = Ok 0 m'
    /\ tx_line (port m')
       = tx_line (port m)
         ++ with_crc [Telegram.u8id telegram; Telegram.u8fct telegram;
                      highByte (Telegram.u16RegAdd telegram);
                      lowByte (Telegram.u16RegAdd telegram);
                      highByte (Telegram.u16CoilsNo telegram);
                      lowByte (Telegram.u16CoilsNo telegram)]
    /\ u8state m' = COM_WAITING
    /\ u32timeOut m' = u32 (now + u16timeOut m)
    /\ u16OutCnt m' = u16 (u16OutCnt m + 1)
    /\ au16regs m' = Telegram.au16reg telegram.
Proof.
  intros Hready Htid Hfct. rewrite query_header by assumption.
  destruct Hready as (_ & _ & Hlen). unfold MAX_BUFFER in Hlen.
  unfold query_payload. cbv zeta. unfold is_read_function in Hfct.
  rewrite ?Hfct.
  change NB_HI with (Z.of_nat 4). change NB_LO with (Z.of_nat 5).
  rewrite bind_assoc.
  rewrite bind_store by (fields; cbn [length]; rewrite length_drop; lia).
  rewrite bind_assoc.
  rewrite bind_store
    by (fields; rewrite length_insert; cbn [length]; rewrite length_drop;
        lia).
  rewrite bind_modify. fields.
  destruct (au8Buffer m) as [|b0 [|b1 [|b2 [|b3 [|b4 [|b5 buf]]]]]];
    cbn in Hlen; try lia.
  cbn [drop list_insert insert].
  erewrite bind_Ok.
  2:{ apply (sendTxBuffer_exact
               [Telegram.u8id telegram; Telegram.u8fct telegram;
                highByte (Telegram.u16RegAdd telegram);
                lowByte (Telegram.u16RegAdd telegram);
                highByte (Telegram.u16CoilsNo telegram);
                lowByte (Telegram.u16CoilsNo telegram)]);
        fields; cbn [length]; try reflexivity; lia. }
  rewrite bind_modify. unfold ret. eexists. split; [reflexivity|].
  fields. repeat split; reflexivity.
Qed.

Lemma query_read_frame_witness :
  exists m',
    query read_two_regs 10 (Modbus_begin 0) = Ok 0 m'
    /\ tx_line (port m')
       = tx_line (port (Modbus_begin 0))
         ++ with_crc [Telegram.u8id read_two_regs;
                      Telegram.u8fct read_two_regs;
                      highByte (Telegram.u16RegAdd read_two_regs);
                      lowByte (Telegram.u16RegAdd read_two_regs);
                      highByte (Telegram.u16CoilsNo read_two_regs);
                      lowByte (Telegram.u16CoilsNo read_two_regs)]
    /\ u8state m' = COM_WAITING
    /\ u32timeOut m' = u32 (10 + u16timeOut (Modbus_begin 0))
    /\ u16OutCnt m' = u16 (u16OutCnt (Modbus_begin 0) + 1)
    /\ au16regs m' = Telegram.au16reg read_two_regs.
Proof.
  apply (query_read_frame read_two_regs 10 (Modbus_begin 0)).
  - repeat split; reflexivity.
  - cbn. lia.
  - reflexivity.
Defined.

(** The function code is a literal: the tests of a [switch] on it
    compute. *)
Ltac switch_on H :=
  rewrite H;
  cbn [Z.eqb Pos.eqb orb negb MB_FC_READ_COILS MB_FC_READ_DISCRETE_INPUT
       MB_FC_READ_REGISTERS MB_FC_READ_INPUT_REGISTER MB_FC_WRITE_COIL
       MB_FC_WRITE_REGISTER MB_FC_WRITE_MULTIPLE_COILS
       MB_FC_WRITE_MULTIPLE_REGISTERS].

(** The end of [query] for the frames of six bytes. *)
Lemma query_sends_six (telegram : modbus_t) (b4 b5 now : Z) (m : Modbus) :
  master_ready m ->
  1 <= Telegram.u8id telegram <= 247 ->
  (forall m0,
      (6 <= length (au8Buffer m0))%nat ->
      au16regs m0 = Telegram.au16reg telegram ->
      query_payload telegram now m0
      = Ok tt (set_u8BufferSize 6
                 (set_au8Buffer
                    (<[5%nat := b5]> (<[4%nat := b4]> (au8Buffer m0))) m0))) ->
  exists m',
    query telegram now m = Ok 0 m'
    /\ tx_line (port m')
       = tx_line (port m)
         ++ with_crc [Telegram.u8id telegram; Telegram.u8fct telegram;
                      highByte (Telegram.u16RegAdd telegram);
                      lowByte (Telegram.u16RegAdd telegram); b4; b5]
    /\ u8state m' = COM_WAITING
    /\ u32timeOut m' = u32 (now + u16timeOut m)
    /\ u16OutCnt m' = u16 (u16OutCnt m + 1).
Proof.
  intros Hready Htid Hpay. rewrite query_header by assumption.
  destruct Hready as (_ & _ & Hlen). unfold MAX_BUFFER in Hlen.
  erewrite bind_Ok.
  2:{ apply Hpay; fields; [|reflexivity].
      cbn [length]. rewrite length_drop. lia. }
  fields.
  destruct (au8Buffer m) as [|b0 [|b1 [|b2 [|b3 [|c4 [|c5 buf]]]]]];
    cbn in Hlen; try lia.
  cbn [drop list_insert insert].
  erewrite bind_Ok.
  2:{ apply (sendTxBuffer_exact
               [Telegram.u8id telegram; Telegram.u8fct telegram;
                highByte (Telegram.u16RegAdd telegram);
                lowByte (Telegram.u16RegAdd telegram); b4; b5]);
        fields; cbn [length]; try reflexivity; lia. }
  rewrite bind_modify. unfold ret. eexists. split; [reflexivity|].
  fields. repeat split; reflexivity.
Qed.

(** X10: A write-single-register query carries the caller's first value, high
    byte first, after the target, the function code and the address. *)
Theorem query_write_register_frame (telegram : modbus_t) (r : Z)
    (regs : list Z) (now : Z) (m : Modbus) :
  master_ready m ->
  1 <= Telegram.u8id telegram <= 247 ->
  Telegram.u8fct telegram = MB_FC_WRITE_REGISTER ->
  Telegram.au16reg telegram = r :: regs ->
  exists m',
    query telegram now m = Ok 0 m'
    /\ tx_line (port m')
       = tx_line (port m)
         ++ with_crc [Telegram.u8id telegram; Telegram.u8fct telegram;
                      highByte (Telegram.u16RegAdd telegram);
                      lowByte (Telegram.u16RegAdd telegram);
                      highByte r; lowByte r]
    /\ u8state m' = COM_WAITING
    /\ u32timeOut m' = u32 (now + u16timeOut m)
    /\ u16OutCnt m' = u16 (u16OutCnt m + 1).
Proof.
  intros Hready Htid Hfct Hregs.
  apply query_sends_six; try assumption.
  intros m0 Hlen Hau. unfold query_payload. cbv zeta. switch_on Hfct.
  change 0 with (Z.of_nat 0) at 1.
  rewrite (bind_load _ 0 r) by (cbn [field]; now rewrite Hau, Hregs).
  change NB_HI with (Z.of_nat 4). change NB_LO with (Z.of_nat 5).
  rewrite bind_store by (fields; lia).
  rewrite bind_store by (fields; rewrite length_insert; lia).
  reflexivity.
Qed.

Lemma query_write_register_frame_witness :
  exists m',
    query write_reg_5 10 (Modbus_begin 0) = Ok 0 m'
    /\ tx_line (port m')
       = tx_line (port (Modbus_begin 0))
         ++ with_crc [Telegram.u8id write_reg_5; Telegram.u8fct write_reg_5;
                      highByte (Telegram.u16RegAdd write_reg_5);
                      lowByte (Telegram.u16RegAdd write_reg_5);
                      highByte 0x00FF; lowByte 0x00FF]
    /\ u8state m' = COM_WAITING
    /\ u32timeOut m' = u32 (10 + u16timeOut (Modbus_begin 0))
    /\ u16OutCnt m' = u16 (u16OutCnt (Modbus_begin 0) + 1).
Proof.
  apply (query_write_register_frame write_reg_5 0x00FF [] 10
           (Modbus_begin 0)).
  - repeat split; reflexivity.
  - cbn. lia.
  - reflexivity.
  - reflexivity.
Defined.

(** X11: A write-single-coil query carries [FF 00] when the caller's first
    value is above 0 and [00 00] otherwise. *)
Theorem query_write_coil_frame (telegram : modbus_t) (r : Z)
    (regs : list Z) (now : Z) (m : Modbus) :
  master_ready m ->
  1 <= Telegram.u8id telegram <= 247 ->
  Telegram.u8fct telegram = MB_FC_WRITE_COIL ->
  Telegram.au16reg telegram = r :: regs ->
  exists m',
    query telegram now m = Ok 0 m'
    /\ tx_line (port m')
       = tx_line (port m)
         ++ with_crc [Telegram.u8id telegram; Telegram.u8fct telegram;
                      highByte (Telegram.u16RegAdd telegram);
                      lowByte (Telegram.u16RegAdd telegram);
                      if 0 <? r then 0xff else 0; 0]
    /\ u8state m' = COM_WAITING
    /\ u32timeOut m' = u32 (now + u16timeOut m)
    /\ u16OutCnt m' = u16 (u16OutCnt m + 1).
Proof.
  intros Hready Htid Hfct Hregs.
  apply query_sends_six; try assumption.
  intros m0 Hlen Hau. unfold query_payload. cbv zeta. switch_on Hfct.
  change 0 with (Z.of_nat 0) at 1.
  rewrite (bind_load _ 0 r) by (cbn [field]; now rewrite Hau, Hregs).
  change NB_HI with (Z.of_nat 4). change NB_LO with (Z.of_nat 5).
  rewrite bind_store by (fields; lia).
  rewrite bind_store by (fields; rewrite length_insert; lia).
  reflexivity.
Qed.

Lemma query_write_coil_frame_witness :
  exists m',
    query write_coil_3 10 (Modbus_begin 0) = Ok 0 m'
    /\ tx_line (port m')
       = tx_line (port (Modbus_begin 0))
         ++ with_crc [Telegram.u8id write_coil_3; Telegram.u8fct write_coil_3;
                      highByte (Telegram.u16RegAdd write_coil_3);
                      lowByte (Telegram.u16RegAdd write_coil_3);
                      if 0 <? 1 then 0xff else 0; 0]
    /\ u8state m' = COM_WAITING
    /\ u32timeOut m' = u32 (10 + u16timeOut (Modbus_begin 0))
    /\ u16OutCnt m' = u16 (u16OutCnt (Modbus_begin 0) + 1).
Proof.
  apply (query_write_coil_frame write_coil_3 1 [] 10 (Modbus_begin 0)).
  - repeat split; reflexivity.
  - cbn. lia.
  - reflexivity.
  - reflexivity.
Defined.

Lemma set_buffer_twice (m : Modbus) (s1 s2 : Z) (l1 l2 : list Z) :
  set_u8BufferSize s2 (set_au8Buffer l2
    (set_u8BufferSize s1 (set_au8Buffer l1 m)))
  = set_u8BufferSize s2 (set_au8Buffer l2 m).
Proof. reflexivity. Qed.

Lemma set_buffer_same (m : Modbus) :
  set_u8BufferSize (u8BufferSize m) (set_au8Buffer (au8Buffer m) m) = m.
Proof. now destruct m. Qed.

(** The loop of [query] for function 16, from register [i] and fill
    level [s]: each register goes to the frame buffer, high byte
    first. *)
Lemma query_FC16_loop_exact (k : nat) :
  forall (i s : nat) (now : Z) (m : Modbus),
    u8BufferSize m = Z.of_nat s ->
    (s + 2 * k <= length (au8Buffer m))%nat ->
    (length (au8Buffer m) < 256)%nat ->
    (i + k <= length (au16regs m))%nat ->
    for_u16 k (Z.of_nat i) query_FC16_body now m
    = Ok tt
        (set_u8BufferSize (Z.of_nat (s + 2 * k))
           (set_au8Buffer
              (take s (au8Buffer m)
               ++ be_bytes (take k (drop i (au16regs m)))
               ++ drop (s + 2 * k) (au8Buffer m)) m)).
Proof.
  induction k as [|k IH]; intros i s now m Hsize Hfit Hlen Hregs.
  - cbn [for_u16]. unfold ret.
    change (be_bytes (take 0 (drop i (au16regs m)))) with (@nil Z).
    rewrite app_nil_l, Nat.mul_0_r, Nat.add_0_r, take_drop, <- Hsize.
    now rewrite set_buffer_same.
  - cbn [for_u16]. unfold query_FC16_body at 1.
    destruct (lookup_lt_is_Some_2 (au16regs m) i ltac:(lia)) as [r Hr].
    rewrite !bind_assoc, (bind_load _ i r) by exact Hr.
    rewrite !bind_assoc, bind_get, Hsize.
    rewrite !bind_assoc, bind_store by (cbn [field]; lia).
    unfold incr_u8BufferSize. rewrite !bind_assoc, bind_modify.
    rewrite !bind_assoc, bind_get. fields.
    rewrite Hsize, (u8_small (Z.of_nat s + 1)) by lia.
    replace (Z.of_nat s + 1) with (Z.of_nat (S s)) by lia.
    rewrite !bind_assoc, bind_store
      by (cbn [field]; fields; rewrite length_insert; lia).
    rewrite bind_modify. fields.
    rewrite (u8_small (Z.of_nat (S s) + 1)) by lia.
    replace (Z.of_nat (S s) + 1) with (Z.of_nat (S (S s))) by lia.
    replace (Z.of_nat i + 1) with (Z.of_nat (S i)) by lia.
    rewrite (IH (S i) (S (S s))); fields; rewrite ?length_insert;
      try reflexivity; try lia.
    rewrite !set_buffer_twice.
    replace (S (S s) + 2 * k)%nat with (s + 2 * S k)%nat by lia.
    do 3 f_equal.
    rewrite !drop_insert_lt by lia.
    rewrite (take_S_r _ (S s) (lowByte r))
      by (apply list_lookup_insert_eq; rewrite length_insert; lia).
    rewrite take_insert_ge by lia.
    rewrite take_insert_next by lia.
    rewrite (drop_S _ r i Hr). cbn [take be_bytes flat_map app].
    rewrite <- !app_assoc. reflexivity.
Qed.

Lemma be_bytes_length (regs : list Z) :
  length (be_bytes regs) = (2 * length regs)%nat.
Proof.
  induction regs as [|r regs IH]; [reflexivity|].
  cbn [be_bytes flat_map app length] in *. unfold be_bytes in IH. lia.
Qed.

(** [query] for function 16 up to [sendTxBuffer]: the header, the byte
    count and the registers are in the frame buffer. *)
Lemma query_FC16_fills (telegram : modbus_t) (n : nat) (now : Z)
    (m : Modbus) :
  master_ready m ->
  1 <= Telegram.u8id telegram <= 247 ->
  Telegram.u8fct telegram = MB_FC_WRITE_MULTIPLE_REGISTERS ->
  Telegram.u16CoilsNo telegram = Z.of_nat n ->
  (n <= 28)%nat ->
  (n <= length (Telegram.au16reg telegram))%nat ->
  let bytes :=
    [Telegram.u8id telegram; Telegram.u8fct telegram;
     highByte (Telegram.u16RegAdd telegram);
     lowByte (Telegram.u16RegAdd telegram);
     highByte (Telegram.u16CoilsNo telegram);
     lowByte (Telegram.u16CoilsNo telegram);
     u8 (Telegram.u16CoilsNo telegram * 2)]
    ++ be_bytes (take n (Telegram.au16reg telegram)) in
  query telegram now m
  = bind sendTxBuffer (fun _ =>
      bind (modify (set_u8state COM_WAITING)) (fun _ => ret 0))
      now
      (set_u8BufferSize (Z.of_nat (length bytes))
         (set_au8Buffer (bytes ++ drop (length bytes) (au8Buffer m))
            (set_au16regs (Telegram.au16reg telegram) m))).
Proof.
  intros Hready Htid Hfct Hn Hmax Hregs bytes.
  rewrite query_header by assumption.
  destruct Hready as (_ & _ & Hlen). unfold MAX_BUFFER in Hlen.
  unfold query_payload. cbv zeta. switch_on Hfct.
  change NB_HI with (Z.of_nat 4). change NB_LO with (Z.of_nat 5).
  change (Z.of_nat 5 + 1) with (Z.of_nat 6).
  rewrite !bind_assoc, bind_store
    by (fields; cbn [length]; rewrite length_drop; lia).
  rewrite !bind_assoc, bind_store
    by (fields; rewrite length_insert; cbn [length]; rewrite length_drop;
        lia).
  rewrite !bind_assoc, bind_store
    by (fields; rewrite !length_insert; cbn [length]; rewrite length_drop;
        lia).
  rewrite !bind_assoc, bind_modify. fields.
  destruct (au8Buffer m) as [|b0 [|b1 [|b2 [|b3 [|b4 [|b5 [|b6 buf]]]]]]]
    eqn:Hbuf; cbn in Hlen; try lia.
  cbn [drop list_insert insert].
  rewrite Hn, Nat2Z.id.
  change 0 with (Z.of_nat 0) at 1.
  erewrite bind_Ok.
  2:{ apply (query_FC16_loop_exact n 0 7); fields; cbn [length];
        try reflexivity; lia. }
  fields. rewrite set_buffer_twice. cbn [take drop].
  assert (length bytes = 7 + 2 * n)%nat as Hbl.
  { unfold bytes. rewrite length_app, be_bytes_length, length_take.
    cbn [length]. lia. }
  rewrite Hbl. unfold bytes. rewrite Hn, Hfct.
  cbn [app take drop Nat.add]. reflexivity.
Qed.

(** X12: A write-multiple-registers query for up to 27 registers carries the
    quantity, the byte count (twice the quantity) and the caller's
    registers, each high byte first. *)
Theorem query_write_registers_frame (telegram : modbus_t) (n : nat)
    (now : Z) (m : Modbus) :
  master_ready m ->
  1 <= Telegram.u8id telegram <= 247 ->
  Telegram.u8fct telegram = MB_FC_WRITE_MULTIPLE_REGISTERS ->
  Telegram.u16CoilsNo telegram = Z.of_nat n ->
  (n <= 27)%nat ->
  (n <= length (Telegram.au16reg telegram))%nat ->
  exists m',
    query telegram now m = Ok 0 m'
    /\ tx_line (port m')
       = tx_line (port m)
         ++ with_crc
              ([Telegram.u8id telegram; Telegram.u8fct telegram;
                highByte (Telegram.u16RegAdd telegram);
                lowByte (Telegram.u16RegAdd telegram);
                highByte (Telegram.u16CoilsNo telegram);
                lowByte (Telegram.u16CoilsNo telegram);
                u8 (Telegram.u16CoilsNo telegram * 2)]
               ++ be_bytes (take n (Telegram.au16reg telegram)))
    /\ u8state m' = COM_WAITING
    /\ u32timeOut m' = u32 (now + u16timeOut m)
    /\ u16OutCnt m' = u16 (u16OutCnt m + 1).
Proof.
  intros Hready Htid Hfct Hn Hmax Hregs.
  rewrite (query_FC16_fills telegram n) by (assumption || lia).
  destruct Hready as (_ & _ & Hlen). unfold MAX_BUFFER in Hlen.
  set (bytes := _ ++ be_bytes _).
  assert (length bytes = 7 + 2 * n)%nat as Hbl.
  { unfold bytes. rewrite length_app, be_bytes_length, length_take.
    cbn [length]. lia. }
  erewrite bind_Ok.
  2:{ apply (sendTxBuffer_exact bytes); fields.
      - reflexivity.
      - now rewrite take_app_length.
      - rewrite length_app, length_drop. lia.
      - lia. }
  rewrite bind_modify. unfold ret. eexists. split; [reflexivity|].
  fields. repeat split; reflexivity.
Qed.

Lemma query_write_registers_frame_witness :
  exists m',
    query write_two_regs 10 (Modbus_begin 0) = Ok 0 m'
    /\ tx_line (port m')
       = tx_line (port (Modbus_begin 0))
         ++ with_crc
              ([Telegram.u8id write_two_regs; Telegram.u8fct write_two_regs;
                highByte (Telegram.u16RegAdd write_two_regs);
                lowByte (Telegram.u16RegAdd write_two_regs);
                highByte (Telegram.u16CoilsNo write_two_regs);
                lowByte (Telegram.u16CoilsNo write_two_regs);
                u8 (Telegram.u16CoilsNo write_two_regs * 2)]
               ++ be_bytes (take 2 (Telegram.au16reg write_two_regs)))
    /\ u8state m' = COM_WAITING
    /\ u32timeOut m' = u32 (10 + u16timeOut (Modbus_begin 0))
    /\ u16OutCnt m' = u16 (u16OutCnt (Modbus_begin 0) + 1).
Proof.
  apply (query_write_registers_frame write_two_regs 2 10 (Modbus_begin 0)).
  - repeat split; reflexivity.
  - cbn. lia.
  - reflexivity.
  - reflexivity.
  - lia.
  - cbn. lia.
Defined.

Lemma for_u16_app (a b : nat) (i : Z) (body : Z -> M unit) (now : Z)
    (m : Modbus) :
  for_u16 (a + b) i body now m
  = bind (for_u16 a i body) (fun _ => for_u16 b (i + Z.of_nat a) body) now m.
Proof.
  revert i m. induction a as [|a IH]; intros i m.
  - cbn [for_u16 Nat.add]. rewrite bind_ret.
    now replace (i + Z.of_nat 0) with i by lia.
  - cbn [for_u16 Nat.add]. unfold bind.
    destruct (body i now m) as [[] m1| |]; [|reflexivity..].
    rewrite IH. unfold bind.
    now replace (i + 1 + Z.of_nat a) with (i + Z.of_nat (S a)) by lia.
Qed.

(** [sendTxBuffer] on a frame of 63 bytes: the second CRC byte goes to
    index 64. *)
Lemma sendTxBuffer_overruns (now : Z) (m : Modbus) :
  u8BufferSize m = 63 ->
  length (au8Buffer m) = 64%nat ->
  sendTxBuffer now m = OutOfBounds Arr_au8Buffer 64.
Proof.
  intros Hsize Hlen. unfold sendTxBuffer. rewrite bind_get, Hsize.
  assert (length (take 63 (au8Buffer m)) = 63%nat) as Hl63
    by (rewrite length_take, Hlen; reflexivity).
  erewrite bind_Ok.
  2:{ replace 63 with (Z.of_nat (length (take 63 (au8Buffer m))))
        by (rewrite Hl63; reflexivity).
      apply calcCRC_spec. now rewrite Hl63. }
  change 63 with (Z.of_nat 63). rewrite bind_store by (cbn [field]; lia).
  unfold incr_u8BufferSize. rewrite bind_modify, bind_get. fields.
  rewrite Hsize. unfold bind at 1.
  rewrite store_ge; [reflexivity|]. fields. rewrite length_insert, Hlen.
  vm_compute. discriminate.
Qed.

(** The loop of [query] for function 16 runs out of the frame buffer
    when the registers that are left do not fit. *)
Lemma query_FC16_loop_overruns (k : nat) :
  forall (i s : nat) (now : Z) (m : Modbus),
    u8BufferSize m = Z.of_nat s ->
    length (au8Buffer m) = 64%nat ->
    (s <= 64)%nat ->
    (64 < s + 2 * k)%nat ->
    (i + k <= length (au16regs m))%nat ->
    for_u16 k (Z.of_nat i) query_FC16_body now m
    = OutOfBounds Arr_au8Buffer 64.
Proof.
  induction k as [|k IH]; intros i s now m Hsize Hlen Hs Hover Hregs; [lia|].
  cbn [for_u16]. unfold query_FC16_body at 1.
  destruct (lookup_lt_is_Some_2 (au16regs m) i ltac:(lia)) as [r Hr].
  rewrite !bind_assoc, (bind_load _ i r) by exact Hr.
  rewrite !bind_assoc, bind_get, Hsize.
  destruct (Nat.eq_dec s 64%nat) as [->|Hne].
  { rewrite !bind_assoc. unfold bind at 1.
    rewrite store_ge; [reflexivity|]. cbn [field]. lia. }
  rewrite !bind_assoc, bind_store by (cbn [field]; lia).
  unfold incr_u8BufferSize. rewrite !bind_assoc, bind_modify.
  rewrite !bind_assoc, bind_get. fields.
  rewrite Hsize, (u8_small (Z.of_nat s + 1)) by lia.
  destruct (Nat.eq_dec s 63%nat) as [->|Hne'].
  { rewrite !bind_assoc. unfold bind at 1.
    rewrite store_ge; [reflexivity|]. fields. rewrite length_insert, Hlen.
    vm_compute. discriminate. }
  replace (Z.of_nat s + 1) with (Z.of_nat (S s)) by lia.
  rewrite !bind_assoc, bind_store
    by (cbn [field]; fields; rewrite length_insert; lia).
  rewrite bind_modify. fields.
  rewrite (u8_small (Z.of_nat (S s) + 1)) by lia.
  replace (Z.of_nat (S s) + 1) with (Z.of_nat (S (S s))) by lia.
  replace (Z.of_nat i + 1) with (Z.of_nat (S i)) by lia.
  apply (IH (S i) (S (S s))); fields; rewrite ?length_insert;
    try reflexivity; try lia.
Qed.

(** X13: [query] has no test of the quantity against the frame buffer: a
    write-multiple-registers query for 28 registers or more writes at
    index 64 of the buffer of [MAX_BUFFER] bytes. *)
Theorem query_write_registers_overruns (telegram : modbus_t) (n : nat)
    (now : Z) (m : Modbus) :
  master_ready m ->
  1 <= Telegram.u8id telegram <= 247 ->
  Telegram.u8fct telegram = MB_FC_WRITE_MULTIPLE_REGISTERS ->
  Telegram.u16CoilsNo telegram = Z.of_nat n ->
  (28 <= n)%nat ->
  (n <= length (Telegram.au16reg telegram))%nat ->
  query telegram now m = OutOfBounds Arr_au8Buffer 64.
Proof.
  intros Hready Htid Hfct Hn Hmin Hregs.
  destruct (Nat.eq_dec n 28%nat) as [->|Hne].
  - rewrite (query_FC16_fills telegram 28) by (assumption || lia).
    destruct Hready as (_ & _ & Hlen). unfold MAX_BUFFER in Hlen.
    set (bytes := _ ++ be_bytes _).
    assert (length bytes = 63)%nat as Hbl.
    { unfold bytes. rewrite length_app, be_bytes_length, length_take.
      cbn [length]. lia. }
    rewrite Hbl. unfold bind at 1.
    rewrite sendTxBuffer_overruns; [reflexivity|reflexivity|].
    fields. rewrite length_app, length_drop. lia.
  - rewrite query_header by assumption.
    destruct Hready as (_ & _ & Hlen). unfold MAX_BUFFER in Hlen.
    unfold query_payload. cbv zeta. switch_on Hfct.
    change NB_HI with (Z.of_nat 4). change NB_LO with (Z.of_nat 5).
    change (Z.of_nat 5 + 1) with (Z.of_nat 6).
    rewrite !bind_assoc, bind_store
      by (fields; cbn [length]; rewrite length_drop; lia).
    rewrite !bind_assoc, bind_store
      by (fields; rewrite length_insert; cbn [length]; rewrite length_drop;
          lia).
    rewrite !bind_assoc, bind_store
      by (fields; rewrite !length_insert; cbn [length]; rewrite length_drop;
          lia).
    rewrite !bind_assoc, bind_modify. fields.
    rewrite Hn, Nat2Z.id. change 0 with (Z.of_nat 0) at 1.
    unfold bind at 1.
    rewrite (query_FC16_loop_overruns n 0 7); fields;
      rewrite ?length_insert; cbn [length]; rewrite ?length_drop;
      try reflexivity; lia.
Qed.

Lemma query_write_registers_overruns_witness :
  query write_28_regs 10 (Modbus_begin 0) = OutOfBounds Arr_au8Buffer 64.
Proof.
  apply (query_write_registers_overruns write_28_regs 28 10 (Modbus_begin 0)).
  - repeat split; reflexivity.
  - cbn. lia.
  - reflexivity.
  - reflexivity.
  - lia.
  - cbn. lia.
Defined.

(** X14: [query] does not test the function code: with a code outside the
    eight supported ones it still transmits and waits.  The frame is the
    first [u8BufferSize] bytes of the frame buffer as the call found it,
    the four header bytes apart, and the CRC; after [begin] or after any
    transmission that is the CRC of the empty frame alone. *)
Theorem query_unsupported_function (telegram : modbus_t) (s : nat)
    (now : Z) (m : Modbus) :
  master_ready m ->
  1 <= Telegram.u8id telegram <= 247 ->
  isSupported (Telegram.u8fct telegram) = false ->
  u8BufferSize m = Z.of_nat s ->
  (s <= 62)%nat ->
  exists m',
    query telegram now m = Ok 0 m'
    /\ tx_line (port m')
       = tx_line (port m)
         ++ with_crc
              (take s
                 (Telegram.u8id telegram :: Telegram.u8fct telegram
                  :: highByte (Telegram.u16RegAdd telegram)
                  :: lowByte (Telegram.u16RegAdd telegram)
                  :: drop 4 (au8Buffer m)))
    /\ u8state m' = COM_WAITING.
Proof.
  intros Hready Htid Hsup Hsize Hs. rewrite query_header by assumption.
  destruct Hready as (_ & _ & Hlen). unfold MAX_BUFFER in Hlen.
  unfold isSupported, fctsupported in Hsup. cbn [existsb] in Hsup.
  rewrite !orb_false_iff in Hsup.
  destruct Hsup as (H1 & H2 & H3 & H4 & H5 & H6 & H15 & H16 & _).
  rewrite Z.eqb_sym in H1, H2, H3, H4, H5, H6, H15, H16.
  unfold query_payload. cbv zeta. rewrite H1, H2, H3, H4, H5, H6, H15, H16.
  cbn [orb]. rewrite bind_ret.
  set (buf := _ :: _ :: _ :: _ :: drop 4 _).
  assert (length buf = 64%nat) as Hbl
    by (unfold buf; cbn [length]; rewrite length_drop; lia).
  assert (length (take s buf) = s) as Hts
    by (rewrite length_take, Hbl; apply Nat.min_l; lia).
  erewrite bind_Ok.
  2:{ apply (sendTxBuffer_exact (take s buf)); fields; rewrite Hts.
      - exact Hsize.
      - reflexivity.
      - lia.
      - lia. }
  rewrite bind_modify. unfold ret. eexists. split; [reflexivity|].
  fields. split; reflexivity.
Qed.

Lemma query_unsupported_function_witness :
  exists m',
    query diagnostics 10 (Modbus_begin 0) = Ok 0 m'
    /\ tx_line (port m')
       = tx_line (port (Modbus_begin 0))
         ++ with_crc
              (take 0
                 (Telegram.u8id diagnostics :: Telegram.u8fct diagnostics
                  :: highByte (Telegram.u16RegAdd diagnostics)
                  :: lowByte (Telegram.u16RegAdd diagnostics)
                  :: drop 4 (au8Buffer (Modbus_begin 0))))
    /\ u8state m' = COM_WAITING.
Proof.
  apply (query_unsupported_function diagnostics 0 10 (Modbus_begin 0)).
  - repeat split; reflexivity.
  - cbn. lia.
  - reflexivity.
  - reflexivity.
  - lia.
Defined.

(** ** The master's [poll]: the answers it takes *)

(** The master's [poll] up to the drain, for an answer that is ready. *)
Lemma poll_drains (frame : list Z) (now : Z) (m : Modbus) :
  answer_ready frame now m ->
  poll now m
  = (if Z.of_nat (length frame) <? 7 then
       bind (modify (set_u8state COM_IDLE)) (fun _ =>
       bind incr_u16errCnt (fun _ => ret (Z.of_nat (length frame))))
     else
       bind validateAnswer (fun u8exception =>
       if negb (u8exception =? 0) then
         bind (modify (set_u8state COM_IDLE)) (fun _ =>
         ret (i8 u8exception))
       else
         bind (load Arr_au8Buffer FUNC) (fun fct =>
         bind (poll_dispatch fct) (fun _ =>
         bind (modify (set_u8state COM_IDLE)) (fun _ =>
         bind (get u8BufferSize) (fun size => ret (i8 size)))))))
      now (master_drained frame m).
Proof.
  intros (Hlen & Hrx & Hn & Hlast & Htime & Hwd). unfold poll.
  unfold available. rewrite bind_get, bind_millis, bind_get.
  rewrite Hrx, (u8_small (Z.of_nat (length frame))) by lia.
  assert (watchdog_fired now (u32timeOut m) = false) as ->
    by (apply Z.ltb_ge; exact Hwd).
  destruct (Z.eqb_spec (Z.of_nat (length frame)) 0) as [H0|_]; [lia|].
  rewrite bind_get, Hlast, Z.eqb_refl. cbn [negb]. rewrite bind_get.
  assert (still_receiving now (u32time m) = false) as ->
    by (apply Z.ltb_ge; exact Htime).
  rewrite bind_modify.
  erewrite bind_Ok.
  2:{ apply getRxBuffer_exact; fields; rewrite ?Hrx; unfold MAX_BUFFER in *;
        [exact Hlen | lia]. }
  fields. rewrite Hrx. reflexivity.
Qed.

(** X15: An answer of fewer than seven bytes ends the exchange as an error:
    [poll] returns its length, the master is idle again and one error is
    counted; the caller's table is untouched.  The exception reply of a
    slave has five bytes, so the master takes it this way and never
    reaches the test of the exception bit. *)
Theorem poll_short_answer (frame : list Z) (now : Z) (m : Modbus) :
  answer_ready frame now m ->
  (length frame < 7)%nat ->
  exists m',
    poll now m = Ok (Z.of_nat (length frame)) m'
    /\ u8state m' = COM_IDLE
    /\ u16errCnt m' = u16 (u16errCnt m + 1)
    /\ u8lastError m' = u8lastError m
    /\ au16regs m' = au16regs m.
Proof.
  intros Hready Hshort. rewrite (poll_drains frame) by assumption.
  assert ((Z.of_nat (length frame) <? 7) = true) as ->
    by (apply Z.ltb_lt; lia).
  unfold incr_u16errCnt. rewrite !bind_modify. unfold ret.
  eexists. split; [reflexivity|]. unfold master_drained, drained. fields.
  repeat split; reflexivity.
Qed.

Lemma poll_short_answer_witness :
  exists m',
    poll 10 (master_with_answer exception_answer)
    = Ok (Z.of_nat (length exception_answer)) m'
    /\ u8state m' = COM_IDLE
    /\ u16errCnt m'
       = u16 (u16errCnt (master_with_answer exception_answer) + 1)
    /\ u8lastError m' = u8lastError (master_with_answer exception_answer)
    /\ au16regs m' = au16regs (master_with_answer exception_answer).
Proof.
  apply (poll_short_answer exception_answer 10
           (master_with_answer exception_answer)).
  - repeat split; try reflexivity; cbn; lia.
  - cbn. lia.
Defined.

Lemma master_drained_holds (frame : list Z) (m : Modbus) :
  Z.of_nat (length (au8Buffer m)) = MAX_BUFFER ->
  (length frame < 64)%nat ->
  holds_frame frame (master_drained frame m).
Proof.
  unfold MAX_BUFFER. intros Hlen Hn.
  unfold holds_frame, master_drained, drained. fields. repeat split.
  - now rewrite take_app_length.
  - rewrite length_app, length_drop. unfold MAX_BUFFER. lia.
Qed.

Lemma master_drained_lookup (frame : list Z) (m : Modbus) (i : nat) (x : Z) :
  frame !! i = Some x ->
  au8Buffer (master_drained frame m) !! i = Some x.
Proof.
  intros H. unfold master_drained, drained. fields.
  now apply lookup_app_l_Some.
Qed.

(** X16: An answer whose last two bytes are not the CRC of the bytes before
    ends the exchange: [poll] returns -1, the master is idle again and
    one error is counted; the last error is left as it was and the
    caller's table is untouched. *)
Theorem poll_bad_crc_answer (body : list Z) (hi lo now : Z) (m : Modbus) :
  answer_ready (body ++ [hi; lo]) now m ->
  (5 <= length body)%nat ->
  crc16 body <> u16 (Z.lor (Z.shiftl hi 8) lo) ->
  exists m',
    poll now m = Ok (-1) m'
    /\ u8state m' = COM_IDLE
    /\ u16errCnt m' = u16 (u16errCnt m + 1)
    /\ u8lastError m' = u8lastError m
    /\ au16regs m' = au16regs m.
Proof.
  intros Hready Hlong Hcrc.
  pose proof Hready as (Hlen & _ & Hn & _).
  rewrite length_app in Hn. cbn [length] in Hn.
  rewrite (poll_drains (body ++ [hi; lo])) by assumption.
  rewrite length_app. cbn [length].
  assert ((Z.of_nat (length body + 2) <? 7) = false) as ->
    by (apply Z.ltb_ge; lia).
  unfold validateAnswer.
  rewrite bind_assoc.
  erewrite bind_Ok.
  2:{ rewrite (crc_mismatch_spec body hi lo)
        by (apply master_drained_holds;
            [exact Hlen | rewrite length_app; cbn [length]; lia]).
      apply Z.eqb_neq in Hcrc. rewrite Hcrc. reflexivity. }
  cbn [negb]. unfold incr_u16errCnt.
  rewrite bind_assoc, bind_modify, bind_ret.
  cbn [NO_REPLY Z.eqb negb]. rewrite bind_modify. unfold ret.
  eexists. split; [reflexivity|]. unfold master_drained, drained. fields.
  repeat split; reflexivity.
Qed.

Lemma poll_bad_crc_answer_witness :
  exists m',
    poll 10 (master_with_answer answer_bad_crc) = Ok (-1) m'
    /\ u8state m' = COM_IDLE
    /\ u16errCnt m' = u16 (u16errCnt (master_with_answer answer_bad_crc) + 1)
    /\ u8lastError m' = u8lastError (master_with_answer answer_bad_crc)
    /\ au16regs m' = au16regs (master_with_answer answer_bad_crc).
Proof.
  apply (poll_bad_crc_answer [1; 3; 4; 0x12; 0x34; 0x56; 0x78] 0 0 10
           (master_with_answer answer_bad_crc)).
  - repeat split; try reflexivity; cbn; lia.
  - cbn. lia.
  - vm_compute. discriminate.
Defined.

Lemma validateAnswer_good (fct now : Z) (m : Modbus) :
  crc_mismatch now m = Ok false m ->
  au8Buffer m !! 1%nat = Some fct ->
  validateAnswer now m
  = (if negb (Z.land fct 0x80 =? 0) then
       bind incr_u16errCnt (fun _ => ret (u8 ERR_EXCEPTION))
     else if negb (isSupported fct) then
       bind incr_u16errCnt (fun _ => ret EXC_FUNC_CODE)
     else ret 0) now m.
Proof.
  intros Hcrc Hf. unfold validateAnswer. erewrite bind_Ok by exact Hcrc.
  cbv beta iota. change FUNC with (Z.of_nat 1).
  now rewrite (bind_load _ 1 fct) by exact Hf.
Qed.

(** The master's [poll] up to the end of [validateAnswer], for an answer
    with a good CRC. *)
Lemma poll_validates (body : list Z) (fct now : Z) (m : Modbus) :
  answer_ready (with_crc body) now m ->
  Forall is_u8 body ->
  (5 <= length body)%nat ->
  body !! 1%nat = Some fct ->
  poll now m
  = bind (if negb (Z.land fct 0x80 =? 0) then
            bind incr_u16errCnt (fun _ => ret (u8 ERR_EXCEPTION))
          else if negb (isSupported fct) then
            bind incr_u16errCnt (fun _ => ret EXC_FUNC_CODE)
          else ret 0)
      (fun u8exception =>
       if negb (u8exception =? 0) then
         bind (modify (set_u8state COM_IDLE)) (fun _ =>
         ret (i8 u8exception))
       else
         bind (load Arr_au8Buffer FUNC) (fun fct =>
         bind (poll_dispatch fct) (fun _ =>
         bind (modify (set_u8state COM_IDLE)) (fun _ =>
         bind (get u8BufferSize) (fun size => ret (i8 size))))))
      now (master_drained (with_crc body) m).
Proof.
  intros Hready Hb Hlong Hf.
  pose proof Hready as (Hlen & _ & Hn & _).
  assert (length (with_crc body) = length body + 2)%nat as Hwl
    by (unfold with_crc; rewrite length_app; reflexivity).
  rewrite Hwl in Hn.
  rewrite (poll_drains (with_crc body)) by assumption. rewrite Hwl.
  assert ((Z.of_nat (length body + 2) <? 7) = false) as ->
    by (apply Z.ltb_ge; lia).
  unfold bind at 1 5.
  rewrite (validateAnswer_good fct); [reflexivity| |].
  - apply (crc_mismatch_with_crc body); [exact Hb|].
    apply master_drained_holds; [exact Hlen | lia].
  - apply master_drained_lookup. unfold with_crc.
    now apply lookup_app_l_Some.
Qed.

(** X17: An answer with a good CRC whose function byte has bit [0x80] set
    ends the exchange as an exception: [poll] returns [ERR_EXCEPTION]
    (-5), the master is idle again and one error is counted.  The
    exception code the slave sent is not kept: the last error and the
    caller's table are left as they were. *)
Theorem poll_exception_answer (body : list Z) (fct now : Z) (m : Modbus) :
  answer_ready (with_crc body) now m ->
  Forall is_u8 body ->
  (5 <= length body)%nat ->
  body !! 1%nat = Some fct ->
  Z.land fct 0x80 <> 0 ->
  exists m',
    poll now m = Ok ERR_EXCEPTION m'
    /\ u8state m' = COM_IDLE
    /\ u16errCnt m' = u16 (u16errCnt m + 1)
    /\ u8lastError m' = u8lastError m
    /\ au16regs m' = au16regs m.
Proof.
  intros Hready Hb Hlong Hf Hbit.
  rewrite (poll_validates body fct) by assumption.
  apply Z.eqb_neq in Hbit. rewrite Hbit. cbn [negb].
  unfold incr_u16errCnt. rewrite bind_assoc, bind_modify, bind_ret.
  change (negb (u8 ERR_EXCEPTION =? 0)) with true. cbv iota.
  rewrite bind_modify. unfold ret.
  change (i8 (u8 ERR_EXCEPTION)) with ERR_EXCEPTION.
  eexists. split; [reflexivity|]. unfold master_drained, drained. fields.
  repeat split; reflexivity.
Qed.

Lemma poll_exception_answer_witness :
  exists m',
    poll 10 (master_with_answer answer_with_bit) = Ok ERR_EXCEPTION m'
    /\ u8state m' = COM_IDLE
    /\ u16errCnt m' = u16 (u16errCnt (master_with_answer answer_with_bit) + 1)
    /\ u8lastError m' = u8lastError (master_with_answer answer_with_bit)
    /\ au16regs m' = au16regs (master_with_answer answer_with_bit).
Proof.
  apply (poll_exception_answer [1; 0x83; 2; 0; 0] 0x83 10
           (master_with_answer answer_with_bit)).
  - repeat split; try reflexivity; cbn; lia.
  - repeat (constructor; [vm_compute; split; [discriminate|reflexivity]|]).
    constructor.
  - cbn. lia.
  - reflexivity.
  - vm_compute. discriminate.
Defined.

(** A 16-bit word is the word of its high and low bytes. *)
Lemma word_split_checked :
  forall_from (Z.to_nat 65536) 0
    (fun w => word (highByte w) (lowByte w) =? w) = true.
Proof. vm_compute. reflexivity. Qed.

Lemma word_split (w : Z) : is_u16 w -> word (highByte w) (lowByte w) = w.
Proof.
  intros Hw. apply Z.eqb_eq.
  apply (forall_from_spec _ _ _ word_split_checked w).
  unfold is_u16 in Hw. lia.
Qed.

Lemma be_words_be_bytes (ws : list Z) :
  Forall is_u16 ws -> be_words (be_bytes ws) = ws.
Proof.
  induction 1 as [|w ws Hw _ IH]; [reflexivity|].
  change (be_bytes (w :: ws)) with (highByte w :: lowByte w :: be_bytes ws).
  cbn [be_words]. now rewrite word_split, IH.
Qed.

Lemma set_au16regs_twice (m : Modbus) (l1 l2 : list Z) :
  set_au16regs l2 (set_au16regs l1 m) = set_au16regs l2 m.
Proof. reflexivity. Qed.

Lemma set_au16regs_same (m : Modbus) : set_au16regs (au16regs m) m = m.
Proof. now destruct m. Qed.

(** The loop of [get_FC3] for [k] more words, from word [i] of the
    table and byte [b] of the frame buffer. *)
Lemma get_FC3_loop_exact (k : nat) :
  forall (i b : nat) (now : Z) (m : Modbus),
    (b + 2 * k <= length (au8Buffer m))%nat ->
    (b + 2 * k < 256)%nat ->
    (i + k <= length (au16regs m))%nat ->
    get_FC3_loop k (Z.of_nat i) (Z.of_nat b) now m
    = Ok tt
        (set_au16regs
           (take i (au16regs m)
            ++ be_words (take (2 * k) (drop b (au8Buffer m)))
            ++ drop (i + k) (au16regs m)) m).
Proof.
  induction k as [|k IH]; intros i b now m Hbuf Hb Hregs.
  - cbn [get_FC3_loop]. unfold ret. f_equal.
    rewrite Nat.add_0_r. change (2 * 0)%nat with 0%nat.
    rewrite take_0. cbn [be_words app].
    now rewrite take_drop, set_au16regs_same.
  - cbn [get_FC3_loop].
    destruct (lookup_lt_is_Some_2 (au8Buffer m) b ltac:(lia)) as [h Hh].
    destruct (lookup_lt_is_Some_2 (au8Buffer m) (S b) ltac:(lia)) as [l Hl].
    rewrite (bind_load Arr_au8Buffer b h) by exact Hh.
    replace (Z.of_nat b + 1) with (Z.of_nat (S b)) by lia.
    rewrite (bind_load Arr_au8Buffer (S b) l) by exact Hl.
    rewrite bind_store by (fields; lia). fields.
    replace (Z.of_nat i + 1) with (Z.of_nat (S i)) by lia.
    replace (u8 (Z.of_nat b + 2)) with (Z.of_nat (S (S b)))
      by (rewrite u8_small; lia).
    rewrite IH; fields; rewrite ?length_insert; try lia.
    rewrite set_au16regs_twice. do 2 f_equal.
    rewrite take_insert_next by lia.
    rewrite drop_insert_lt by lia.
    rewrite (drop_S _ h b) by exact Hh.
    rewrite (drop_S _ l (S b)) by exact Hl.
    replace (2 * S k)%nat with (S (S (2 * k))) by lia.
    cbn [take be_words].
    replace (S i + k)%nat with (i + S k)%nat by lia.
    now rewrite <- app_assoc.
Qed.

(** The loop of [get_FC3] when the table ends before the words do: the
    store after the last word of the table is past its end. *)
Lemma get_FC3_loop_overruns (k : nat) :
  forall (i b : nat) (now : Z) (m : Modbus),
    (i <= length (au16regs m))%nat ->
    (length (au16regs m) < i + k)%nat ->
    (b + 2 * (length (au16regs m) - i) + 2 <= length (au8Buffer m))%nat ->
    (b + 2 * (length (au16regs m) - i) + 2 < 256)%nat ->
    get_FC3_loop k (Z.of_nat i) (Z.of_nat b) now m
    = OutOfBounds Arr_au16regs (Z.of_nat (length (au16regs m))).
Proof.
  induction k as [|k IH]; intros i b now m Hi Hregs Hbuf Hb; [lia|].
  cbn [get_FC3_loop].
  destruct (lookup_lt_is_Some_2 (au8Buffer m) b ltac:(lia)) as [h Hh].
  destruct (lookup_lt_is_Some_2 (au8Buffer m) (S b) ltac:(lia)) as [l Hl].
  rewrite (bind_load Arr_au8Buffer b h) by exact Hh.
  replace (Z.of_nat b + 1) with (Z.of_nat (S b)) by lia.
  rewrite (bind_load Arr_au8Buffer (S b) l) by exact Hl.
  destruct (decide (i = length (au16regs m))) as [->|Hne].
  - unfold bind, store, in_array. fields.
    destruct (Z.ltb_spec (Z.of_nat (length (au16regs m)))
                (Z.of_nat (length (au16regs m)))); [lia|].
    now rewrite andb_false_r.
  - rewrite bind_store by (fields; lia). fields.
    replace (Z.of_nat i + 1) with (Z.of_nat (S i)) by lia.
    replace (u8 (Z.of_nat b + 2)) with (Z.of_nat (S (S b)))
      by (rewrite u8_small; lia).
    rewrite IH; fields; rewrite ?length_insert; try lia.
    reflexivity.
Qed.

Lemma be_bytes_u8 (ws : list Z) : Forall is_u8 (be_bytes ws).
Proof.
  induction ws as [|w ws IH]; [constructor|].
  change (be_bytes (w :: ws)) with (highByte w :: lowByte w :: be_bytes ws).
  repeat constructor; try exact IH;
    unfold highByte, lowByte, u8; apply Z.mod_pos_bound; lia.
Qed.

(** The master's [poll] up to [get_FC3], for an answer to a read of
    registers with a good CRC. *)
Lemma poll_reads_registers (id fct count now : Z) (payload : list Z)
    (m : Modbus) :
  answer_ready (with_crc (id :: fct :: count :: payload)) now m ->
  Forall is_u8 (id :: fct :: count :: payload) ->
  (2 <= length payload)%nat ->
  fct = MB_FC_READ_REGISTERS \/ fct = MB_FC_READ_INPUT_REGISTER ->
  poll now m
  = bind (get_FC3_loop (Z.to_nat (count / 2)) (Z.of_nat 0) (Z.of_nat 3))
      (fun _ =>
       bind (modify (set_u8state COM_IDLE)) (fun _ =>
       bind (get u8BufferSize) (fun size => ret (i8 size))))
      now (master_drained (with_crc (id :: fct :: count :: payload)) m).
Proof.
  intros Hready Hb Hlong Hfct.
  rewrite (poll_validates (id :: fct :: count :: payload) fct);
    [|assumption|assumption|cbn [length]; lia|reflexivity].
  assert (negb (Z.land fct 0x80 =? 0) = false) as ->
    by (destruct Hfct as [->| ->]; reflexivity).
  assert (negb (isSupported fct) = false) as ->
    by (destruct Hfct as [->| ->]; reflexivity).
  rewrite bind_ret. change (negb (0 =? 0)) with false. cbv iota.
  change FUNC with (Z.of_nat 1).
  rewrite (bind_load _ 1 fct)
    by (apply master_drained_lookup; reflexivity).
  assert (poll_dispatch fct = get_FC3) as ->
    by (destruct Hfct as [->| ->]; reflexivity).
  unfold get_FC3. change 2 with (Z.of_nat 2) at 1.
  rewrite bind_assoc.
  rewrite (bind_load _ 2 count)
    by (apply master_drained_lookup; reflexivity).
  reflexivity.
Qed.

(** X18: An answer to a read of registers (function 3 or 4) with a good CRC
    whose byte count matches its words ends the exchange: [poll] returns
    the length of the frame, the master is idle again, no error is
    counted, and the words of the answer are at the start of the caller's
    table, the rest of the table as it was. *)
Theorem poll_read_registers_answer (id fct count now : Z) (ws : list Z)
    (m : Modbus) :
  answer_ready (with_crc (id :: fct :: count :: be_bytes ws)) now m ->
  is_u8 id ->
  is_u8 count ->
  Forall is_u16 ws ->
  fct = MB_FC_READ_REGISTERS \/ fct = MB_FC_READ_INPUT_REGISTER ->
  count / 2 = Z.of_nat (length ws) ->
  (1 <= length ws <= length (au16regs m))%nat ->
  exists m',
    poll now m = Ok (2 * Z.of_nat (length ws) + 5) m'
    /\ u8state m' = COM_IDLE
    /\ u16errCnt m' = u16errCnt m
    /\ au16regs m' = ws ++ drop (length ws) (au16regs m).
Proof.
  intros Hready Hid Hcount Hws Hfct Hk [Hone Hregs].
  pose proof Hready as (Hlen & _ & Hn & _).
  unfold with_crc in Hn. rewrite length_app in Hn.
  cbn [length] in Hn. rewrite be_bytes_length in Hn.
  unfold MAX_BUFFER in Hlen.
  rewrite (poll_reads_registers id fct count now (be_bytes ws));
    [|assumption| |rewrite be_bytes_length; lia|assumption].
  2:{ repeat constructor; try apply Hid; try apply Hcount;
        try apply be_bytes_u8;
        destruct Hfct as [->| ->]; vm_compute; congruence. }
  rewrite Hk, Nat2Z.id.
  assert (au8Buffer
            (master_drained (with_crc (id :: fct :: count :: be_bytes ws)) m)
          = id :: fct :: count :: be_bytes ws
            ++ ([u8 (Z.shiftr (crc16 (id :: fct :: count :: be_bytes ws)) 8);
                 Z.land (crc16 (id :: fct :: count :: be_bytes ws)) 0x00ff]
                ++ drop (length
                           (with_crc (id :: fct :: count :: be_bytes ws)))
                     (au8Buffer m))) as Hbuf.
  { unfold master_drained, drained. fields. unfold with_crc.
    now rewrite <- app_assoc. }
  erewrite bind_Ok.
  2:{ apply get_FC3_loop_exact.
      - rewrite Hbuf. cbn [length]. rewrite !length_app, length_drop.
        unfold with_crc. rewrite length_app. cbn [length].
        rewrite be_bytes_length. lia.
      - lia.
      - unfold master_drained, drained. fields. lia. }
  rewrite bind_modify, bind_get. unfold ret.
  eexists. split; [|split; [|split]].
  - f_equal. unfold master_drained, drained. fields.
    unfold with_crc. rewrite length_app. cbn [length].
    rewrite be_bytes_length. rewrite i8_small by lia. lia.
  - reflexivity.
  - reflexivity.
  - fields. rewrite Hbuf.
    change (drop 3 (id :: fct :: count :: ?l)) with l.
    cbn [drop]. rewrite take_app_length' by (now rewrite be_bytes_length).
    rewrite be_words_be_bytes by exact Hws.
    unfold master_drained, drained. fields. reflexivity.
Qed.

Lemma poll_read_registers_answer_witness :
  exists m',
    poll 10 (master_with_answer answer_two_regs) = Ok (2 * 2 + 5) m'
    /\ u8state m' = COM_IDLE
    /\ u16errCnt m' = u16errCnt (master_with_answer answer_two_regs)
    /\ au16regs m'
       = [0x1234; 0x5678]
         ++ drop 2 (au16regs (master_with_answer answer_two_regs)).
Proof.
  apply (poll_read_registers_answer 1 3 4 10 [0x1234; 0x5678]
           (master_with_answer answer_two_regs)).
  - repeat split; try reflexivity; cbn; lia.
  - unfold is_u8. lia.
  - unfold is_u8. lia.
  - repeat constructor; unfold is_u16; lia.
  - left. reflexivity.
  - reflexivity.
  - cbn. lia.
Defined.

(** X19: [get_FC3] trusts the byte count of the answer: when it announces
    more words than the caller's table holds, [poll] stores past the end
    of the table. *)
Theorem poll_read_registers_overruns (id fct count now : Z)
    (payload : list Z) (m : Modbus) :
  answer_ready (with_crc (id :: fct :: count :: payload)) now m ->
  Forall is_u8 (id :: fct :: count :: payload) ->
  (2 <= length payload)%nat ->
  fct = MB_FC_READ_REGISTERS \/ fct = MB_FC_READ_INPUT_REGISTER ->
  Z.of_nat (length (au16regs m)) < count / 2 ->
  (2 * length (au16regs m) + 5 <= 64)%nat ->
  poll now m = OutOfBounds Arr_au16regs (Z.of_nat (length (au16regs m))).
Proof.
  intros Hready Hb Hlong Hfct Hk Hsmall.
  pose proof Hready as (Hlen & _ & Hn & _). unfold MAX_BUFFER in Hlen.
  rewrite (poll_reads_registers id fct count now payload) by assumption.
  unfold bind at 1. rewrite get_FC3_loop_overruns.
  - reflexivity.
  - lia.
  - unfold master_drained, drained. fields. lia.
  - unfold master_drained, drained. fields.
    rewrite length_app, length_drop. lia.
  - unfold master_drained, drained. fields. lia.
Qed.

Lemma poll_read_registers_overruns_witness :
  poll 10 (master_with_small_table answer_two_regs)
  = OutOfBounds Arr_au16regs
      (Z.of_nat (length (au16regs (master_with_small_table answer_two_regs)))).
Proof.
  apply (poll_read_registers_overruns 1 3 4 10 (be_bytes [0x1234; 0x5678])
           (master_with_small_table answer_two_regs)).
  - repeat split; try reflexivity; cbn; lia.
  - repeat (constructor; [vm_compute; split; [discriminate|reflexivity]|]).
    constructor.
  - cbn. lia.
  - left. reflexivity.
  - reflexivity.
  - cbn. lia.
Defined.

(** The master's [poll] on an answer it does not decode, exactly. *)
Lemma poll_undecoded_exact (body : list Z) (fct now : Z) (m : Modbus) :
  answer_ready (with_crc body) now m ->
  Forall is_u8 body ->
  (5 <= length body)%nat ->
  body !! 1%nat = Some fct ->
  In fct [MB_FC_READ_COILS; MB_FC_READ_DISCRETE_INPUT; MB_FC_WRITE_COIL;
          MB_FC_WRITE_REGISTER; MB_FC_WRITE_MULTIPLE_COILS;
          MB_FC_WRITE_MULTIPLE_REGISTERS] ->
  poll now m
  = Ok (Z.of_nat (length body) + 2)
      (set_u8state COM_IDLE (master_drained (with_crc body) m)).
Proof.
  intros Hready Hb Hlong Hf Hfct.
  pose proof Hready as (_ & _ & Hn & _).
  unfold with_crc in Hn. rewrite length_app in Hn. cbn [length] in Hn.
  rewrite (poll_validates body fct) by assumption.
  assert (negb (Z.land fct 0x80 =? 0) = false
          /\ negb (isSupported fct) = false
          /\ poll_dispatch fct = ret tt) as (-> & -> & Hd).
  { cbn [In] in Hfct.
    destruct Hfct as [<-|[<-|[<-|[<-|[<-|[<-|[]]]]]]];
      repeat split; reflexivity. }
  rewrite bind_ret. change (negb (0 =? 0)) with false. cbv iota.
  change FUNC with (Z.of_nat 1).
  rewrite (bind_load _ 1 fct).
  2:{ apply master_drained_lookup. unfold with_crc.
      now apply lookup_app_l_Some. }
  rewrite Hd, bind_ret, bind_modify, bind_get. unfold ret.
  assert (i8 (u8BufferSize (set_u8state COM_IDLE
                              (master_drained (with_crc body) m)))
          = Z.of_nat (length body) + 2) as ->.
  { unfold master_drained, drained. fields.
    unfold with_crc. rewrite length_app. cbn [length].
    rewrite i8_small by lia. lia. }
  reflexivity.
Qed.

(** X20: An answer of at least seven bytes with a good CRC to a read of
    coils or inputs or to a write (functions 1, 2, 5, 6, 15 and 16) ends
    the exchange: [poll] returns the length of the frame and the master
    is idle again.  Nothing of the answer is decoded: the caller's
    table, the error counter and the last error are as they were. *)
Theorem poll_undecoded_answer (body : list Z) (fct now : Z) (m : Modbus) :
  answer_ready (with_crc body) now m ->
  Forall is_u8 body ->
  (5 <= length body)%nat ->
  body !! 1%nat = Some fct ->
  In fct [MB_FC_READ_COILS; MB_FC_READ_DISCRETE_INPUT; MB_FC_WRITE_COIL;
          MB_FC_WRITE_REGISTER; MB_FC_WRITE_MULTIPLE_COILS;
          MB_FC_WRITE_MULTIPLE_REGISTERS] ->
  exists m',
    poll now m = Ok (Z.of_nat (length body) + 2) m'
    /\ u8state m' = COM_IDLE
    /\ u16errCnt m' = u16errCnt m
    /\ u8lastError m' = u8lastError m
    /\ au16regs m' = au16regs m.
Proof.
  intros Hready Hb Hlong Hf Hfct.
  rewrite (poll_undecoded_exact body fct) by assumption.
  eexists. split; [reflexivity|]. repeat split; reflexivity.
Qed.

Lemma poll_undecoded_answer_witness :
  exists m',
    poll 10 (master_with_answer answer_echo) = Ok (Z.of_nat 6 + 2) m'
    /\ u8state m' = COM_IDLE
    /\ u16errCnt m' = u16errCnt (master_with_answer answer_echo)
    /\ u8lastError m' = u8lastError (master_with_answer answer_echo)
    /\ au16regs m' = au16regs (master_with_answer answer_echo).
Proof.
  apply (poll_undecoded_answer [1; 6; 0; 5; 0; 255] 6 10
           (master_with_answer answer_echo)).
  - repeat split; try reflexivity; cbn; lia.
  - repeat (constructor; [vm_compute; split; [discriminate|reflexivity]|]).
    constructor.
  - cbn. lia.
  - reflexivity.
  - cbn. tauto.
Defined.

(** ** The slave's handler of function 16 *)

Lemma set_rw_regArea_twice (m : Modbus) (l1 l2 : list Z) :
  set_rw_regArea l2 (set_rw_regArea l1 m) = set_rw_regArea l2 m.
Proof. reflexivity. Qed.

Lemma set_rw_regArea_same (m : Modbus) : set_rw_regArea (rw_regArea m) m = m.
Proof. now destruct m. Qed.

(** The loop of [process_FC16] for [k] more registers, from register
    [i] of the request. *)
Lemma process_FC16_loop_exact (k : nat) :
  forall (fuel i a : nat) (now : Z) (m : Modbus),
    (k < fuel)%nat ->
    (i + k < 256)%nat ->
    (a + i + k <= length (rw_regArea m))%nat ->
    Z.of_nat (a + i + k) < 65536 ->
    (7 + 2 * (i + k) <= length (au8Buffer m))%nat ->
    for_u8 fuel (Z.of_nat i) (Z.of_nat (i + k))
      (process_FC16_body (Z.of_nat a)) now m
    = Ok tt
        (set_rw_regArea
           (take (a + i) (rw_regArea m)
            ++ be_words (take (2 * k) (drop (7 + 2 * i) (au8Buffer m)))
            ++ drop (a + i + k) (rw_regArea m)) m).
Proof.
  induction k as [|k IH]; intros fuel i a now m Hfuel Hi Hregs H16 Hbuf;
    (destruct fuel as [|fuel]; [lia|]); cbn [for_u8].
  - rewrite Nat.add_0_r, Z.ltb_irrefl. change (2 * 0)%nat with 0%nat.
    rewrite take_0. cbn [be_words app]. unfold ret. f_equal.
    now rewrite Nat.add_0_r, take_drop, set_rw_regArea_same.
  - destruct (Z.ltb_spec (Z.of_nat i) (Z.of_nat (i + S k))) as [_|?]; [|lia].
    unfold process_FC16_body at 1.
    destruct (lookup_lt_is_Some_2 (au8Buffer m) (7 + 2 * i) ltac:(lia))
      as [h Hh].
    destruct (lookup_lt_is_Some_2 (au8Buffer m) (S (7 + 2 * i)) ltac:(lia))
      as [l Hl].
    replace (BYTE_CNT + 1 + Z.of_nat i * 2) with (Z.of_nat (7 + 2 * i))
      by (unfold BYTE_CNT; lia).
    rewrite !bind_assoc.
    rewrite (bind_load Arr_au8Buffer (7 + 2 * i) h) by exact Hh.
    rewrite ?bind_assoc.
    replace (BYTE_CNT + 2 + Z.of_nat i * 2) with (Z.of_nat (S (7 + 2 * i)))
      by (unfold BYTE_CNT; lia).
    rewrite (bind_load Arr_au8Buffer (S (7 + 2 * i)) l) by exact Hl.
    cbv zeta.
    replace (uint (Z.of_nat a + Z.of_nat i)) with (Z.of_nat (a + i))
      by (unfold uint, u16; rewrite Z.mod_small; lia).
    rewrite bind_store by (fields; lia). fields.
    replace (u8 (Z.of_nat i + 1)) with (Z.of_nat (S i))
      by (rewrite u8_small; lia).
    replace (i + S k)%nat with (S i + k)%nat by lia.
    rewrite IH; fields; rewrite ?length_insert; try lia.
    rewrite set_rw_regArea_twice. do 2 f_equal.
    replace (a + S i)%nat with (S (a + i)) by lia.
    rewrite take_insert_next by lia.
    rewrite drop_insert_lt by lia.
    rewrite (drop_S _ h (7 + 2 * i)) by exact Hh.
    rewrite (drop_S _ l (S (7 + 2 * i))) by exact Hl.
    replace (2 * S k)%nat with (S (S (2 * k))) by lia.
    cbn [take be_words].
    replace (7 + 2 * S i)%nat with (S (S (7 + 2 * i))) by lia.
    replace (S (a + i) + k)%nat with (a + i + S k)%nat by lia.
    now rewrite <- app_assoc.
Qed.

(** [process_FC16] on a frame buffer that starts with the seven header
    bytes, for registers inside the register area. *)
Lemma process_FC16_exact (b0 b1 add_hi add_lo nb_hi nb_lo cnt : Z)
    (tl : list Z) (now : Z) (m : Modbus) :
  au8Buffer m
  = b0 :: b1 :: add_hi :: add_lo :: nb_hi :: nb_lo :: cnt :: tl ->
  (1 <= length tl < 200)%nat ->
  (2 * Z.to_nat (word nb_hi nb_lo) <= length tl)%nat ->
  word add_hi add_lo + word nb_hi nb_lo
  <= Z.of_nat (length (rw_regArea m)) ->
  Z.of_nat (length (rw_regArea m)) < 256 ->
  exists m',
    process_FC16 now m = Ok 8 m'
    /\ rw_regArea m'
       = take (Z.to_nat (word add_hi add_lo)) (rw_regArea m)
         ++ be_words (take (2 * Z.to_nat (word nb_hi nb_lo)) tl)
         ++ drop (Z.to_nat (word add_hi add_lo)
                  + Z.to_nat (word nb_hi nb_lo)) (rw_regArea m)
    /\ tx_line (port m')
       = tx_line (port m)
         ++ with_crc [b0; b1; add_hi; add_lo; 0; u8 (word nb_hi nb_lo)]
    /\ u32timeOut m' = u32 (now + u16timeOut m)
    /\ u8lastError m' = u8lastError m
    /\ u16errCnt m' = u16errCnt m
    /\ rw_bitArea m' = rw_bitArea m
    /\ u8state m' = u8state m.
Proof.
  intros Hbuf Htl Hpay Hadd Hsmall.
  pose proof (word_range add_hi add_lo) as Ha.
  pose proof (word_range nb_hi nb_lo) as Hn.
  unfold process_FC16.
  change FUNC with (Z.of_nat 1).
  change ADD_HI with (Z.of_nat 2). change ADD_LO with (Z.of_nat 3).
  change NB_HI with (Z.of_nat 4). change NB_LO with (Z.of_nat 5).
  rewrite (bind_load _ 1 b1) by (cbn [field]; now rewrite Hbuf).
  rewrite (bind_load _ 2 add_hi) by (cbn [field]; now rewrite Hbuf).
  rewrite (bind_load _ 3 add_lo) by (cbn [field]; now rewrite Hbuf).
  rewrite (bind_load _ 4 nb_hi) by (cbn [field]; now rewrite Hbuf).
  rewrite (bind_load _ 5 nb_lo) by (cbn [field]; now rewrite Hbuf).
  cbv zeta.
  change (u16 (Z.lor (Z.shiftl add_hi 8) add_lo)) with (word add_hi add_lo).
  change (u16 (Z.lor (Z.shiftl nb_hi 8) nb_lo)) with (word nb_hi nb_lo).
  rewrite bind_store by (cbn [field]; rewrite Hbuf; cbn [length]; lia).
  rewrite bind_store
    by (fields; rewrite length_insert, Hbuf; cbn [length]; lia).
  rewrite bind_modify. fields.
  match goal with
  | |- context [bind (for_u8 _ _ _ _) _ now ?s] =>
      pose proof (process_FC16_loop_exact (Z.to_nat (word nb_hi nb_lo))
                    257 0 (Z.to_nat (word add_hi add_lo)) now s) as Hloop;
      assert (au8Buffer s
              = b0 :: b1 :: add_hi :: add_lo :: 0 :: u8 (word nb_hi nb_lo)
                :: cnt :: tl) as Hbuf2
        by (fields; rewrite Hbuf; reflexivity)
  end.
  rewrite Nat.add_0_l, Nat.add_0_r, !Z2Nat.id in Hloop by lia.
  change (Z.of_nat 0) with 0 in Hloop.
  erewrite bind_Ok.
  2:{ apply Hloop; fields.
      - lia.
      - lia.
      - lia.
      - lia.
      - rewrite !length_insert, Hbuf. cbn [length]. lia. }
  rewrite bind_get. fields.
  erewrite bind_Ok.
  2:{ apply (sendTxBuffer_exact
               [b0; b1; add_hi; add_lo; 0; u8 (word nb_hi nb_lo)]);
        fields; rewrite ?length_insert, ?Hbuf; cbn [length];
        try reflexivity; lia. }
  unfold ret. eexists. split; [reflexivity|]. fields.
  rewrite Hbuf. change (2 * 0)%nat with 0%nat. rewrite Nat.add_0_r.
  repeat split; reflexivity.
Qed.

Lemma slave_drained_buffer (regs : list Z) (u8size : Z) (frame : list Z)
    (m : Modbus) :
  au8Buffer (slave_drained regs u8size frame m)
  = frame ++ drop (length frame) (au8Buffer m).
Proof. reflexivity. Qed.

Lemma poll_slave_dispatch_FC16 (u8regsno i8state : Z) :
  poll_slave_dispatch u8regsno MB_FC_WRITE_MULTIPLE_REGISTERS i8state
  = process_FC16.
Proof. reflexivity. Qed.

(** The slave's [poll] from the validation on, for a write of
    registers inside the register area whose words are in the frame
    buffer. *)
Lemma poll_slave_runs_FC16 (u8regsno i8state id : Z)
    (add_hi add_lo nb_hi nb_lo cnt now : Z) (ws rest : list Z)
    (m : Modbus) :
  crc_mismatch now m = Ok false m ->
  au8Buffer m
  = id :: MB_FC_WRITE_MULTIPLE_REGISTERS :: add_hi :: add_lo :: nb_hi
    :: nb_lo :: cnt :: be_bytes ws ++ rest ->
  (1 <= length (be_bytes ws ++ rest) < 200)%nat ->
  Forall is_u16 ws ->
  word nb_hi nb_lo = Z.of_nat (length ws) ->
  Z.of_nat (length (rw_regArea m)) = SIZE_RW_REGS ->
  word add_hi add_lo + word nb_hi nb_lo <= SIZE_RW_REGS ->
  exists m',
    bind validateRequest (fun u8exception =>
       if 0 <? u8exception then
         bind (if negb (u8exception =? NO_REPLY)
               then bind (buildException u8exception)
                         (fun _ => sendTxBuffer)
               else ret tt) (fun _ =>
         bind (modify (set_u8lastError u8exception)) (fun _ =>
         ret (i8 u8exception)))
       else
         bind (modify (fun m => set_u32timeOut (u32 (now + u16timeOut m)) m))
           (fun _ =>
         bind (modify (set_u8lastError 0)) (fun _ =>
         bind (load Arr_au8Buffer FUNC) (fun fct =>
         poll_slave_dispatch u8regsno fct i8state))))
      now m
    = Ok 8 m'
    /\ rw_regArea m'
       = take (Z.to_nat (word add_hi add_lo)) (rw_regArea m)
         ++ ws
         ++ drop (Z.to_nat (word add_hi add_lo) + length ws) (rw_regArea m)
    /\ tx_line (port m')
       = tx_line (port m)
         ++ with_crc [id; MB_FC_WRITE_MULTIPLE_REGISTERS; add_hi; add_lo;
                      0; Z.of_nat (length ws)]
    /\ u8lastError m' = 0
    /\ u16errCnt m' = u16errCnt m
    /\ rw_bitArea m' = rw_bitArea m.
Proof.
  intros Hcrc Hbuf Htl Hws Hn Hregs Hadd. unfold SIZE_RW_REGS in *.
  pose proof (word_range add_hi add_lo) as Ha.
  erewrite bind_Ok.
  2:{ apply (validateRequest_accepts MB_FC_WRITE_MULTIPLE_REGISTERS
               add_hi add_lo nb_hi nb_lo);
        [exact Hcrc | rewrite Hbuf; reflexivity | reflexivity |].
      intros [[[H|H] _]|[_ H]]; [discriminate H..|].
      unfold u16 in H. rewrite Z.mod_small in H; lia. }
  cbn [Z.ltb Z.compare]. rewrite !bind_modify.
  change FUNC with (Z.of_nat 1).
  rewrite (bind_load _ 1 MB_FC_WRITE_MULTIPLE_REGISTERS)
    by (fields; rewrite Hbuf; reflexivity).
  rewrite poll_slave_dispatch_FC16.
  match goal with
  | |- context [process_FC16 now ?s] =>
      destruct (process_FC16_exact id MB_FC_WRITE_MULTIPLE_REGISTERS
                  add_hi add_lo nb_hi nb_lo cnt
                  (be_bytes ws ++ rest) now s)
        as (m' & Hrun & Hregs' & Htx & _ & Herr & Hcnt & Hbits & _)
  end.
  - exact Hbuf.
  - exact Htl.
  - rewrite length_app, be_bytes_length. lia.
  - fields. lia.
  - fields. lia.
  - exists m'. split; [exact Hrun|].
    rewrite Hregs', Htx, Herr, Hcnt, Hbits.
    rewrite Hn, Nat2Z.id, u8_small by lia.
    rewrite take_app_length' by (now rewrite be_bytes_length).
    rewrite be_words_be_bytes by exact Hws.
    fields. repeat split; reflexivity.
Qed.

(** X21: A write-multiple-registers request for this node, with a good CRC,
    whose registers lie inside the register area and whose words are in
    the frame, is carried out: the registers take the words in order,
    the rest of the area is as it was, the reply is the header of the
    request with the quantity, [poll] returns 8, the last error is
    cleared and the error counter is not moved. *)
Theorem poll_slave_write_registers (u8regsno : Z) (regs : list Z)
    (u8size : Z) (add_hi add_lo nb_hi nb_lo cnt now : Z) (ws : list Z)
    (m : Modbus) :
  let body :=
    [u8id m; MB_FC_WRITE_MULTIPLE_REGISTERS; add_hi; add_lo; nb_hi; nb_lo;
     cnt] ++ be_bytes ws in
  frame_ready (with_crc body) now m ->
  Forall is_u8 [u8id m; add_hi; add_lo; nb_hi; nb_lo; cnt] ->
  Forall is_u16 ws ->
  word nb_hi nb_lo = Z.of_nat (length ws) ->
  Z.of_nat (length (rw_regArea m)) = SIZE_RW_REGS ->
  word add_hi add_lo + word nb_hi nb_lo <= SIZE_RW_REGS ->
  exists m',
    poll_slave u8regsno regs u8size now m = Ok 8 m'
    /\ rw_regArea m'
       = take (Z.to_nat (word add_hi add_lo)) (rw_regArea m)
         ++ ws
         ++ drop (Z.to_nat (word add_hi add_lo) + length ws) (rw_regArea m)
    /\ tx_line (port m')
       = tx_line (port m)
         ++ with_crc [u8id m; MB_FC_WRITE_MULTIPLE_REGISTERS; add_hi; add_lo;
                      0; Z.of_nat (length ws)]
    /\ u8lastError m' = 0
    /\ u16errCnt m' = u16errCnt m
    /\ rw_bitArea m' = rw_bitArea m.
Proof.
  intros body Hready Hb Hws Hn Hregs Hadd.
  assert (Forall is_u8 body) as Hbody.
  { unfold body. apply Forall_app. split; [|apply be_bytes_u8].
    rewrite !Forall_cons in Hb. destruct Hb as (? & ? & ? & ? & ? & ? & _).
    repeat (apply List.Forall_cons;
            [first [assumption
                   | vm_compute; split; [discriminate|reflexivity]]|]).
    apply List.Forall_nil. }
  pose proof Hready as (Hlen & _ & Hfl & _). unfold MAX_BUFFER in Hlen.
  unfold with_crc, body in Hfl. rewrite !length_app in Hfl.
  cbn [length] in Hfl. rewrite be_bytes_length in Hfl.
  destruct (poll_slave_validates u8regsno regs u8size
              MB_FC_WRITE_MULTIPLE_REGISTERS
              add_hi add_lo nb_hi nb_lo (cnt :: be_bytes ws) now m
              Hready Hbody)
    as (-> & Hcrc & _ & _).
  destruct (poll_slave_runs_FC16 u8regsno
              (Z.of_nat
                 (length (with_crc (u8id m :: MB_FC_WRITE_MULTIPLE_REGISTERS
                                    :: add_hi :: add_lo :: nb_hi :: nb_lo
                                    :: cnt :: be_bytes ws))))
              (u8id m) add_hi add_lo nb_hi nb_lo cnt now ws
              ([u8 (Z.shiftr (crc16 body) 8); Z.land (crc16 body) 0x00ff]
               ++ drop (length (with_crc body)) (au8Buffer m))
              (slave_drained regs u8size (with_crc body) m))
    as (m' & Hrun & H1 & H2 & H3 & H4 & H5).
  - exact Hcrc.
  - rewrite slave_drained_buffer. unfold with_crc, body.
    rewrite <- !app_assoc. reflexivity.
  - rewrite !length_app, length_drop, be_bytes_length. unfold with_crc, body.
    rewrite !length_app, be_bytes_length. cbn [length]. lia.
  - exact Hws.
  - exact Hn.
  - exact Hregs.
  - exact Hadd.
  - exists m'. split; [exact Hrun|].
    split; [exact H1|]. split; [exact H2|]. split; [exact H3|].
    split; [exact H4|exact H5].
Qed.

Lemma poll_slave_write_registers_witness :
  exists m',
    poll_slave 0 [] 0 10 slave_with_fc16_at_2 = Ok 8 m'
    /\ rw_regArea m'
       = take (Z.to_nat (word 0 2)) (rw_regArea slave_with_fc16_at_2)
         ++ [0x1234; 0x5678]
         ++ drop (Z.to_nat (word 0 2) + length [0x1234; 0x5678])
              (rw_regArea slave_with_fc16_at_2)
    /\ tx_line (port m')
       = tx_line (port slave_with_fc16_at_2)
         ++ with_crc [u8id slave_with_fc16_at_2;
                      MB_FC_WRITE_MULTIPLE_REGISTERS; 0; 2; 0;
                      Z.of_nat (length [0x1234; 0x5678])]
    /\ u8lastError m' = 0
    /\ u16errCnt m' = u16errCnt slave_with_fc16_at_2
    /\ rw_bitArea m' = rw_bitArea slave_with_fc16_at_2.
Proof.
  apply (poll_slave_write_registers 0 [] 0 0 2 0 2 4 10 [0x1234; 0x5678]
           slave_with_fc16_at_2).
  - repeat split; try reflexivity; cbn; lia.
  - repeat (constructor; [vm_compute; split; [discriminate|reflexivity]|]).
    constructor.
  - repeat constructor; unfold is_u16; lia.
  - reflexivity.
  - reflexivity.
  - vm_compute. discriminate.
Defined.

(** ** The slave's handler of function 5 *)

Lemma bitRead_testbit (v b : Z) :
  0 <= b -> bitRead v b = Z.b2z (Z.testbit v b).
Proof.
  intros Hb. unfold bitRead.
  change 1 with (Z.ones 1) at 1. rewrite Z.land_ones by lia.
  change (2 ^ 1) with 2. rewrite <- Z.bit0_mod.
  now rewrite Z.shiftr_spec by lia.
Qed.

(** [bitWrite] on a 16-bit word moves the bit it is asked to and no
    other. *)
Lemma bitRead_bitWrite (w bit x b : Z) :
  0 <= bit < 16 -> 0 <= b < 16 ->
  bitRead (u16 (bitWrite w bit x)) b
  = if b =? bit then (if x =? 0 then 0 else 1) else bitRead w b.
Proof.
  intros Hbit Hb. rewrite !bitRead_testbit by lia.
  unfold u16. change 65536 with (2 ^ 16).
  rewrite Z.mod_pow2_bits_low by lia.
  unfold bitWrite. rewrite Z.shiftl_1_l.
  destruct (x =? 0).
  - rewrite Z.land_spec, Z.lnot_spec, Z.pow2_bits_eqb by lia.
    destruct (Z.eqb_spec b bit) as [->|Hne].
    + rewrite Z.eqb_refl. cbn. now rewrite andb_false_r.
    + destruct (Z.eqb_spec bit b); [lia|]. cbn. now rewrite andb_true_r.
  - rewrite Z.lor_spec, Z.pow2_bits_eqb by lia.
    destruct (Z.eqb_spec b bit) as [->|Hne].
    + rewrite Z.eqb_refl. now rewrite orb_true_r.
    + destruct (Z.eqb_spec bit b); [lia|]. now rewrite orb_false_r.
Qed.

(** [process_FC5] on a frame buffer that starts with the six header
    bytes, for a coil whose word is inside the coil area. *)
Lemma process_FC5_exact (b0 b1 add_hi add_lo nb_hi nb_lo : Z) (tl : list Z)
    (now : Z) (m : Modbus) :
  au8Buffer m = b0 :: b1 :: add_hi :: add_lo :: nb_hi :: nb_lo :: tl ->
  (2 <= length tl < 200)%nat ->
  word add_hi add_lo / 16 < Z.of_nat (length (rw_bitArea m)) ->
  word add_hi add_lo / 16 < 256 ->
  exists m',
    process_FC5 now m = Ok 8 m'
    /\ rw_bitArea m'
       = <[Z.to_nat (word add_hi add_lo / 16) :=
             u16 (bitWrite
                    (default 0
                       (rw_bitArea m !! Z.to_nat (word add_hi add_lo / 16)))
                    (word add_hi add_lo mod 16)
                    (if nb_hi =? 0xff then 1 else 0))]> (rw_bitArea m)
    /\ tx_line (port m')
       = tx_line (port m)
         ++ with_crc [b0; b1; add_hi; add_lo; nb_hi; nb_lo]
    /\ u8lastError m' = u8lastError m
    /\ u16errCnt m' = u16errCnt m
    /\ rw_regArea m' = rw_regArea m.
Proof.
  intros Hbuf Htl Hadd Hsmall. pose proof (word_range add_hi add_lo) as Hw.
  assert (0 <= word add_hi add_lo / 16) as Hq by (apply Z.div_pos; lia).
  pose proof (Z.mod_pos_bound (word add_hi add_lo) 16 ltac:(lia)) as Hr.
  unfold process_FC5.
  change ADD_HI with (Z.of_nat 2). change ADD_LO with (Z.of_nat 3).
  change NB_HI with (Z.of_nat 4).
  rewrite (bind_load _ 2 add_hi) by (cbn [field]; now rewrite Hbuf).
  rewrite (bind_load _ 3 add_lo) by (cbn [field]; now rewrite Hbuf).
  cbv zeta.
  rewrite (bind_load _ 4 nb_hi) by (cbn [field]; now rewrite Hbuf).
  rewrite (u8_small (word add_hi add_lo / 16)) by lia.
  rewrite (u8_small (word add_hi add_lo mod 16)) by lia.
  rewrite bind_load_Z by (cbn [field]; lia).
  rewrite bind_store_Z by (cbn [field]; lia).
  rewrite bind_modify, bind_get. fields.
  erewrite bind_Ok.
  2:{ apply (sendTxBuffer_exact [b0; b1; add_hi; add_lo; nb_hi; nb_lo]);
        fields; rewrite ?Hbuf; cbn [length]; try reflexivity; lia. }
  unfold ret. eexists. split; [reflexivity|]. fields.
  repeat split; reflexivity.
Qed.

Lemma poll_slave_dispatch_FC5 (u8regsno i8state : Z) :
  poll_slave_dispatch u8regsno MB_FC_WRITE_COIL i8state = process_FC5.
Proof. reflexivity. Qed.

(** The slave's [poll] from the validation on, for a write of a coil
    of the coil area. *)
Lemma poll_slave_runs_FC5 (u8regsno i8state id : Z)
    (add_hi add_lo nb_hi nb_lo now : Z) (tl : list Z) (m : Modbus) :
  crc_mismatch now m = Ok false m ->
  au8Buffer m
  = id :: MB_FC_WRITE_COIL :: add_hi :: add_lo :: nb_hi :: nb_lo :: tl ->
  (2 <= length tl < 200)%nat ->
  Z.of_nat (length (rw_bitArea m)) = SIZE_RW_BITS / 16 + 1 ->
  word add_hi add_lo <= SIZE_RW_BITS ->
  exists m',
    bind validateRequest (fun u8exception =>
       if 0 <? u8exception then
         bind (if negb (u8exception =? NO_REPLY)
               then bind (buildException u8exception)
                         (fun _ => sendTxBuffer)
               else ret tt) (fun _ =>
         bind (modify (set_u8lastError u8exception)) (fun _ =>
         ret (i8 u8exception)))
       else
         bind (modify (fun m => set_u32timeOut (u32 (now + u16timeOut m)) m))
           (fun _ =>
         bind (modify (set_u8lastError 0)) (fun _ =>
         bind (load Arr_au8Buffer FUNC) (fun fct =>
         poll_slave_dispatch u8regsno fct i8state))))
      now m
    = Ok 8 m'
    /\ rw_bitArea m'
       = <[Z.to_nat (word add_hi add_lo / 16) :=
             u16 (bitWrite
                    (default 0
                       (rw_bitArea m !! Z.to_nat (word add_hi add_lo / 16)))
                    (word add_hi add_lo mod 16)
                    (if nb_hi =? 0xff then 1 else 0))]> (rw_bitArea m)
    /\ tx_line (port m')
       = tx_line (port m)
         ++ with_crc [id; MB_FC_WRITE_COIL; add_hi; add_lo; nb_hi; nb_lo]
    /\ u8lastError m' = 0
    /\ u16errCnt m' = u16errCnt m
    /\ rw_regArea m' = rw_regArea m.
Proof.
  intros Hcrc Hbuf Htl Hbits Hadd.
  change (SIZE_RW_BITS / 16 + 1) with 2 in Hbits.
  unfold SIZE_RW_BITS in Hadd.
  pose proof (word_range add_hi add_lo) as Ha.
  assert (word add_hi add_lo / 16 < 2) as Hq
    by (apply Z.div_lt_upper_bound; lia).
  erewrite bind_Ok.
  2:{ apply (validateRequest_accepts MB_FC_WRITE_COIL
               add_hi add_lo nb_hi nb_lo);
        [exact Hcrc | rewrite Hbuf; reflexivity | reflexivity |].
      intros [[_ H]|[[H|[H|[H|[H|[H|H]]]]] _]];
        [lia | discriminate H..]. }
  cbn [Z.ltb Z.compare]. rewrite !bind_modify.
  change FUNC with (Z.of_nat 1).
  rewrite (bind_load _ 1 MB_FC_WRITE_COIL)
    by (fields; rewrite Hbuf; reflexivity).
  rewrite poll_slave_dispatch_FC5.
  match goal with
  | |- context [process_FC5 now ?s] =>
      destruct (process_FC5_exact id MB_FC_WRITE_COIL
                  add_hi add_lo nb_hi nb_lo tl now s)
        as (m' & Hrun & Hbits' & Htx & Herr & Hcnt & Hregs)
  end.
  - exact Hbuf.
  - exact Htl.
  - fields. lia.
  - lia.
  - exists m'. split; [exact Hrun|].
    rewrite Hbits', Htx, Herr, Hcnt, Hregs.
    fields. repeat split; reflexivity.
Qed.

(** X22: A write-single-coil request for this node, with a good CRC and a
    coil number up to 16, is carried out: the bit of the coil in its
    word of the coil area is set when the value's high byte is [0xFF]
    and cleared for every other value, the other bits of the word and
    the other words are as they were, the reply is the request itself,
    [poll] returns 8, the last error is cleared and the error counter is
    not moved. *)
Theorem poll_slave_write_coil (u8regsno : Z) (regs : list Z) (u8size : Z)
    (add_hi add_lo nb_hi nb_lo now : Z) (m : Modbus) :
  let body := [u8id m; MB_FC_WRITE_COIL; add_hi; add_lo; nb_hi; nb_lo] in
  let coil := word add_hi add_lo in
  frame_ready (with_crc body) now m ->
  Forall is_u8 body ->
  Z.of_nat (length (rw_bitArea m)) = SIZE_RW_BITS / 16 + 1 ->
  coil <= SIZE_RW_BITS ->
  exists m' w',
    poll_slave u8regsno regs u8size now m = Ok 8 m'
    /\ rw_bitArea m' = <[Z.to_nat (coil / 16) := w']> (rw_bitArea m)
    /\ (forall b, 0 <= b < 16 ->
        bitRead w' b
        = if b =? coil mod 16
          then (if nb_hi =? 0xff then 1 else 0)
          else bitRead (default 0 (rw_bitArea m !! Z.to_nat (coil / 16))) b)
    /\ tx_line (port m') = tx_line (port m) ++ with_crc body
    /\ u8lastError m' = 0
    /\ u16errCnt m' = u16errCnt m
    /\ rw_regArea m' = rw_regArea m.
Proof.
  intros body coil Hready Hb Hbits Hadd.
  pose proof Hready as (Hlen & _ & Hfl & _). unfold MAX_BUFFER in Hlen.
  destruct (poll_slave_validates u8regsno regs u8size MB_FC_WRITE_COIL
              add_hi add_lo nb_hi nb_lo [] now m Hready Hb)
    as (-> & Hcrc & _ & _).
  destruct (poll_slave_runs_FC5 u8regsno
              (Z.of_nat (length (with_crc body)))
              (u8id m) add_hi add_lo nb_hi nb_lo now
              ([u8 (Z.shiftr (crc16 body) 8); Z.land (crc16 body) 0x00ff]
               ++ drop (length (with_crc body)) (au8Buffer m))
              (slave_drained regs u8size (with_crc body) m))
    as (m' & Hrun & H1 & H2 & H3 & H4 & H5).
  - exact Hcrc.
  - rewrite slave_drained_buffer. reflexivity.
  - rewrite length_app, length_drop. unfold with_crc, body.
    rewrite length_app. cbn [length]. lia.
  - exact Hbits.
  - exact Hadd.
  - exists m'. eexists. split; [exact Hrun|].
    split; [exact H1|]. split.
    { intros b Hbr. rewrite bitRead_bitWrite.
      - now destruct (nb_hi =? 0xff).
      - apply Z.mod_pos_bound. lia.
      - exact Hbr. }
    split; [exact H2|]. split; [exact H3|].
    split; [exact H4|exact H5].
Qed.

Lemma poll_slave_write_coil_witness :
  exists m' w',
    poll_slave 0 [] 0 10 slave_with_fc5_at_3 = Ok 8 m'
    /\ rw_bitArea m'
       = <[Z.to_nat (word 0 3 / 16) := w']> (rw_bitArea slave_with_fc5_at_3)
    /\ (forall b, 0 <= b < 16 ->
        bitRead w' b
        = if b =? word 0 3 mod 16
          then (if 0xff =? 0xff then 1 else 0)
          else bitRead
                 (default 0
                    (rw_bitArea slave_with_fc5_at_3
                     !! Z.to_nat (word 0 3 / 16))) b)
    /\ tx_line (port m')
       = tx_line (port slave_with_fc5_at_3)
         ++ with_crc [u8id slave_with_fc5_at_3; MB_FC_WRITE_COIL;
                      0; 3; 0xff; 0]
    /\ u8lastError m' = 0
    /\ u16errCnt m' = u16errCnt slave_with_fc5_at_3
    /\ rw_regArea m' = rw_regArea slave_with_fc5_at_3.
Proof.
  apply (poll_slave_write_coil 0 [] 0 0 3 0xff 0 10 slave_with_fc5_at_3).
  - repeat split; try reflexivity; cbn; lia.
  - repeat (constructor; [vm_compute; split; [discriminate|reflexivity]|]).
    constructor.
  - reflexivity.
  - vm_compute. discriminate.
Defined.

(** ** The silence before a frame is taken *)

(** The slave's [poll] on bytes it sees for the first time, exactly. *)
Lemma poll_slave_notes (u8regsno : Z) (regs : list Z) (u8size : Z)
    (frame : list Z) (now : Z) (m : Modbus) :
  rx_queue (port m) = frame ->
  (0 < length frame < 64)%nat ->
  u8lastRec m <> Z.of_nat (length frame) ->
  poll_slave u8regsno regs u8size now m
  = Ok 0 (set_u32time (u32 (now + T35))
            (set_u8lastRec (Z.of_nat (length frame))
               (set_u8regsize u8size (set_au16regs regs m)))).
Proof.
  intros Hrx Hn Hlast.
  unfold poll_slave. rewrite !bind_modify. unfold available.
  rewrite bind_get. fields. rewrite Hrx.
  rewrite (u8_small (Z.of_nat (length frame))) by lia.
  destruct (Z.eqb_spec (Z.of_nat (length frame)) 0) as [H0|_]; [lia|].
  rewrite bind_get, bind_millis. fields.
  destruct (Z.eqb_spec (Z.of_nat (length frame)) (u8lastRec m)) as [E|_];
    [congruence|].
  cbn [negb]. now rewrite !bind_modify.
Qed.

(** The slave that has noted a frame is ready once [T35] has passed. *)
Lemma noted_frame_ready (frame : list Z) (now t : Z) (m : Modbus) :
  Z.of_nat (length (au8Buffer m)) = MAX_BUFFER ->
  rx_queue (port m) = frame ->
  (0 < length frame < 64)%nat ->
  0 <= now -> now + T35 < 4294967296 ->
  now + T35 <= t ->
  frame_ready frame t
    (set_u32time (u32 (now + T35))
       (set_u8lastRec (Z.of_nat (length frame)) m)).
Proof.
  intros Hlen Hrx Hn Hnow Hwrap Ht. unfold frame_ready. fields.
  repeat split; try assumption; try lia.
  unfold u32. rewrite Z.mod_small; unfold T35 in *; lia.
Qed.

(** X23: Bytes that a poll of the slave sees for the first time are only
    noted: [poll] returns 0 and sends nothing.  As long as the silence
    deadline, the clock plus [T35], does not wrap past [2^32], every
    poll at a clock reading below that deadline returns 0 and leaves the
    object as it is, and from that deadline on the frame is ready to be
    taken.  The frame has 1 to 63 bytes and the frame buffer 64. *)
Theorem poll_slave_waits_for_silence (u8regsno : Z) (regs : list Z)
    (u8size : Z) (frame : list Z) (now : Z) (m : Modbus) :
  Z.of_nat (length (au8Buffer m)) = MAX_BUFFER ->
  rx_queue (port m) = frame ->
  (0 < length frame < 64)%nat ->
  u8lastRec m <> Z.of_nat (length frame) ->
  0 <= now -> now + T35 < 4294967296 ->
  exists m1,
    poll_slave u8regsno regs u8size now m = Ok 0 m1
    /\ (forall t, t < now + T35 ->
        poll_slave u8regsno regs u8size t m1 = Ok 0 m1)
    /\ (forall t, now + T35 <= t -> frame_ready frame t m1)
    /\ u8id m1 = u8id m
    /\ tx_line (port m1) = tx_line (port m)
    /\ rw_regArea m1 = rw_regArea m
    /\ rw_bitArea m1 = rw_bitArea m.
Proof.
  intros Hlen Hrx Hn Hlast Hnow Hwrap.
  exists (set_u32time (u32 (now + T35))
            (set_u8lastRec (Z.of_nat (length frame))
               (set_u8regsize u8size (set_au16regs regs m)))).
  split; [|split; [|split]].
  - now apply poll_slave_notes.
  - intros t Ht. unfold poll_slave. rewrite !bind_modify. unfold available.
    rewrite bind_get. fields. rewrite Hrx.
    rewrite (u8_small (Z.of_nat (length frame))) by lia.
    destruct (Z.eqb_spec (Z.of_nat (length frame)) 0) as [H0|_]; [lia|].
    rewrite bind_get, bind_millis. fields. rewrite Z.eqb_refl. cbn [negb].
    rewrite bind_get. fields.
    assert (still_receiving t (u32 (now + T35)) = true) as ->.
    { apply Z.ltb_lt. unfold u32. rewrite Z.mod_small; unfold T35 in *; lia. }
    reflexivity.
  - intros t Ht.
    now apply (noted_frame_ready frame now t
                 (set_u8regsize u8size (set_au16regs regs m))).
  - fields. repeat split; reflexivity.
Qed.

Lemma poll_slave_waits_for_silence_witness :
  exists m1,
    poll_slave 0 [] 0 10 slave_with_new_bytes = Ok 0 m1
    /\ (forall t, t < 10 + T35 -> poll_slave 0 [] 0 t m1 = Ok 0 m1)
    /\ (forall t, 10 + T35 <= t ->
        frame_ready (with_crc [1; 6; 0; 5; 0; 255]) t m1)
    /\ u8id m1 = u8id slave_with_new_bytes
    /\ tx_line (port m1) = tx_line (port slave_with_new_bytes)
    /\ rw_regArea m1 = rw_regArea slave_with_new_bytes
    /\ rw_bitArea m1 = rw_bitArea slave_with_new_bytes.
Proof.
  apply (poll_slave_waits_for_silence 0 [] 0 (with_crc [1; 6; 0; 5; 0; 255])
           10 slave_with_new_bytes).
  - reflexivity.
  - reflexivity.
  - cbn. lia.
  - vm_compute. discriminate.
  - lia.
  - vm_compute. reflexivity.
Defined.

(** The master's [poll] on bytes it sees for the first time, exactly. *)
Lemma poll_notes (frame : list Z) (now : Z) (m : Modbus) :
  rx_queue (port m) = frame ->
  (0 < length frame < 64)%nat ->
  u8lastRec m <> Z.of_nat (length frame) ->
  now <= u32timeOut m ->
  poll now m
  = Ok 0 (set_u32time (u32 (now + T35))
            (set_u8lastRec (Z.of_nat (length frame)) m)).
Proof.
  intros Hrx Hn Hlast Hwd.
  unfold poll, available. rewrite bind_get, bind_millis, bind_get.
  rewrite Hrx, (u8_small (Z.of_nat (length frame))) by lia.
  assert (watchdog_fired now (u32timeOut m) = false) as ->
    by (apply Z.ltb_ge; exact Hwd).
  destruct (Z.eqb_spec (Z.of_nat (length frame)) 0) as [H0|_]; [lia|].
  rewrite bind_get.
  destruct (Z.eqb_spec (Z.of_nat (length frame)) (u8lastRec m)) as [E|_];
    [congruence|].
  cbn [negb]. now rewrite !bind_modify.
Qed.

(** The master that has noted an answer is ready once [T35] has passed,
    up to the watchdog deadline. *)
Lemma noted_answer_ready (frame : list Z) (now t : Z) (m : Modbus) :
  Z.of_nat (length (au8Buffer m)) = MAX_BUFFER ->
  rx_queue (port m) = frame ->
  (0 < length frame < 64)%nat ->
  0 <= now -> now + T35 < 4294967296 ->
  now + T35 <= t -> t <= u32timeOut m ->
  answer_ready frame t
    (set_u32time (u32 (now + T35))
       (set_u8lastRec (Z.of_nat (length frame)) m)).
Proof.
  intros Hlen Hrx Hn Hnow Hwrap Ht Hwd. unfold answer_ready. fields.
  repeat split; try assumption; try lia.
  unfold u32. rewrite Z.mod_small; unfold T35 in *; lia.
Qed.

(** X24: Bytes that a poll of the master sees for the first time, before the
    watchdog deadline, are only noted: [poll] returns 0 and the master
    keeps waiting.  As long as the silence deadline, the clock plus
    [T35], does not wrap past [2^32], every poll at a clock reading
    below that deadline and not past the watchdog deadline returns 0 and
    leaves the object as it is, and from the silence deadline on, up to
    the watchdog deadline, the answer is ready to be taken.  The answer
    has 1 to 63 bytes and the frame buffer 64. *)
Theorem poll_waits_for_silence (frame : list Z) (now : Z) (m : Modbus) :
  Z.of_nat (length (au8Buffer m)) = MAX_BUFFER ->
  rx_queue (port m) = frame ->
  (0 < length frame < 64)%nat ->
  u8lastRec m <> Z.of_nat (length frame) ->
  0 <= now -> now + T35 < 4294967296 ->
  now <= u32timeOut m ->
  exists m1,
    poll now m = Ok 0 m1
    /\ (forall t, t < now + T35 -> t <= u32timeOut m -> poll t m1 = Ok 0 m1)
    /\ (forall t, now + T35 <= t -> t <= u32timeOut m ->
        answer_ready frame t m1)
    /\ u8state m1 = u8state m
    /\ u16errCnt m1 = u16errCnt m
    /\ au16regs m1 = au16regs m.
Proof.
  intros Hlen Hrx Hn Hlast Hnow Hwrap Hwd.
  exists (set_u32time (u32 (now + T35))
            (set_u8lastRec (Z.of_nat (length frame)) m)).
  split; [|split; [|split]].
  - now apply poll_notes.
  - intros t Ht Htwd. unfold poll, available.
    rewrite bind_get, bind_millis, bind_get. fields.
    rewrite Hrx, (u8_small (Z.of_nat (length frame))) by lia.
    assert (watchdog_fired t (u32timeOut m) = false) as ->
      by (apply Z.ltb_ge; exact Htwd).
    destruct (Z.eqb_spec (Z.of_nat (length frame)) 0) as [H0|_]; [lia|].
    rewrite bind_get. fields. rewrite Z.eqb_refl. cbn [negb].
    rewrite bind_get. fields.
    assert (still_receiving t (u32 (now + T35)) = true) as ->.
    { apply Z.ltb_lt. unfold u32. rewrite Z.mod_small; unfold T35 in *; lia. }
    reflexivity.
  - intros t Ht Htwd. now apply noted_answer_ready.
  - fields. repeat split; reflexivity.
Qed.

Lemma poll_waits_for_silence_witness :
  exists m1,
    poll 10 master_with_new_bytes = Ok 0 m1
    /\ (forall t, t < 10 + T35 -> t <= u32timeOut master_with_new_bytes ->
        poll t m1 = Ok 0 m1)
    /\ (forall t, 10 + T35 <= t -> t <= u32timeOut master_with_new_bytes ->
        answer_ready answer_echo t m1)
    /\ u8state m1 = u8state master_with_new_bytes
    /\ u16errCnt m1 = u16errCnt master_with_new_bytes
    /\ au16regs m1 = au16regs master_with_new_bytes.
Proof.
  apply (poll_waits_for_silence answer_echo 10 master_with_new_bytes).
  - reflexivity.
  - reflexivity.
  - cbn. lia.
  - vm_compute. discriminate.
  - lia.
  - vm_compute. reflexivity.
  - vm_compute. discriminate.
Defined.

(** ** A write of one register, from the master to the slave and back *)

(** [query] for function 6, with what it leaves of the object. *)
Lemma query_FC6_run (telegram : modbus_t) (r : Z) (regs : list Z) (now : Z)
    (m : Modbus) :
  master_ready m ->
  1 <= Telegram.u8id telegram <= 247 ->
  Telegram.u8fct telegram = MB_FC_WRITE_REGISTER ->
  Telegram.au16reg telegram = r :: regs ->
  exists m',
    query telegram now m = Ok 0 m'
    /\ tx_line (port m')
       = tx_line (port m)
         ++ with_crc [Telegram.u8id telegram; MB_FC_WRITE_REGISTER;
                      highByte (Telegram.u16RegAdd telegram);
                      lowByte (Telegram.u16RegAdd telegram);
                      highByte r; lowByte r]
    /\ u32timeOut m' = u32 (now + u16timeOut m)
    /\ Z.of_nat (length (au8Buffer m')) = MAX_BUFFER
    /\ u8lastRec m' = u8lastRec m
    /\ u16errCnt m' = u16errCnt m.
Proof.
  intros Hready Htid Hfct Hregs. rewrite query_header by assumption.
  destruct Hready as (_ & _ & Hlen). unfold MAX_BUFFER in *.
  unfold query_payload. cbv zeta. switch_on Hfct.
  rewrite ?Hfct.
  destruct (au8Buffer m) as [|b0 [|b1 [|b2 [|b3 [|c4 [|c5 buf]]]]]];
    cbn in Hlen; try lia.
  cbn [drop].
  rewrite !bind_assoc.
  change 0 with (Z.of_nat 0) at 1.
  rewrite (bind_load _ 0 r) by (fields; now rewrite Hregs).
  change NB_HI with (Z.of_nat 4). change NB_LO with (Z.of_nat 5).
  rewrite !bind_assoc.
  rewrite bind_store by (fields; cbn [length]; lia).
  rewrite !bind_assoc.
  rewrite bind_store by (fields; rewrite length_insert; cbn [length]; lia).
  rewrite bind_modify. fields. cbn [list_insert insert].
  erewrite bind_Ok.
  2:{ apply (sendTxBuffer_exact
               [Telegram.u8id telegram; MB_FC_WRITE_REGISTER;
                highByte (Telegram.u16RegAdd telegram);
                lowByte (Telegram.u16RegAdd telegram);
                highByte r; lowByte r]);
        fields; cbn [length]; try reflexivity; lia. }
  rewrite bind_modify. unfold ret. eexists. split; [reflexivity|].
  fields. rewrite !length_insert. cbn [length].
  repeat split; try reflexivity. lia.
Qed.

Lemma highByte_u8 (w : Z) : is_u8 (highByte w).
Proof. unfold is_u8, highByte, u8. apply Z.mod_pos_bound. lia. Qed.

Lemma lowByte_u8 (w : Z) : is_u8 (lowByte w).
Proof. unfold is_u8, lowByte, u8. apply Z.mod_pos_bound. lia. Qed.

(** X25: A write of one register, end to end, on a clock that does not
    wrap during the exchange: the watchdog deadline, [t0] plus the
    time-out, is below [2^32].  The master is idle with a frame buffer
    of 64 bytes and has no bytes counted; the slave has the node address
    of the telegram, between 1 and 247, a frame buffer of 64 bytes, a
    register area of 16 words and no bytes counted; the address of the
    telegram is below 16 and its value a 16-bit word.  The master sends
    the query at [t0]; the frame reaches the slave, whose poll at [t1]
    notes it and whose poll at [t2], [T35] or more later, carries it
    out: the register of the slave takes the value of the telegram and
    the reply is the frame again.  The reply reaches the master, whose
    poll at [t3] notes it and whose poll at [t4], [T35] or more later
    and not past the watchdog deadline, takes it: the master is idle
    again and has counted no error. *)
Theorem write_register_exchange (telegram : modbus_t) (r : Z)
    (regs : list Z) (u8regsno : Z) (tbl : list Z) (u8size : Z)
    (t0 t1 t2 t3 t4 : Z) (master slave : Modbus) :
  let add := Telegram.u16RegAdd telegram in
  let frame :=
    with_crc [u8id slave; MB_FC_WRITE_REGISTER; highByte add; lowByte add;
              highByte r; lowByte r] in
  master_ready master ->
  u8lastRec master = 0 ->
  Telegram.u8id telegram = u8id slave ->
  1 <= u8id slave <= 247 ->
  Telegram.u8fct telegram = MB_FC_WRITE_REGISTER ->
  Telegram.au16reg telegram = r :: regs ->
  is_u16 r ->
  0 <= add < SIZE_RW_REGS ->
  Z.of_nat (length (au8Buffer slave)) = MAX_BUFFER ->
  u8lastRec slave = 0 ->
  Z.of_nat (length (rw_regArea slave)) = SIZE_RW_REGS ->
  0 <= t0 <= t1 -> t1 + T35 <= t2 -> t2 <= t3 -> t3 + T35 <= t4 ->
  t4 <= t0 + u16timeOut master ->
  t0 + u16timeOut master < 4294967296 ->
  exists master1 slave1 slave2 master2 master3,
    query telegram t0 master = Ok 0 master1
    /\ tx_line (port master1) = tx_line (port master) ++ frame
    /\ poll_slave u8regsno tbl u8size t1 (receive frame slave) = Ok 0 slave1
    /\ poll_slave u8regsno tbl u8size t2 slave1 = Ok 8 slave2
    /\ rw_regArea slave2 = <[Z.to_nat add := r]> (rw_regArea slave)
    /\ tx_line (port slave2) = tx_line (port slave) ++ frame
    /\ poll t3 (receive frame master1) = Ok 0 master2
    /\ poll t4 master2 = Ok 8 master3
    /\ u8state master3 = COM_IDLE
    /\ u16errCnt master3 = u16errCnt master.
Proof.
  intros add frame Hready Hmlast Hsid Hid Hfct Hregs Hr Hadd Hslen Hslast
    Hsregs Ht01 Ht12 Ht23 Ht34 Hwd Hwrap.
  assert (length frame = 8%nat) as Hfl by reflexivity.
  assert (Forall is_u8
            [u8id slave; MB_FC_WRITE_REGISTER; highByte add; lowByte add;
             highByte r; lowByte r]) as Hb.
  { repeat (apply List.Forall_cons;
            [first [apply highByte_u8 | apply lowByte_u8
                   | unfold is_u8; lia
                   | vm_compute; split; [discriminate|reflexivity]]|]).
    apply List.Forall_nil. }
  assert (word (highByte add) (lowByte add) = add) as Hwadd
    by (apply word_split; unfold is_u16, SIZE_RW_REGS in *; lia).
  assert (word (highByte r) (lowByte r) = r) as Hwr
    by (apply word_split; exact Hr).
  (* the query *)
  destruct (query_FC6_run telegram r regs t0 master Hready
              ltac:(rewrite Hsid; exact Hid) Hfct Hregs)
    as (master1 & Hq & Htx & Hto & Hblen & Hlast1 & Herr1).
  rewrite Hsid in Htx.
  unfold u32 in Hto.
  rewrite (Z.mod_small (t0 + u16timeOut master)) in Hto
    by (unfold T35 in *; lia).
  (* the slave *)
  pose (slave0 := set_u8regsize u8size (set_au16regs tbl (receive frame slave))).
  pose (slave1 := set_u32time (u32 (t1 + T35))
                    (set_u8lastRec (Z.of_nat (length frame)) slave0)).
  assert (frame_ready frame t2 slave1) as Hfr.
  { apply noted_frame_ready; try reflexivity; try assumption;
      rewrite ?Hfl; unfold T35 in *; lia. }
  destruct (poll_slave_validates u8regsno tbl u8size MB_FC_WRITE_REGISTER
              (highByte add) (lowByte add) (highByte r) (lowByte r) []
              t2 slave1 Hfr Hb)
    as (Hrun2 & Hcrc & _ & _).
  destruct (poll_slave_runs_FC6 u8regsno (Z.of_nat (length frame))
              (u8id slave) (highByte add) (lowByte add)
              (highByte r) (lowByte r) t2
              (drop 6 frame ++ drop (length frame) (au8Buffer slave))
              (slave_drained tbl u8size frame slave1))
    as (slave2 & Hs2 & Hs2regs & Hs2tx & _).
  { exact Hcrc. }
  { reflexivity. }
  { rewrite length_app, !length_drop, Hfl. unfold MAX_BUFFER in Hslen. lia. }
  { exact Hsregs. }
  { rewrite Hwadd. lia. }
  (* the master *)
  pose (master2 := set_u32time (u32 (t3 + T35))
                     (set_u8lastRec (Z.of_nat (length frame))
                        (receive frame master1))).
  assert (answer_ready frame t4 master2) as Har.
  { apply noted_answer_ready; try reflexivity; try assumption;
      rewrite ?Hfl; unfold receive; fields; rewrite ?Hto; unfold T35 in *;
      lia. }
  exists master1, slave1, slave2, master2.
  eexists.
  split; [exact Hq|]. split; [exact Htx|].
  split.
  { apply poll_slave_notes; [reflexivity | rewrite Hfl; lia |].
    unfold receive. fields. rewrite Hslast, Hfl. discriminate. }
  split; [rewrite Hrun2; exact Hs2|].
  split; [rewrite Hs2regs, Hwadd, Hwr; reflexivity|].
  split; [rewrite Hs2tx; reflexivity|].
  split.
  { apply poll_notes; [reflexivity | rewrite Hfl; lia | |].
    - unfold receive. fields. rewrite Hlast1, Hmlast, Hfl. discriminate.
    - unfold receive. fields. rewrite Hto. unfold T35 in *. lia. }
  split.
  { apply (poll_undecoded_exact
             [u8id slave; MB_FC_WRITE_REGISTER; highByte add; lowByte add;
              highByte r; lowByte r] MB_FC_WRITE_REGISTER t4 master2 Har Hb).
    - cbn [length]. lia.
    - reflexivity.
    - cbn [In]. tauto. }
  split; [reflexivity|].
  fields. unfold master_drained, drained. fields. exact Herr1.
Qed.

Lemma write_register_exchange_witness :
  exists master1 slave1 slave2 master2 master3,
    query write_reg_5 0 (Modbus_begin 0) = Ok 0 master1
    /\ tx_line (port master1)
       = tx_line (port (Modbus_begin 0)) ++ write_reg_5_frame
    /\ poll_slave 0 [] 0 1 (receive write_reg_5_frame (Modbus_begin 1))
       = Ok 0 slave1
    /\ poll_slave 0 [] 0 10 slave1 = Ok 8 slave2
    /\ rw_regArea slave2
       = <[Z.to_nat (Telegram.u16RegAdd write_reg_5) := 0x00FF]>
           (rw_regArea (Modbus_begin 1))
    /\ tx_line (port slave2)
       = tx_line (port (Modbus_begin 1)) ++ write_reg_5_frame
    /\ poll 11 (receive write_reg_5_frame master1) = Ok 0 master2
    /\ poll 20 master2 = Ok 8 master3
    /\ u8state master3 = COM_IDLE
    /\ u16errCnt master3 = u16errCnt (Modbus_begin 0).
Proof.
  apply (write_register_exchange write_reg_5 0x00FF [] 0 [] 0 0 1 10 11 20
           (Modbus_begin 0) (Modbus_begin 1)).
  - repeat split; reflexivity.
  - reflexivity.
  - reflexivity.
  - cbn. lia.
  - reflexivity.
  - reflexivity.
  - unfold is_u16. lia.
  - vm_compute. split; [discriminate|reflexivity].
  - reflexivity.
  - reflexivity.
  - reflexivity.
  - lia.
  - unfold T35. lia.
  - lia.
  - unfold T35. lia.
  - vm_compute. discriminate.
  - vm_compute. reflexivity.
Defined.

(** ** A write of coils by the master *)

(** X26: A write-multiple-coils query ends after the byte count: the frame
    is the target, the function code, the address, the quantity and the
    byte count, and none of the caller's coil values follows. *)
Theorem query_write_coils_frame (telegram : modbus_t) (now : Z)
    (m : Modbus) :
  master_ready m ->
  1 <= Telegram.u8id telegram <= 247 ->
  Telegram.u8fct telegram = MB_FC_WRITE_MULTIPLE_COILS ->
  exists m',
    query telegram now m = Ok 0 m'
    /\ tx_line (port m')
       = tx_line (port m)
         ++ with_crc [Telegram.u8id telegram; MB_FC_WRITE_MULTIPLE_COILS;
                      highByte (Telegram.u16RegAdd telegram);
                      lowByte (Telegram.u16RegAdd telegram);
                      highByte (Telegram.u16CoilsNo telegram);
                      lowByte (Telegram.u16CoilsNo telegram);
                      coils_byte_count (Telegram.u16CoilsNo telegram)]
    /\ u8state m' = COM_WAITING
    /\ u32timeOut m' = u32 (now + u16timeOut m)
    /\ u16OutCnt m' = u16 (u16OutCnt m + 1).
Proof.
  intros Hready Htid Hfct. rewrite query_header by assumption.
  destruct Hready as (_ & _ & Hlen). unfold MAX_BUFFER in *.
  unfold query_payload. cbv zeta. switch_on Hfct.
  rewrite ?Hfct.
  destruct (au8Buffer m) as [|b0 [|b1 [|b2 [|b3 [|c4 [|c5 [|c6 buf]]]]]]];
    cbn in Hlen; try lia.
  cbn [drop].
  change NB_HI with (Z.of_nat 4). change NB_LO with (Z.of_nat 5).
  change (Z.of_nat 5 + 1) with (Z.of_nat 6).
  rewrite !bind_assoc.
  rewrite bind_store by (fields; cbn [length]; lia).
  rewrite ?bind_assoc.
  rewrite bind_store by (fields; rewrite length_insert; cbn [length]; lia).
  rewrite ?bind_assoc.
  rewrite bind_store by (fields; rewrite !length_insert; cbn [length]; lia).
  rewrite bind_modify. fields. cbn [list_insert insert].
  erewrite bind_Ok.
  2:{ apply (sendTxBuffer_exact
               [Telegram.u8id telegram; MB_FC_WRITE_MULTIPLE_COILS;
                highByte (Telegram.u16RegAdd telegram);
                lowByte (Telegram.u16RegAdd telegram);
                highByte (Telegram.u16CoilsNo telegram);
                lowByte (Telegram.u16CoilsNo telegram);
                coils_byte_count (Telegram.u16CoilsNo telegram)]);
        fields; cbn [length]; try reflexivity; lia. }
  rewrite bind_modify. unfold ret. eexists. split; [reflexivity|].
  fields. repeat split; reflexivity.
Qed.

Lemma query_write_coils_frame_witness :
  exists m',
    query write_20_coils 10 (Modbus_begin 0) = Ok 0 m'
    /\ tx_line (port m')
       = tx_line (port (Modbus_begin 0))
         ++ with_crc [Telegram.u8id write_20_coils;
                      MB_FC_WRITE_MULTIPLE_COILS;
                      highByte (Telegram.u16RegAdd write_20_coils);
                      lowByte (Telegram.u16RegAdd write_20_coils);
                      highByte (Telegram.u16CoilsNo write_20_coils);
                      lowByte (Telegram.u16CoilsNo write_20_coils);
                      coils_byte_count (Telegram.u16CoilsNo write_20_coils)]
    /\ u8state m' = COM_WAITING
    /\ u32timeOut m' = u32 (10 + u16timeOut (Modbus_begin 0))
    /\ u16OutCnt m' = u16 (u16OutCnt (Modbus_begin 0) + 1).
Proof.
  apply (query_write_coils_frame write_20_coils 10 (Modbus_begin 0)).
  - repeat split; reflexivity.
  - cbn. lia.
  - reflexivity.
Defined.

(** ** The access functions of the register area *)

(** X27: A value stored by [SetRWReg] is the value [GetRWReg] reads at the
    same address, and the other registers are as they were.  Both calls
    return 0. *)
Theorem SetRWReg_then_GetRWReg (ERROR_OF_ADR ERROR_OF_POINTER : Z)
    (adrReg v old now now' : Z) (m : Modbus) :
  Z.of_nat (length (rw_regArea m)) = SIZE_RW_REGS ->
  0 <= adrReg < SIZE_RW_REGS ->
  exists m',
    SetRWReg ERROR_OF_ADR ERROR_OF_POINTER adrReg (Some v) now m = Ok 0 m'
    /\ GetRWReg ERROR_OF_ADR ERROR_OF_POINTER adrReg (Some old) now' m'
       = Ok (0, Some v) m'
    /\ (forall i, i <> Z.to_nat adrReg ->
        rw_regArea m' !! i = rw_regArea m !! i)
    /\ length (rw_regArea m') = length (rw_regArea m).
Proof.
  intros Hlen Hadr. unfold SIZE_RW_REGS in *.
  exists (set_rw_regArea (<[Z.to_nat adrReg := v]> (rw_regArea m)) m).
  split; [|split; [|split]].
  - unfold SetRWReg, SIZE_RW_REGS.
    destruct (Z.leb_spec 16 adrReg); [lia|].
    rewrite bind_store_Z by (cbn [field]; lia). reflexivity.
  - unfold GetRWReg, get_reg, SIZE_RW_REGS.
    destruct (Z.leb_spec 16 adrReg); [lia|].
    rewrite bind_load_Z by (fields; rewrite length_insert; lia).
    fields. rewrite list_lookup_insert_eq by lia. reflexivity.
  - intros i Hi. fields. now rewrite list_lookup_insert_ne by congruence.
  - fields. now rewrite length_insert.
Qed.

Lemma SetRWReg_then_GetRWReg_witness :
  exists m',
    SetRWReg 1 2 5 (Some 0x1234) 10 (Modbus_begin 1) = Ok 0 m'
    /\ GetRWReg 1 2 5 (Some 0) 20 m' = Ok (0, Some 0x1234) m'
    /\ (forall i, i <> Z.to_nat 5 ->
        rw_regArea m' !! i = rw_regArea (Modbus_begin 1) !! i)
    /\ length (rw_regArea m') = length (rw_regArea (Modbus_begin 1)).
Proof.
  apply (SetRWReg_then_GetRWReg 1 2 5 0x1234 0 10 20 (Modbus_begin 1)).
  - reflexivity.
  - vm_compute. split; [discriminate|reflexivity].
Defined.

(** X28: [GetRReg], [GetRWReg] and [SetRWReg] stay inside their areas: for
    every address and every pointer they return, and an address past the
    area is answered with the address error code, the object as it
    was. *)
Theorem single_register_access_is_safe (ERROR_OF_ADR ERROR_OF_POINTER : Z)
    (adrReg : Z) (pReg : option Z) (now : Z) (m : Modbus) :
  Z.of_nat (length (r_regArea m)) = SIZE_R_REGS ->
  Z.of_nat (length (rw_regArea m)) = SIZE_RW_REGS ->
  0 <= adrReg ->
  (exists r, GetRReg ERROR_OF_ADR ERROR_OF_POINTER adrReg pReg now m
             = Ok r m)
  /\ (exists r, GetRWReg ERROR_OF_ADR ERROR_OF_POINTER adrReg pReg now m
                = Ok r m)
  /\ (exists r m', SetRWReg ERROR_OF_ADR ERROR_OF_POINTER adrReg pReg now m
                   = Ok r m')
  /\ (SIZE_RW_REGS <= adrReg ->
      SetRWReg ERROR_OF_ADR ERROR_OF_POINTER adrReg pReg now m
      = Ok ERROR_OF_ADR m).
Proof.
  intros Hr Hrw Hadr. unfold SIZE_R_REGS, SIZE_RW_REGS in *.
  unfold GetRReg, GetRWReg, get_reg, SetRWReg, SIZE_R_REGS, SIZE_RW_REGS.
  destruct (Z.leb_spec 16 adrReg) as [Hbig|Hsmall].
  - repeat split; try (intros _); eexists; try eexists; reflexivity.
  - split; [|split; [|split]]; [| | |lia]; destruct pReg as [p|];
      try (eexists; try eexists; reflexivity).
    + rewrite bind_load_Z by (cbn [field]; lia). eexists. reflexivity.
    + rewrite bind_load_Z by (cbn [field]; lia). eexists. reflexivity.
    + rewrite bind_store_Z by (cbn [field]; lia). do 2 eexists. reflexivity.
Qed.

Lemma single_register_access_is_safe_witness :
  (exists r, GetRReg 1 2 16 (Some 0) 10 (Modbus_begin 1)
             = Ok r (Modbus_begin 1))
  /\ (exists r, GetRWReg 1 2 16 (Some 0) 10 (Modbus_begin 1)
                = Ok r (Modbus_begin 1))
  /\ (exists r m', SetRWReg 1 2 16 (Some 0) 10 (Modbus_begin 1) = Ok r m')
  /\ (SIZE_RW_REGS <= 16 ->
      SetRWReg 1 2 16 (Some 0) 10 (Modbus_begin 1) = Ok 1 (Modbus_begin 1)).
Proof.
  apply (single_register_access_is_safe 1 2 16 (Some 0) 10 (Modbus_begin 1)).
  - reflexivity.
  - reflexivity.
  - lia.
Defined.

(** ** The slave's handler of function 15 *)

Lemma bitRead_01 (v b : Z) : bitRead v b = 0 \/ bitRead v b = 1.
Proof.
  unfold bitRead.
  change (Z.land (Z.shiftr v b) 1) with (Z.land (Z.shiftr v b) (Z.ones 1)).
  rewrite Z.land_ones by lia. change (2 ^ 1) with 2.
  pose proof (Z.mod_pos_bound (Z.shiftr v b) 2 ltac:(lia)). lia.
Qed.

(** Writing coil [c0] of a bit area moves that coil and no other. *)
Lemma coil_bitWrite (area : list Z) (c0 x c : Z) :
  0 <= c0 -> 0 <= c ->
  (Z.to_nat (c0 / 16) < length area)%nat ->
  coil (<[Z.to_nat (c0 / 16) :=
            u16 (bitWrite (default 0 (area !! Z.to_nat (c0 / 16)))
                   (c0 mod 16) x)]> area) c
  = if c =? c0 then (if x =? 0 then 0 else 1) else coil area c.
Proof.
  intros Hc0 Hc Hlen. unfold coil.
  pose proof (Z.mod_pos_bound c0 16 ltac:(lia)) as Hm0.
  pose proof (Z.mod_pos_bound c 16 ltac:(lia)) as Hm.
  destruct (Z.eq_dec (c / 16) (c0 / 16)) as [Hq|Hq].
  - rewrite Hq, list_lookup_insert_eq by exact Hlen.
    change (default 0 (Some ?v)) with v.
    rewrite bitRead_bitWrite by lia.
    destruct (Z.eqb_spec (c mod 16) (c0 mod 16)) as [Hr|Hr];
      destruct (Z.eqb_spec c c0) as [E|E]; try reflexivity.
    + exfalso. apply E.
      rewrite (Z.div_mod c 16), (Z.div_mod c0 16) by lia. congruence.
    + subst c. congruence.
  - rewrite list_lookup_insert_ne.
    2:{ intros E. apply Hq. apply Z2Nat.inj in E; [congruence| |];
          apply Z.div_pos; lia. }
    destruct (Z.eqb_spec c c0) as [E|E]; [subst; congruence|reflexivity].
Qed.

Lemma set_rw_bitArea_same (m : Modbus) : set_rw_bitArea (rw_bitArea m) m = m.
Proof. now destruct m. Qed.

(** The loop of [process_FC15] for [n] more coils, from coil [k] of the
    request: the coils of the request take the bits of the frame, the
    other coils are as they were. *)
Lemma process_FC15_loop_exact (n : nat) :
  forall (s k now : Z) (m : Modbus),
    0 <= s -> 0 <= k ->
    s + k + Z.of_nat n <= 16 * Z.of_nat (length (rw_bitArea m)) ->
    Z.of_nat (length (rw_bitArea m)) < 256 ->
    7 + (k + Z.of_nat n + 7) / 8 <= Z.of_nat (length (au8Buffer m)) ->
    Z.of_nat (length (au8Buffer m)) < 256 ->
    exists area',
      process_FC15_loop n s k (k mod 8) (7 + k / 8) now m
      = Ok tt (set_rw_bitArea area' m)
      /\ length area' = length (rw_bitArea m)
      /\ forall c, 0 <= c ->
           coil area' c
           = if (s + k <=? c) && (c <? s + k + Z.of_nat n)
             then frame_bit (drop 7 (au8Buffer m)) (c - s)
             else coil (rw_bitArea m) c.
Proof.
  induction n as [|n IH]; intros s k now m Hs Hk Harea Hsmall Hbuf Hbig.
  - exists (rw_bitArea m). cbn [process_FC15_loop]. unfold ret.
    rewrite set_rw_bitArea_same. repeat split.
    intros c Hc.
    destruct (Z.leb_spec (s + k) c); destruct (Z.ltb_spec c (s + k + Z.of_nat 0));
      try reflexivity; lia.
  - cbn [process_FC15_loop]. cbv zeta.
    assert (0 <= k mod 8 < 8) as Hr by (apply Z.mod_pos_bound; lia).
    assert (0 <= k / 8) as Hq by (apply Z.div_pos; lia).
    assert (0 <= (s + k) / 16 < Z.of_nat (length (rw_bitArea m))) as Hw.
    { split; [apply Z.div_pos; lia|].
      apply Z.div_lt_upper_bound; lia. }
    assert (0 <= (s + k) mod 16 < 16) as Hbit
      by (apply Z.mod_pos_bound; lia).
    assert (7 + k / 8 < Z.of_nat (length (au8Buffer m))) as Hfb.
    { assert (k / 8 < (k + Z.of_nat (S n) + 7) / 8); [|lia].
      Z.div_mod_to_equations. lia. }
    assert (u16 (s + k) = s + k) as Eu
      by (unfold u16; apply Z.mod_small; lia).
    assert (u8 ((s + k) / 16) = (s + k) / 16) as Ew
      by (apply u8_small; lia).
    assert (u8 ((s + k) mod 16) = (s + k) mod 16) as Eb
      by (apply u8_small; lia).
    rewrite bind_load_Z by (cbn [field]; lia).
    rewrite Eu, Ew.
    rewrite bind_load_Z by (cbn [field]; lia).
    rewrite Eb.
    rewrite bind_store_Z by (cbn [field]; lia).
    cbn [field set_field].
    rewrite (u8_small (k mod 8 + 1)) by lia.
    set (x := bitRead (default 0 (au8Buffer m !! Z.to_nat (7 + k / 8)))
                (k mod 8)).
    set (area1 := <[Z.to_nat ((s + k) / 16) :=
                      u16 (bitWrite
                             (default 0
                                (rw_bitArea m !! Z.to_nat ((s + k) / 16)))
                             ((s + k) mod 16) x)]> (rw_bitArea m)).
    assert (x = frame_bit (drop 7 (au8Buffer m)) k) as Hx.
    { unfold x, frame_bit. rewrite lookup_drop.
      now replace (Z.to_nat (7 + k / 8)) with (7 + Z.to_nat (k / 8))%nat
        by lia. }
    assert (forall c, 0 <= c ->
              coil area1 c = if c =? s + k then x else coil (rw_bitArea m) c)
      as Hstep.
    { intros c Hc. unfold area1. rewrite coil_bitWrite by lia.
      destruct (c =? s + k); [|reflexivity].
      destruct (bitRead_01 (default 0 (au8Buffer m !! Z.to_nat (7 + k / 8)))
                  (k mod 8)) as [E|E]; fold x in E; now rewrite E. }
    assert (exists area',
              process_FC15_loop n s (k + 1) ((k + 1) mod 8)
                (7 + (k + 1) / 8) now (set_rw_bitArea area1 m)
              = Ok tt (set_rw_bitArea area' (set_rw_bitArea area1 m))
              /\ length area' = length (rw_bitArea (set_rw_bitArea area1 m))
              /\ forall c, 0 <= c ->
                   coil area' c
                   = if (s + (k + 1) <=? c) && (c <? s + (k + 1) + Z.of_nat n)
                     then frame_bit
                            (drop 7 (au8Buffer (set_rw_bitArea area1 m)))
                            (c - s)
                     else coil (rw_bitArea (set_rw_bitArea area1 m)) c)
      as (area' & Hrun & Hlen' & Hcoils).
    { apply IH; fields; unfold area1; rewrite ?length_insert; try lia.
      replace (k + 1 + Z.of_nat n + 7) with (k + Z.of_nat (S n) + 7) by lia.
      exact Hbuf. }
    revert Hrun Hlen' Hcoils. fields. intros Hrun Hlen' Hcoils.
    exists area'. split; [|split].
    + destruct (Z.ltb_spec 7 (k mod 8 + 1)) as [Hwrap|Hnowrap].
      * replace 0 with ((k + 1) mod 8) at 1
          by (Z.div_mod_to_equations; lia).
        replace (u8 (7 + k / 8 + 1)) with (7 + (k + 1) / 8).
        2:{ rewrite u8_small by lia. Z.div_mod_to_equations. lia. }
        exact Hrun.
      * replace (k mod 8 + 1) with ((k + 1) mod 8)
          by (Z.div_mod_to_equations; lia).
        replace (7 + k / 8) with (7 + (k + 1) / 8)
          by (Z.div_mod_to_equations; lia).
        exact Hrun.
    + rewrite Hlen'. unfold area1. now rewrite length_insert.
    + intros c Hc. rewrite Hcoils, Hstep by exact Hc.
      destruct (Z.leb_spec (s + (k + 1)) c);
        destruct (Z.ltb_spec c (s + (k + 1) + Z.of_nat n));
        destruct (Z.leb_spec (s + k) c);
        destruct (Z.ltb_spec c (s + k + Z.of_nat (S n)));
        destruct (Z.eqb_spec c (s + k));
        cbn [andb]; try reflexivity; try lia.
      subst c. rewrite Hx. f_equal. lia.
Qed.

(** [process_FC15] on a frame buffer that starts with the seven header
    bytes, for coils inside the coil area. *)
Lemma process_FC15_exact (b0 b1 add_hi add_lo nb_hi nb_lo cnt : Z)
    (tl : list Z) (now : Z) (m : Modbus) :
  au8Buffer m
  = b0 :: b1 :: add_hi :: add_lo :: nb_hi :: nb_lo :: cnt :: tl ->
  (1 <= length tl < 200)%nat ->
  word add_hi add_lo + word nb_hi nb_lo
  <= 16 * Z.of_nat (length (rw_bitArea m)) ->
  Z.of_nat (length (rw_bitArea m)) < 256 ->
  (word nb_hi nb_lo + 7) / 8 <= Z.of_nat (length tl) ->
  exists m',
    process_FC15 now m = Ok 8 m'
    /\ length (rw_bitArea m') = length (rw_bitArea m)
    /\ (forall c, 0 <= c ->
        coil (rw_bitArea m') c
        = if (word add_hi add_lo <=? c)
             && (c <? word add_hi add_lo + word nb_hi nb_lo)
          then frame_bit tl (c - word add_hi add_lo)
          else coil (rw_bitArea m) c)
    /\ tx_line (port m')
       = tx_line (port m)
         ++ with_crc [b0; b1; add_hi; add_lo; nb_hi; nb_lo]
    /\ u8lastError m' = u8lastError m
    /\ u16errCnt m' = u16errCnt m
    /\ rw_regArea m' = rw_regArea m.
Proof.
  intros Hbuf Htl Hadd Hsmall Hpay.
  pose proof (word_range add_hi add_lo) as Ha.
  pose proof (word_range nb_hi nb_lo) as Hn.
  unfold process_FC15.
  change ADD_HI with (Z.of_nat 2). change ADD_LO with (Z.of_nat 3).
  change NB_HI with (Z.of_nat 4). change NB_LO with (Z.of_nat 5).
  rewrite (bind_load _ 2 add_hi) by (cbn [field]; now rewrite Hbuf).
  rewrite (bind_load _ 3 add_lo) by (cbn [field]; now rewrite Hbuf).
  rewrite (bind_load _ 4 nb_hi) by (cbn [field]; now rewrite Hbuf).
  rewrite (bind_load _ 5 nb_lo) by (cbn [field]; now rewrite Hbuf).
  cbv zeta.
  destruct (process_FC15_loop_exact (Z.to_nat (word nb_hi nb_lo))
              (word add_hi add_lo) 0 now m)
    as (area' & Hloop & Hlen' & Hcoils);
    rewrite ?Z2Nat.id, ?Hbuf by lia; cbn [length]; try lia.
  { rewrite Z.add_0_l.
    replace (Z.of_nat (S (S (S (S (S (S (S (length tl)))))))))
      with (7 + Z.of_nat (length tl)) by lia.
    lia. }
  change (0 mod 8) with 0 in Hloop. change (7 + 0 / 8) with 7 in Hloop.
  erewrite bind_Ok by exact Hloop.
  rewrite bind_modify, bind_get. fields.
  erewrite bind_Ok.
  2:{ apply (sendTxBuffer_exact [b0; b1; add_hi; add_lo; nb_hi; nb_lo]);
        fields; rewrite ?Hbuf; cbn [length]; try reflexivity; lia. }
  unfold ret. eexists. split; [reflexivity|]. fields.
  split; [exact Hlen'|]. split; [|repeat split; reflexivity].
  intros c Hc. rewrite Hcoils by exact Hc.
  rewrite Z2Nat.id, Z.add_0_r, Hbuf by lia. reflexivity.
Qed.

Lemma poll_slave_dispatch_FC15 (u8regsno i8state : Z) :
  poll_slave_dispatch u8regsno MB_FC_WRITE_MULTIPLE_COILS i8state
  = process_FC15.
Proof. reflexivity. Qed.

(** The slave's [poll] from the validation on, for a write of coils
    inside the coil area whose values are in the frame buffer. *)
Lemma poll_slave_runs_FC15 (u8regsno i8state id : Z)
    (add_hi add_lo nb_hi nb_lo cnt now : Z) (data rest : list Z)
    (m : Modbus) :
  crc_mismatch now m = Ok false m ->
  au8Buffer m
  = id :: MB_FC_WRITE_MULTIPLE_COILS :: add_hi :: add_lo :: nb_hi
    :: nb_lo :: cnt :: data ++ rest ->
  (1 <= length (data ++ rest) < 200)%nat ->
  Z.of_nat (length (rw_bitArea m)) = SIZE_RW_BITS / 16 + 1 ->
  word add_hi add_lo + word nb_hi nb_lo <= SIZE_RW_BITS ->
  word nb_hi nb_lo <= 8 * Z.of_nat (length data) ->
  exists m',
    bind validateRequest (fun u8exception =>
       if 0 <? u8exception then
         bind (if negb (u8exception =? NO_REPLY)
               then bind (buildException u8exception)
                         (fun _ => sendTxBuffer)
               else ret tt) (fun _ =>
         bind (modify (set_u8lastError u8exception)) (fun _ =>
         ret (i8 u8exception)))
       else
         bind (modify (fun m => set_u32timeOut (u32 (now + u16timeOut m)) m))
           (fun _ =>
         bind (modify (set_u8lastError 0)) (fun _ =>
         bind (load Arr_au8Buffer FUNC) (fun fct =>
         poll_slave_dispatch u8regsno fct i8state))))
      now m
    = Ok 8 m'
    /\ length (rw_bitArea m') = length (rw_bitArea m)
    /\ (forall c, 0 <= c ->
        coil (rw_bitArea m') c
        = if (word add_hi add_lo <=? c)
             && (c <? word add_hi add_lo + word nb_hi nb_lo)
          then frame_bit data (c - word add_hi add_lo)
          else coil (rw_bitArea m) c)
    /\ tx_line (port m')
       = tx_line (port m)
         ++ with_crc [id; MB_FC_WRITE_MULTIPLE_COILS; add_hi; add_lo;
                      nb_hi; nb_lo]
    /\ u8lastError m' = 0
    /\ u16errCnt m' = u16errCnt m
    /\ rw_regArea m' = rw_regArea m.
Proof.
  intros Hcrc Hbuf Htl Hbits Hadd Hdata.
  change (SIZE_RW_BITS / 16 + 1) with 2 in Hbits.
  unfold SIZE_RW_BITS in Hadd.
  pose proof (word_range add_hi add_lo) as Ha.
  pose proof (word_range nb_hi nb_lo) as Hn.
  erewrite bind_Ok.
  2:{ apply (validateRequest_accepts MB_FC_WRITE_MULTIPLE_COILS
               add_hi add_lo nb_hi nb_lo);
        [exact Hcrc | rewrite Hbuf; reflexivity | reflexivity |].
      intros [[[H|H] _]|[_ H]]; [discriminate H..|].
      unfold u16 in H. rewrite Z.mod_small in H; lia. }
  cbn [Z.ltb Z.compare]. rewrite !bind_modify.
  change FUNC with (Z.of_nat 1).
  rewrite (bind_load _ 1 MB_FC_WRITE_MULTIPLE_COILS)
    by (fields; rewrite Hbuf; reflexivity).
  rewrite poll_slave_dispatch_FC15.
  match goal with
  | |- context [process_FC15 now ?s] =>
      destruct (process_FC15_exact id MB_FC_WRITE_MULTIPLE_COILS
                  add_hi add_lo nb_hi nb_lo cnt (data ++ rest) now s)
        as (m' & Hrun & Hlen' & Hcoils & Htx & Herr & Hcnt & Hregs)
  end.
  - exact Hbuf.
  - exact Htl.
  - fields. lia.
  - fields. lia.
  - rewrite length_app. Z.div_mod_to_equations. lia.
  - exists m'. split; [exact Hrun|].
    rewrite Hlen', Htx, Herr, Hcnt, Hregs. fields.
    split; [reflexivity|]. split; [|repeat split; reflexivity].
    intros c Hc. rewrite Hcoils by exact Hc. fields.
    destruct (Z.leb_spec (word add_hi add_lo) c) as [Hlo|_];
      [|reflexivity].
    destruct (Z.ltb_spec c (word add_hi add_lo + word nb_hi nb_lo))
      as [Hhi|_]; [|reflexivity].
    cbn [andb]. unfold frame_bit.
    rewrite lookup_app_l; [reflexivity|].
    assert ((c - word add_hi add_lo) / 8 < Z.of_nat (length data))
      by (apply Z.div_lt_upper_bound; lia).
    assert (0 <= (c - word add_hi add_lo) / 8) by (apply Z.div_pos; lia).
    lia.
Qed.

(** X29: A write-multiple-coils request for this node, with a good CRC, for
    coils inside the coil area and with their values in the frame, is
    carried out: coil [start + j] takes bit [j] of the data bytes, low
    bit first, every other coil is as it was, the reply is the first six
    bytes of the request, [poll] returns 8, the last error is cleared
    and the error counter is not moved. *)
Theorem poll_slave_write_coils (u8regsno : Z) (regs : list Z) (u8size : Z)
    (add_hi add_lo nb_hi nb_lo cnt now : Z) (data : list Z) (m : Modbus) :
  let body :=
    [u8id m; MB_FC_WRITE_MULTIPLE_COILS; add_hi; add_lo; nb_hi; nb_lo; cnt]
    ++ data in
  let start := word add_hi add_lo in
  let n := word nb_hi nb_lo in
  frame_ready (with_crc body) now m ->
  Forall is_u8 body ->
  Z.of_nat (length (rw_bitArea m)) = SIZE_RW_BITS / 16 + 1 ->
  start + n <= SIZE_RW_BITS ->
  n <= 8 * Z.of_nat (length data) ->
  exists m',
    poll_slave u8regsno regs u8size now m = Ok 8 m'
    /\ length (rw_bitArea m') = length (rw_bitArea m)
    /\ (forall c, 0 <= c ->
        coil (rw_bitArea m') c
        = if (start <=? c) && (c <? start + n)
          then frame_bit data (c - start)
          else coil (rw_bitArea m) c)
    /\ tx_line (port m')
       = tx_line (port m)
         ++ with_crc [u8id m; MB_FC_WRITE_MULTIPLE_COILS; add_hi; add_lo;
                      nb_hi; nb_lo]
    /\ u8lastError m' = 0
    /\ u16errCnt m' = u16errCnt m
    /\ rw_regArea m' = rw_regArea m.
Proof.
  intros body start n Hready Hb Hbits Hadd Hdata.
  pose proof Hready as (Hlen & _ & Hfl & _). unfold MAX_BUFFER in Hlen.
  unfold with_crc, body in Hfl. rewrite !length_app in Hfl.
  cbn [length] in Hfl.
  destruct (poll_slave_validates u8regsno regs u8size
              MB_FC_WRITE_MULTIPLE_COILS
              add_hi add_lo nb_hi nb_lo (cnt :: data) now m Hready Hb)
    as (-> & Hcrc & _ & _).
  destruct (poll_slave_runs_FC15 u8regsno
              (Z.of_nat
                 (length (with_crc (u8id m :: MB_FC_WRITE_MULTIPLE_COILS
                                    :: add_hi :: add_lo :: nb_hi :: nb_lo
                                    :: cnt :: data))))
              (u8id m) add_hi add_lo nb_hi nb_lo cnt now data
              ([u8 (Z.shiftr (crc16 body) 8); Z.land (crc16 body) 0x00ff]
               ++ drop (length (with_crc body)) (au8Buffer m))
              (slave_drained regs u8size (with_crc body) m))
    as (m' & Hrun & H1 & H2 & H3 & H4 & H5 & H6).
  - exact Hcrc.
  - rewrite slave_drained_buffer. unfold with_crc, body.
    rewrite <- !app_assoc. reflexivity.
  - rewrite !length_app, length_drop. unfold with_crc, body.
    rewrite !length_app. cbn [length]. lia.
  - exact Hbits.
  - exact Hadd.
  - exact Hdata.
  - exists m'. split; [exact Hrun|].
    split; [exact H1|]. split; [exact H2|]. split; [exact H3|].
    split; [exact H4|]. split; [exact H5|exact H6].
Qed.

Lemma poll_slave_write_coils_witness :
  exists m',
    poll_slave 0 [] 0 10 slave_with_fc15_at_3 = Ok 8 m'
    /\ length (rw_bitArea m') = length (rw_bitArea slave_with_fc15_at_3)
    /\ (forall c, 0 <= c ->
        coil (rw_bitArea m') c
        = if (word 0 3 <=? c) && (c <? word 0 3 + word 0 10)
          then frame_bit [0xA5; 0x02] (c - word 0 3)
          else coil (rw_bitArea slave_with_fc15_at_3) c)
    /\ tx_line (port m')
       = tx_line (port slave_with_fc15_at_3)
         ++ with_crc [u8id slave_with_fc15_at_3; MB_FC_WRITE_MULTIPLE_COILS;
                      0; 3; 0; 10]
    /\ u8lastError m' = 0
    /\ u16errCnt m' = u16errCnt slave_with_fc15_at_3
    /\ rw_regArea m' = rw_regArea slave_with_fc15_at_3.
Proof.
  apply (poll_slave_write_coils 0 [] 0 0 3 0 10 2 10 [0xA5; 0x02]
           slave_with_fc15_at_3).
  - repeat split; try reflexivity; cbn; lia.
  - repeat (constructor; [vm_compute; split; [discriminate|reflexivity]|]).
    constructor.
  - reflexivity.
  - vm_compute. discriminate.
  - vm_compute. discriminate.
Defined.

(** ** The slave's handler of functions 1 and 2 *)

(** [bitWrite] on a byte moves the bit it is asked to and no other. *)
Lemma bitRead_bitWrite_u8 (w bit x b : Z) :
  0 <= bit < 8 -> 0 <= b < 8 ->
  bitRead (u8 (bitWrite w bit x)) b
  = if b =? bit then (if x =? 0 then 0 else 1) else bitRead w b.
Proof.
  intros Hbit Hb. rewrite !bitRead_testbit by lia.
  unfold u8. change 256 with (2 ^ 8).
  rewrite Z.mod_pow2_bits_low by lia.
  unfold bitWrite. rewrite Z.shiftl_1_l.
  destruct (x =? 0).
  - rewrite Z.land_spec, Z.lnot_spec, Z.pow2_bits_eqb by lia.
    destruct (Z.eqb_spec b bit) as [->|Hne].
    + rewrite Z.eqb_refl. cbn. now rewrite andb_false_r.
    + destruct (Z.eqb_spec bit b); [lia|]. cbn. now rewrite andb_true_r.
  - rewrite Z.lor_spec, Z.pow2_bits_eqb by lia.
    destruct (Z.eqb_spec b bit) as [->|Hne].
    + rewrite Z.eqb_refl. now rewrite orb_true_r.
    + destruct (Z.eqb_spec bit b); [lia|]. now rewrite orb_false_r.
Qed.

(** Writing bit [j0] of a sequence of bytes moves that bit and no
    other. *)
Lemma frame_bit_bitWrite (bytes : list Z) (j0 x j : Z) :
  0 <= j0 -> 0 <= j ->
  (Z.to_nat (j0 / 8) < length bytes)%nat ->
  frame_bit (<[Z.to_nat (j0 / 8) :=
                 u8 (bitWrite (default 0 (bytes !! Z.to_nat (j0 / 8)))
                       (j0 mod 8) x)]> bytes) j
  = if j =? j0 then (if x =? 0 then 0 else 1) else frame_bit bytes j.
Proof.
  intros Hj0 Hj Hlen. unfold frame_bit.
  pose proof (Z.mod_pos_bound j0 8 ltac:(lia)) as Hm0.
  pose proof (Z.mod_pos_bound j 8 ltac:(lia)) as Hm.
  destruct (Z.eq_dec (j / 8) (j0 / 8)) as [Hq|Hq].
  - rewrite Hq, list_lookup_insert_eq by exact Hlen.
    change (default 0 (Some ?v)) with v.
    rewrite bitRead_bitWrite_u8 by lia.
    destruct (Z.eqb_spec (j mod 8) (j0 mod 8)) as [Hr|Hr];
      destruct (Z.eqb_spec j j0) as [E|E]; try reflexivity.
    + exfalso. apply E.
      rewrite (Z.div_mod j 8), (Z.div_mod j0 8) by lia. congruence.
    + subst j. congruence.
  - rewrite list_lookup_insert_ne.
    2:{ intros E. apply Hq. apply Z2Nat.inj in E; [congruence| |];
          apply Z.div_pos; lia. }
    destruct (Z.eqb_spec j j0) as [E|E]; [subst; congruence|reflexivity].
Qed.

(** The loop of [process_FC1] for [n] more coils, from coil [k] of the
    request: the bits of the reply from bit [k] on are the coils, the
    bits before them and the three bytes of the header are as they
    were. *)
Lemma read_coils_loop_exact (n : nat) :
  forall (s k now : Z) (m : Modbus),
    0 <= s -> 0 <= k ->
    u8BufferSize m = 3 + k / 8 ->
    s + k + Z.of_nat n <= 16 * Z.of_nat (length (rw_bitArea m)) ->
    Z.of_nat (length (rw_bitArea m)) < 256 ->
    3 + (k + Z.of_nat n + 7) / 8 <= Z.of_nat (length (au8Buffer m)) ->
    Z.of_nat (length (au8Buffer m)) < 256 ->
    exists buf',
      read_coils_loop Arr_rw_bitArea n s k (k mod 8) now m
      = Ok tt (set_u8BufferSize (3 + (k + Z.of_nat n) / 8)
                 (set_au8Buffer buf' m))
      /\ length buf' = length (au8Buffer m)
      /\ take 3 buf' = take 3 (au8Buffer m)
      /\ forall j, 0 <= j ->
           frame_bit (drop 3 buf') j
           = if (k <=? j) && (j <? k + Z.of_nat n)
             then coil (rw_bitArea m) (s + j)
             else frame_bit (drop 3 (au8Buffer m)) j.
Proof.
  induction n as [|n IH]; intros s k now m Hs Hk Hsize Harea Hsmall Hbuf Hbig.
  - exists (au8Buffer m). cbn [read_coils_loop]. unfold ret.
    change (Z.of_nat 0) with 0. rewrite Z.add_0_r, <- Hsize, set_buffer_same.
    repeat split. intros j Hj.
    destruct (Z.leb_spec k j); destruct (Z.ltb_spec j k);
      try reflexivity; lia.
  - cbn [read_coils_loop]. cbv zeta.
    assert (0 <= k mod 8 < 8) as Hr by (apply Z.mod_pos_bound; lia).
    assert (0 <= k / 8) as Hq by (apply Z.div_pos; lia).
    assert (0 <= (s + k) / 16 < Z.of_nat (length (rw_bitArea m))) as Hw.
    { split; [apply Z.div_pos; lia|].
      apply Z.div_lt_upper_bound; lia. }
    assert (0 <= (s + k) mod 16 < 16) as Hbit
      by (apply Z.mod_pos_bound; lia).
    assert (3 + k / 8 < Z.of_nat (length (au8Buffer m))) as Hfb.
    { assert (k / 8 < (k + Z.of_nat (S n) + 7) / 8); [|lia].
      Z.div_mod_to_equations. lia. }
    assert (u16 (s + k) = s + k) as Eu
      by (unfold u16; apply Z.mod_small; lia).
    assert (u8 ((s + k) / 16) = (s + k) / 16) as Ew
      by (apply u8_small; lia).
    assert (u8 ((s + k) mod 16) = (s + k) mod 16) as Eb
      by (apply u8_small; lia).
    rewrite Eu, Ew.
    rewrite bind_load_Z by (cbn [field]; lia).
    rewrite bind_get, Hsize.
    rewrite bind_load_Z by (cbn [field]; lia).
    rewrite Eb.
    rewrite bind_store_Z by (cbn [field]; lia).
    cbn [field set_field].
    rewrite (u8_small (k mod 8 + 1)) by lia.
    fold (coil (rw_bitArea m) (s + k)).
    set (buf1 := <[Z.to_nat (3 + k / 8) :=
                     u8 (bitWrite
                           (default 0 (au8Buffer m !! Z.to_nat (3 + k / 8)))
                           (k mod 8) (coil (rw_bitArea m) (s + k)))]>
                   (au8Buffer m)).
    assert (length buf1 = length (au8Buffer m)) as Hlen1
      by (unfold buf1; now rewrite length_insert).
    assert (take 3 buf1 = take 3 (au8Buffer m)) as Htake1
      by (unfold buf1; rewrite take_insert_ge by lia; reflexivity).
    assert (forall j, 0 <= j ->
              frame_bit (drop 3 buf1) j
              = if j =? k then coil (rw_bitArea m) (s + k)
                else frame_bit (drop 3 (au8Buffer m)) j) as Hstep.
    { intros j Hj. unfold buf1. rewrite drop_insert_ge by lia.
      replace (Z.to_nat (3 + k / 8) - 3)%nat with (Z.to_nat (k / 8)) by lia.
      replace (au8Buffer m !! Z.to_nat (3 + k / 8))
        with (drop 3 (au8Buffer m) !! Z.to_nat (k / 8)).
      2:{ rewrite lookup_drop. f_equal. lia. }
      rewrite frame_bit_bitWrite by (rewrite ?length_drop; lia).
      destruct (j =? k); [|reflexivity].
      unfold coil.
      destruct (bitRead_01
                  (default 0 (rw_bitArea m !! Z.to_nat ((s + k) / 16)))
                  ((s + k) mod 16)) as [E|E]; now rewrite E. }
    assert (exists buf',
              read_coils_loop Arr_rw_bitArea n s (k + 1) ((k + 1) mod 8) now
                (set_u8BufferSize (3 + (k + 1) / 8) (set_au8Buffer buf1 m))
              = Ok tt
                  (set_u8BufferSize (3 + (k + 1 + Z.of_nat n) / 8)
                     (set_au8Buffer buf'
                        (set_u8BufferSize (3 + (k + 1) / 8)
                           (set_au8Buffer buf1 m))))
              /\ length buf' = length buf1
              /\ take 3 buf' = take 3 buf1
              /\ forall j, 0 <= j ->
                   frame_bit (drop 3 buf') j
                   = if (k + 1 <=? j) && (j <? k + 1 + Z.of_nat n)
                     then coil (rw_bitArea m) (s + j)
                     else frame_bit (drop 3 buf1) j)
      as (buf' & Hrun & Hlen' & Htake' & Hbits).
    { apply (IH s (k + 1) now
               (set_u8BufferSize (3 + (k + 1) / 8) (set_au8Buffer buf1 m)));
        fields; rewrite ?Hlen1; try lia.
      replace (k + 1 + Z.of_nat n + 7) with (k + Z.of_nat (S n) + 7) by lia.
      exact Hbuf. }
    rewrite set_buffer_twice in Hrun.
    replace (k + 1 + Z.of_nat n) with (k + Z.of_nat (S n)) in Hrun by lia.
    exists buf'. split; [|split; [|split]].
    + destruct (Z.ltb_spec 7 (k mod 8 + 1)) as [Hwrap|Hnowrap].
      * unfold incr_u8BufferSize. rewrite bind_modify. fields. rewrite Hsize.
        replace 0 with ((k + 1) mod 8) at 1
          by (Z.div_mod_to_equations; lia).
        replace (u8 (3 + k / 8 + 1)) with (3 + (k + 1) / 8).
        2:{ rewrite u8_small by lia. Z.div_mod_to_equations. lia. }
        exact Hrun.
      * replace (k mod 8 + 1) with ((k + 1) mod 8)
          by (Z.div_mod_to_equations; lia).
        replace (set_au8Buffer buf1 m)
          with (set_u8BufferSize (3 + (k + 1) / 8) (set_au8Buffer buf1 m)).
        { exact Hrun. }
        replace (3 + (k + 1) / 8) with (u8BufferSize (set_au8Buffer buf1 m)).
        { now destruct m. }
        fields. rewrite Hsize. Z.div_mod_to_equations. lia.
    + now rewrite Hlen'.
    + now rewrite Htake'.
    + intros j Hj. rewrite Hbits, Hstep by exact Hj.
      destruct (Z.leb_spec (k + 1) j);
        destruct (Z.ltb_spec j (k + 1 + Z.of_nat n));
        destruct (Z.leb_spec k j);
        destruct (Z.ltb_spec j (k + Z.of_nat (S n)));
        destruct (Z.eqb_spec j k);
        cbn [andb]; try reflexivity; try lia.
      now subst j.
Qed.

(** [process_FC1] on a frame buffer that starts with the six header
    bytes, for coils inside the coil area. *)
Lemma process_FC1_exact (b0 b1 add_hi add_lo nb_hi nb_lo : Z) (tl : list Z)
    (now : Z) (m : Modbus) :
  au8Buffer m = b0 :: b1 :: add_hi :: add_lo :: nb_hi :: nb_lo :: tl ->
  (2 <= length tl < 100)%nat ->
  word add_hi add_lo + word nb_hi nb_lo
  <= 16 * Z.of_nat (length (rw_bitArea m)) ->
  Z.of_nat (length (rw_bitArea m)) < 256 ->
  (word nb_hi nb_lo + 7) / 8 < Z.of_nat (length tl) ->
  exists m' payload,
    process_FC1 now m = Ok (5 + (word nb_hi nb_lo + 7) / 8) m'
    /\ Z.of_nat (length payload) = (word nb_hi nb_lo + 7) / 8
    /\ (forall j, 0 <= j < word nb_hi nb_lo ->
        frame_bit payload j = coil (rw_bitArea m) (word add_hi add_lo + j))
    /\ tx_line (port m')
       = tx_line (port m)
         ++ with_crc ([b0; b1; (word nb_hi nb_lo + 7) / 8] ++ payload)
    /\ rw_bitArea m' = rw_bitArea m
    /\ u8lastError m' = u8lastError m
    /\ u16errCnt m' = u16errCnt m
    /\ rw_regArea m' = rw_regArea m.
Proof.
  intros Hbuf Htl Hadd Hsmall Hpay.
  pose proof (word_range add_hi add_lo) as Ha.
  pose proof (word_range nb_hi nb_lo) as Hn.
  set (s := word add_hi add_lo) in *. set (n := word nb_hi nb_lo) in *.
  assert (0 <= n / 8) as Hq by (apply Z.div_pos; lia).
  assert (0 <= n mod 8 < 8) as Hr by (apply Z.mod_pos_bound; lia).
  assert (0 <= (n + 7) / 8) as Hb by (apply Z.div_pos; lia).
  assert ((if negb (n mod 8 =? 0) then u8 (u8 (n / 8) + 1) else u8 (n / 8))
          = (n + 7) / 8) as Hbytes.
  { rewrite (u8_small (n / 8)) by (Z.div_mod_to_equations; lia).
    destruct (Z.eqb_spec (n mod 8) 0); cbn [negb];
      rewrite ?u8_small by (Z.div_mod_to_equations; lia);
      Z.div_mod_to_equations; lia. }
  unfold process_FC1, process_read_coils.
  change ADD_HI with (Z.of_nat 2). change ADD_LO with (Z.of_nat 3).
  change NB_HI with (Z.of_nat 4). change NB_LO with (Z.of_nat 5).
  rewrite (bind_load _ 2 add_hi) by (cbn [field]; now rewrite Hbuf).
  rewrite (bind_load _ 3 add_lo) by (cbn [field]; now rewrite Hbuf).
  rewrite (bind_load _ 4 nb_hi) by (cbn [field]; now rewrite Hbuf).
  rewrite (bind_load _ 5 nb_lo) by (cbn [field]; now rewrite Hbuf).
  cbv zeta. fold s n. rewrite Hbytes.
  rewrite bind_store by (cbn [field]; rewrite Hbuf; cbn [length]; lia).
  rewrite bind_modify. fields. rewrite Hbuf. cbn [list_insert insert].
  set (m1 := set_u8BufferSize (Z.of_nat 3)
               (set_au8Buffer
                  (b0 :: b1 :: (n + 7) / 8 :: add_lo :: nb_hi :: nb_lo :: tl)
                  m)).
  destruct (read_coils_loop_exact (Z.to_nat n) s 0 now m1)
    as (buf' & Hloop & Hlen' & Htake' & Hbits);
    unfold m1; fields; rewrite ?Z2Nat.id by lia;
    cbn [length]; try lia; try reflexivity.
  { replace (Z.of_nat (S (S (S (S (S (S (length tl))))))))
      with (6 + Z.of_nat (length tl)) by lia.
    Z.div_mod_to_equations. lia. }
  fold m1 in Hloop. change (0 mod 8) with 0 in Hloop.
  rewrite Z.add_0_l, Z2Nat.id in Hloop by lia.
  change (au8Buffer m1)
    with (b0 :: b1 :: (n + 7) / 8 :: add_lo :: nb_hi :: nb_lo :: tl)
    in Hlen', Htake', Hbits.
  change (rw_bitArea m1) with (rw_bitArea m) in Hbits.
  cbn [take] in Htake'. cbn [length] in Hlen'.
  erewrite bind_Ok by exact Hloop.
  assert (bind (if negb (n mod 8 =? 0) then incr_u8BufferSize else ret tt)
            (fun _ =>
               bind (get u8BufferSize) (fun size =>
               bind sendTxBuffer (fun _ => ret (i8 (u8 (size + 2))))))
            now (set_u8BufferSize (3 + n / 8) (set_au8Buffer buf' m1))
          = bind sendTxBuffer (fun _ => ret (5 + (n + 7) / 8)) now
              (set_u8BufferSize (3 + (n + 7) / 8) (set_au8Buffer buf' m)))
    as ->.
  { assert (i8 (u8 (3 + (n + 7) / 8 + 2)) = 5 + (n + 7) / 8) as Hret.
    { rewrite u8_small, i8_small; lia. }
    destruct (Z.eqb_spec (n mod 8) 0) as [E|E]; cbn [negb].
    - rewrite bind_ret, bind_get. fields.
      replace (3 + n / 8) with (3 + (n + 7) / 8)
        by (Z.div_mod_to_equations; lia).
      now rewrite Hret.
    - unfold incr_u8BufferSize. rewrite bind_modify, bind_get. fields.
      replace (u8 (3 + n / 8 + 1)) with (3 + (n + 7) / 8).
      2:{ rewrite u8_small; Z.div_mod_to_equations; lia. }
      now rewrite Hret. }
  set (N := Z.to_nat (3 + (n + 7) / 8)).
  assert (length (take N buf') = N) as HlN
    by (rewrite length_take, Nat.min_l;
        [reflexivity | rewrite Hlen'; unfold N; lia]).
  erewrite bind_Ok.
  2:{ apply (sendTxBuffer_exact (take N buf')); fields;
        rewrite ?HlN; unfold N; try lia; reflexivity. }
  unfold ret. eexists. exists (take (Z.to_nat ((n + 7) / 8)) (drop 3 buf')).
  split; [reflexivity|]. fields.
  split.
  { rewrite length_take, Nat.min_l; [lia|].
    rewrite length_drop, Hlen'. lia. }
  split.
  { intros j Hj. unfold frame_bit at 1.
    assert (0 <= j / 8 < (n + 7) / 8) as Hjq
      by (Z.div_mod_to_equations; lia).
    rewrite lookup_take_lt by lia.
    fold (frame_bit (drop 3 buf') j). rewrite Hbits by lia.
    destruct (Z.leb_spec 0 j); [|lia].
    destruct (Z.ltb_spec j (0 + Z.of_nat (Z.to_nat n))); [reflexivity|lia]. }
  split; [|repeat split; reflexivity].
  do 2 f_equal. rewrite <- (take_drop 3 buf') at 1.
  unfold N. replace (Z.to_nat (3 + (n + 7) / 8))
    with (3 + Z.to_nat ((n + 7) / 8))%nat by lia.
  rewrite take_app_add' by (rewrite length_take; lia).
  now rewrite Htake'.
Qed.

Lemma poll_slave_dispatch_FC1 (u8regsno fct i8state : Z) :
  fct = MB_FC_READ_COILS \/ fct = MB_FC_READ_DISCRETE_INPUT ->
  poll_slave_dispatch u8regsno fct i8state = process_FC1.
Proof. intros [->| ->]; reflexivity. Qed.

(** The slave's [poll] from the validation on, for a read of coils
    inside the coil area. *)
Lemma poll_slave_runs_FC1 (u8regsno i8state id fct : Z)
    (add_hi add_lo nb_hi nb_lo now : Z) (tl : list Z) (m : Modbus) :
  crc_mismatch now m = Ok false m ->
  au8Buffer m = id :: fct :: add_hi :: add_lo :: nb_hi :: nb_lo :: tl ->
  fct = MB_FC_READ_COILS \/ fct = MB_FC_READ_DISCRETE_INPUT ->
  (3 <= length tl < 100)%nat ->
  Z.of_nat (length (rw_bitArea m)) = SIZE_RW_BITS / 16 + 1 ->
  word add_hi add_lo + word nb_hi nb_lo <= SIZE_RW_BITS ->
  exists m' payload,
    bind validateRequest (fun u8exception =>
       if 0 <? u8exception then
         bind (if negb (u8exception =? NO_REPLY)
               then bind (buildException u8exception)
                         (fun _ => sendTxBuffer)
               else ret tt) (fun _ =>
         bind (modify (set_u8lastError u8exception)) (fun _ =>
         ret (i8 u8exception)))
       else
         bind (modify (fun m => set_u32timeOut (u32 (now + u16timeOut m)) m))
           (fun _ =>
         bind (modify (set_u8lastError 0)) (fun _ =>
         bind (load Arr_au8Buffer FUNC) (fun fct =>
         poll_slave_dispatch u8regsno fct i8state))))
      now m
    = Ok (5 + (word nb_hi nb_lo + 7) / 8) m'
    /\ Z.of_nat (length payload) = (word nb_hi nb_lo + 7) / 8
    /\ (forall j, 0 <= j < word nb_hi nb_lo ->
        frame_bit payload j = coil (rw_bitArea m) (word add_hi add_lo + j))
    /\ tx_line (port m')
       = tx_line (port m)
         ++ with_crc ([id; fct; (word nb_hi nb_lo + 7) / 8] ++ payload)
    /\ rw_bitArea m' = rw_bitArea m
    /\ u8lastError m' = 0
    /\ u16errCnt m' = u16errCnt m.
Proof.
  intros Hcrc Hbuf Hfct Htl Hbits Hadd.
  change (SIZE_RW_BITS / 16 + 1) with 2 in Hbits.
  unfold SIZE_RW_BITS in Hadd.
  pose proof (word_range add_hi add_lo) as Ha.
  pose proof (word_range nb_hi nb_lo) as Hn.
  erewrite bind_Ok.
  2:{ apply (validateRequest_accepts fct add_hi add_lo nb_hi nb_lo);
        [exact Hcrc | rewrite Hbuf; reflexivity
        | destruct Hfct as [->| ->]; reflexivity |].
      intros [[[H|H] _]|[_ H]];
        [destruct Hfct as [->| ->]; discriminate H..|].
      unfold u16 in H. rewrite Z.mod_small in H; lia. }
  cbn [Z.ltb Z.compare]. rewrite !bind_modify.
  change FUNC with (Z.of_nat 1).
  rewrite (bind_load _ 1 fct) by (fields; rewrite Hbuf; reflexivity).
  rewrite poll_slave_dispatch_FC1 by exact Hfct.
  match goal with
  | |- context [process_FC1 now ?s] =>
      destruct (process_FC1_exact id fct add_hi add_lo nb_hi nb_lo tl now s)
        as (m' & payload & Hrun & Hlen' & Hcoils & Htx & Harea & Herr
            & Hcnt & _)
  end.
  - exact Hbuf.
  - lia.
  - fields. lia.
  - fields. lia.
  - assert ((word nb_hi nb_lo + 7) / 8 <= 2)
      by (Z.div_mod_to_equations; lia).
    lia.
  - exists m', payload. split; [exact Hrun|].
    rewrite Htx, Harea, Herr, Hcnt. fields.
    split; [exact Hlen'|]. split; [exact Hcoils|].
    repeat split; reflexivity.
Qed.

(** X30: A read of coils or of discrete inputs (function 1 or 2) for this
    node, with a good CRC, for coils inside the coil area, is answered
    from the coil area: the reply is the node address, the function
    code, the number of data bytes and the data bytes, in which bit [j],
    low bit of each byte first, is coil [start + j].  [poll] returns the
    length of the reply, the coil area is as it was, the last error is
    cleared and the error counter is not moved. *)
Theorem poll_slave_read_coils (u8regsno : Z) (regs : list Z) (u8size : Z)
    (fct add_hi add_lo nb_hi nb_lo now : Z) (m : Modbus) :
  let body := [u8id m; fct; add_hi; add_lo; nb_hi; nb_lo] in
  let start := word add_hi add_lo in
  let n := word nb_hi nb_lo in
  frame_ready (with_crc body) now m ->
  Forall is_u8 body ->
  fct = MB_FC_READ_COILS \/ fct = MB_FC_READ_DISCRETE_INPUT ->
  Z.of_nat (length (rw_bitArea m)) = SIZE_RW_BITS / 16 + 1 ->
  start + n <= SIZE_RW_BITS ->
  exists m' payload,
    poll_slave u8regsno regs u8size now m = Ok (5 + (n + 7) / 8) m'
    /\ Z.of_nat (length payload) = (n + 7) / 8
    /\ (forall j, 0 <= j < n ->
        frame_bit payload j = coil (rw_bitArea m) (start + j))
    /\ tx_line (port m')
       = tx_line (port m) ++ with_crc ([u8id m; fct; (n + 7) / 8] ++ payload)
    /\ rw_bitArea m' = rw_bitArea m
    /\ u8lastError m' = 0
    /\ u16errCnt m' = u16errCnt m.
Proof.
  intros body start n Hready Hb Hfct Hbits Hadd.
  pose proof Hready as (Hlen & _ & Hfl & _). unfold MAX_BUFFER in Hlen.
  destruct (poll_slave_validates u8regsno regs u8size fct
              add_hi add_lo nb_hi nb_lo [] now m Hready Hb)
    as (-> & Hcrc & _ & _).
  destruct (poll_slave_runs_FC1 u8regsno
              (Z.of_nat (length (with_crc body)))
              (u8id m) fct add_hi add_lo nb_hi nb_lo now
              ([u8 (Z.shiftr (crc16 body) 8); Z.land (crc16 body) 0x00ff]
               ++ drop (length (with_crc body)) (au8Buffer m))
              (slave_drained regs u8size (with_crc body) m))
    as (m' & payload & Hrun & H1 & H2 & H3 & H4 & H5 & H6).
  - exact Hcrc.
  - reflexivity.
  - exact Hfct.
  - rewrite length_app, length_drop. unfold with_crc, body.
    rewrite length_app. cbn [length]. lia.
  - exact Hbits.
  - exact Hadd.
  - exists m', payload. split; [exact Hrun|].
    split; [exact H1|]. split; [exact H2|]. split; [exact H3|].
    split; [exact H4|]. split; [exact H5|exact H6].
Qed.

Lemma poll_slave_read_coils_witness :
  exists m' payload,
    poll_slave 0 [] 0 10 slave_with_fc1_at_3
    = Ok (5 + (word 0 10 + 7) / 8) m'
    /\ Z.of_nat (length payload) = (word 0 10 + 7) / 8
    /\ (forall j, 0 <= j < word 0 10 ->
        frame_bit payload j
        = coil (rw_bitArea slave_with_fc1_at_3) (word 0 3 + j))
    /\ tx_line (port m')
       = tx_line (port slave_with_fc1_at_3)
         ++ with_crc ([u8id slave_with_fc1_at_3; 1; (word 0 10 + 7) / 8]
                      ++ payload)
    /\ rw_bitArea m' = rw_bitArea slave_with_fc1_at_3
    /\ u8lastError m' = 0
    /\ u16errCnt m' = u16errCnt slave_with_fc1_at_3.
Proof.
  apply (poll_slave_read_coils 0 [] 0 1 0 3 0 10 10 slave_with_fc1_at_3).
  - repeat split; try reflexivity; cbn; lia.
  - repeat (constructor; [vm_compute; split; [discriminate|reflexivity]|]).
    constructor.
  - left. reflexivity.
  - reflexivity.
  - vm_compute. discriminate.
Defined.

(** * The deadlines, on the engines *)

Lemma u16_succ_ne (x : Z) : u16 (x + 1) <> x.
Proof. unfold u16. Z.div_mod_to_equations. lia. Qed.

(** The comparisons of two readings of the 32-bit counter that lie in
    the same period of the counter are those of the readings. *)
Lemma u32_lt_same_period (a b : Z) :
  0 <= a -> 0 <= b -> a / 4294967296 = b / 4294967296 ->
  (u32 a <? u32 b) = (a <? b).
Proof.
  intros Ha Hb Hp. unfold u32.
  destruct (Z.ltb_spec (a mod 4294967296) (b mod 4294967296));
    destruct (Z.ltb_spec a b); try reflexivity;
    Z.div_mod_to_equations; lia.
Qed.

Lemma kept_getRxBuffer_loop (rx : list Z) :
  forall b, kept u16InCnt (getRxBuffer_loop rx b).
Proof.
  induction rx as [|x rx IH]; intros b; cbn [getRxBuffer_loop].
  - apply kept_ret.
  - repeat kept_step. apply IH.
Qed.

(** [getRxBuffer] counts the message, whatever it returns. *)
Lemma getRxBuffer_counts (now : Z) (m : Modbus) :
  post getRxBuffer now m (fun _ m' => u16InCnt m' = u16 (u16InCnt m + 1)).
Proof.
  unfold post. intros r m'. unfold getRxBuffer.
  rewrite bind_modify. cbv beta. rewrite bind_get. fields. intros H.
  apply bind_inv in H as (b & m1 & Hloop & H).
  apply kept_getRxBuffer_loop in Hloop. cbn in Hloop.
  revert H. rewrite bind_modify. cbv beta.
  destruct b.
  - unfold incr_u16errCnt. rewrite bind_modify. unfold ret.
    intros [= _ <-]. cbn. now rewrite Hloop.
  - rewrite bind_get. unfold ret. intros [= _ <-]. cbn. now rewrite Hloop.
Qed.

Lemma kept_get_FC3_loop (n : nat) :
  forall i b, kept u16InCnt (get_FC3_loop n i b).
Proof.
  induction n as [|n IH]; intros i b; cbn [get_FC3_loop].
  - apply kept_ret.
  - repeat kept_step. apply IH.
Qed.

Lemma kept_read_coils_loop (bits : Array) (n : nat) :
  forall s k b, kept u16InCnt (read_coils_loop bits n s k b).
Proof.
  induction n as [|n IH]; intros s k b; cbn [read_coils_loop]; cbv zeta.
  - apply kept_ret.
  - repeat kept_step; apply IH.
Qed.

Lemma kept_process_FC15_loop (n : nat) :
  forall s k b fb, kept u16InCnt (process_FC15_loop n s k b fb).
Proof.
  induction n as [|n IH]; intros s k b fb; cbn [process_FC15_loop];
    cbv zeta.
  - apply kept_ret.
  - repeat kept_step; apply IH.
Qed.

(** The steps of a proof that what follows [getRxBuffer] in a poll keeps
    the message counter. *)
Ltac keeps_InCnt :=
  repeat first
    [ kept_step
    | apply kept_get_FC3_loop
    | apply kept_read_coils_loop
    | apply kept_process_FC15_loop
    | progress cbv zeta
    | progress unfold validateAnswer, validateRequest, crc_mismatch,
        buildException, sendTxBuffer, poll_dispatch, get_FC1, get_FC3,
        poll_slave_dispatch, process_FC1, process_FC3, process_FC5,
        process_FC6, process_FC15, process_FC16, process_read_coils,
        process_read_regs, read_regs_body, process_FC16_body ].

(** The master's [poll] on bytes it has counted, once the silence test
    lets it through: it takes the frame. *)
Lemma poll_takes (frame : list Z) (now : Z) (m : Modbus) :
  frame_noted frame m ->
  now <= u32timeOut m ->
  still_receiving now (u32time m) = false ->
  post poll now m (fun _ m' => u16InCnt m' = u16 (u16InCnt m + 1)).
Proof.
  intros (Hrx & Hn & Hlast) Hwd Hstill r m'. unfold poll, available.
  rewrite bind_get, bind_millis, bind_get.
  rewrite Hrx, (u8_small (Z.of_nat (length frame))) by lia.
  assert (watchdog_fired now (u32timeOut m) = false) as ->
    by (apply Z.ltb_ge; exact Hwd).
  destruct (Z.eqb_spec (Z.of_nat (length frame)) 0) as [H0|_]; [lia|].
  rewrite bind_get, Hlast, Z.eqb_refl. cbn [negb].
  rewrite bind_get, Hstill, bind_modify. intros H.
  apply bind_inv in H as (i8state & m1 & Hget & Hrest).
  apply getRxBuffer_counts in Hget. cbn in Hget. cbv beta in Hrest.
  match type of Hrest with
  | ?c now m1 = _ =>
      assert (kept u16InCnt c) as Hk by keeps_InCnt;
      rewrite (Hk _ _ _ _ Hrest)
  end.
  exact Hget.
Qed.

(** The master's [poll] on bytes it has counted, while the silence test
    holds it back. *)
Lemma poll_holds_back (frame : list Z) (now : Z) (m : Modbus) :
  frame_noted frame m ->
  now <= u32timeOut m ->
  still_receiving now (u32time m) = true ->
  poll now m = Ok 0 m.
Proof.
  intros (Hrx & Hn & Hlast) Hwd Hstill. unfold poll, available.
  rewrite bind_get, bind_millis, bind_get.
  rewrite Hrx, (u8_small (Z.of_nat (length frame))) by lia.
  assert (watchdog_fired now (u32timeOut m) = false) as ->
    by (apply Z.ltb_ge; exact Hwd).
  destruct (Z.eqb_spec (Z.of_nat (length frame)) 0) as [H0|_]; [lia|].
  rewrite bind_get, Hlast, Z.eqb_refl. cbn [negb].
  now rewrite bind_get, Hstill.
Qed.

(** The master's [poll] with nothing at the port, before the watchdog
    deadline. *)
Lemma poll_idle_line (now : Z) (m : Modbus) :
  rx_queue (port m) = [] ->
  watchdog_fired now (u32timeOut m) = false ->
  poll now m = Ok 0 m.
Proof.
  intros Hrx Hwd. unfold poll, available.
  now rewrite bind_get, bind_millis, bind_get, Hrx, Hwd.
Qed.

(** The slave's [poll] on bytes it has counted, once the silence test
    lets it through: it takes the frame. *)
Lemma poll_slave_takes (u8regsno : Z) (regs : list Z) (u8size : Z)
    (frame : list Z) (now : Z) (m : Modbus) :
  frame_noted frame m ->
  still_receiving now (u32time m) = false ->
  post (poll_slave u8regsno regs u8size) now m
    (fun _ m' => u16InCnt m' = u16 (u16InCnt m + 1)).
Proof.
  intros (Hrx & Hn & Hlast) Hstill r m'. unfold poll_slave.
  rewrite !bind_modify. unfold available. rewrite bind_get. fields.
  rewrite Hrx, (u8_small (Z.of_nat (length frame))) by lia.
  destruct (Z.eqb_spec (Z.of_nat (length frame)) 0) as [H0|_]; [lia|].
  rewrite bind_get, bind_millis. fields. rewrite Hlast, Z.eqb_refl.
  cbn [negb]. rewrite bind_get. fields. rewrite Hstill, bind_modify.
  intros H.
  apply bind_inv in H as (i8state & m1 & Hget & Hrest).
  apply getRxBuffer_counts in Hget. cbn in Hget. cbv beta in Hrest.
  match type of Hrest with
  | ?c now m1 = _ =>
      assert (kept u16InCnt c) as Hk by keeps_InCnt;
      rewrite (Hk _ _ _ _ Hrest)
  end.
  exact Hget.
Qed.

(** The slave's [poll] on bytes it has counted, while the silence test
    holds it back. *)
Lemma poll_slave_holds_back (u8regsno : Z) (regs : list Z) (u8size : Z)
    (frame : list Z) (now : Z) (m : Modbus) :
  frame_noted frame m ->
  still_receiving now (u32time m) = true ->
  poll_slave u8regsno regs u8size now m
  = Ok 0 (set_u8regsize u8size (set_au16regs regs m)).
Proof.
  intros (Hrx & Hn & Hlast) Hstill. unfold poll_slave.
  rewrite !bind_modify. unfold available. rewrite bind_get. fields.
  rewrite Hrx, (u8_small (Z.of_nat (length frame))) by lia.
  destruct (Z.eqb_spec (Z.of_nat (length frame)) 0) as [H0|_]; [lia|].
  rewrite bind_get, bind_millis. fields. rewrite Hlast, Z.eqb_refl.
  cbn [negb]. rewrite bind_get. fields. now rewrite Hstill.
Qed.

(** C9, as the code has it: every deadline test of the engines compares
    the 32-bit clock with the stored deadline directly.  For a deadline
    armed as [t0 + timeout] and tested when the clock reads
    [t0 + elapsed], both modulo [2^32], the decision is that of the
    elapsed time whenever the deadline and the clock lie in the same
    period of the counter: neither has wrapped since the arming, or both
    have.  The watchdog: [getTimeOutState] answers whether the time-out
    is over, the master's [poll] gives the reply up when it is over, and
    does nothing on an idle line when it is not.  The silence: on bytes
    that a poll has counted, the master's [poll], before its watchdog
    deadline, and the slave's [poll] do nothing while the silence lasts,
    and take the frame, counting the message, once it is over. *)
Theorem deadline_same_period (t0 timeout elapsed : Z) (frame : list Z)
    (u8regsno : Z) (regs : list Z) (u8size : Z) (m : Modbus) :
  0 <= t0 -> 0 <= timeout -> 0 <= elapsed ->
  (t0 + timeout) / 4294967296 = (t0 + elapsed) / 4294967296 ->
  let now := u32 (t0 + elapsed) in
  let deadline := u32 (t0 + timeout) in
  (u32timeOut m = deadline ->
   getTimeOutState now m = Ok (timeout <? elapsed) m
   /\ (timeout < elapsed -> poll now m = Ok 0 (gave_up m))
   /\ (elapsed <= timeout -> rx_queue (port m) = [] -> poll now m = Ok 0 m))
  /\ (u32time m = deadline -> frame_noted frame m ->
      (now <= u32timeOut m ->
       (elapsed < timeout -> poll now m = Ok 0 m)
       /\ (timeout <= elapsed ->
           poll now m <> Ok 0 m
           /\ post poll now m
                (fun _ m' => u16InCnt m' = u16 (u16InCnt m + 1))))
      /\ (elapsed < timeout ->
          poll_slave u8regsno regs u8size now m
          = Ok 0 (set_u8regsize u8size (set_au16regs regs m)))
      /\ (timeout <= elapsed ->
          poll_slave u8regsno regs u8size now m
          <> Ok 0 (set_u8regsize u8size (set_au16regs regs m))
          /\ post (poll_slave u8regsno regs u8size) now m
               (fun _ m' => u16InCnt m' = u16 (u16InCnt m + 1)))).
Proof.
  intros H0 Ht He Hp now deadline.
  assert (watchdog_fired now deadline = (timeout <? elapsed)) as Hw.
  { unfold watchdog_fired, now, deadline.
    rewrite u32_lt_same_period by (try lia; exact Hp).
    destruct (Z.ltb_spec (t0 + timeout) (t0 + elapsed));
      destruct (Z.ltb_spec timeout elapsed); trivial; lia. }
  assert (still_receiving now deadline = (elapsed <? timeout)) as Hs.
  { unfold still_receiving, now, deadline.
    rewrite u32_lt_same_period by (try lia; symmetry; exact Hp).
    destruct (Z.ltb_spec (t0 + elapsed) (t0 + timeout));
      destruct (Z.ltb_spec elapsed timeout); trivial; lia. }
  split.
  - intros Hd. rewrite <- Hd in Hw. split; [|split].
    + unfold getTimeOutState. rewrite bind_millis, bind_get, Hw.
      reflexivity.
    + intros Hover. apply poll_watchdog_fired. rewrite Hw.
      now apply Z.ltb_lt.
    + intros Hnot Hrx. apply poll_idle_line; [exact Hrx|]. rewrite Hw.
      apply Z.ltb_ge. exact Hnot.
  - intros Hd Hnoted. rewrite <- Hd in Hs. split; [|split].
    + intros Hwd. split.
      * intros Hlasts. apply (poll_holds_back frame); try assumption.
        rewrite Hs. now apply Z.ltb_lt.
      * intros Hover.
        assert (post poll now m
                  (fun _ m' => u16InCnt m' = u16 (u16InCnt m + 1))) as Hpost.
        { apply (poll_takes frame); try assumption.
          rewrite Hs. apply Z.ltb_ge. exact Hover. }
        split; [|exact Hpost].
        intros E. apply Hpost in E. symmetry in E.
        exact (u16_succ_ne _ E).
    + intros Hlasts. apply (poll_slave_holds_back _ _ _ frame);
        try assumption.
      rewrite Hs. now apply Z.ltb_lt.
    + intros Hover.
      assert (post (poll_slave u8regsno regs u8size) now m
                (fun _ m' => u16InCnt m' = u16 (u16InCnt m + 1))) as Hpost.
      { apply (poll_slave_takes _ _ _ frame); try assumption.
        rewrite Hs. apply Z.ltb_ge. exact Hover. }
      split; [|exact Hpost].
      intros E. apply Hpost in E. cbn in E. symmetry in E.
      exact (u16_succ_ne _ E).
Qed.

Lemma deadline_same_period_witness :
  (u32timeOut master_past_the_wrap = u32 (4294967286 + 1000) ->
   getTimeOutState (u32 (4294967286 + 100)) master_past_the_wrap
   = Ok (1000 <? 100) master_past_the_wrap
   /\ (1000 < 100 ->
       poll (u32 (4294967286 + 100)) master_past_the_wrap
       = Ok 0 (gave_up master_past_the_wrap))
   /\ (100 <= 1000 -> rx_queue (port master_past_the_wrap) = [] ->
       poll (u32 (4294967286 + 100)) master_past_the_wrap
       = Ok 0 master_past_the_wrap))
  /\ (u32time master_past_the_wrap = u32 (4294967286 + 1000) ->
      frame_noted [1; 2; 3] master_past_the_wrap ->
      (u32 (4294967286 + 100) <= u32timeOut master_past_the_wrap ->
       (100 < 1000 ->
        poll (u32 (4294967286 + 100)) master_past_the_wrap
        = Ok 0 master_past_the_wrap)
       /\ (1000 <= 100 ->
           poll (u32 (4294967286 + 100)) master_past_the_wrap
           <> Ok 0 master_past_the_wrap
           /\ post poll (u32 (4294967286 + 100)) master_past_the_wrap
                (fun _ m' =>
                   u16InCnt m' = u16 (u16InCnt master_past_the_wrap + 1))))
      /\ (100 < 1000 ->
          poll_slave 0 [] 0 (u32 (4294967286 + 100)) master_past_the_wrap
          = Ok 0 (set_u8regsize 0 (set_au16regs [] master_past_the_wrap)))
      /\ (1000 <= 100 ->
          poll_slave 0 [] 0 (u32 (4294967286 + 100)) master_past_the_wrap
          <> Ok 0 (set_u8regsize 0 (set_au16regs [] master_past_the_wrap))
          /\ post (poll_slave 0 [] 0) (u32 (4294967286 + 100))
               master_past_the_wrap
               (fun _ m' =>
                  u16InCnt m' = u16 (u16InCnt master_past_the_wrap + 1)))).
Proof.
  apply (deadline_same_period 4294967286 1000 100 [1; 2; 3] 0 [] 0
           master_past_the_wrap).
  - lia.
  - lia.
  - lia.
  - reflexivity.
Defined.

(** C9, as stated, fails on the master's [poll]: a query that leaves
    500 ms before the clock wraps, with the time-out 1000, arms the
    deadline 500; the [poll] that comes 100 ms later, with nothing at
    the port, finds the clock past the deadline and gives the reply
    up. *)
Lemma deadline_wrap_counterexample :
  ~ forall t0 timeout elapsed m,
      0 <= t0 < 4294967296 -> 0 <= timeout < 65536 ->
      0 <= elapsed <= timeout ->
      u32timeOut m = u32 (t0 + timeout) ->
      rx_queue (port m) = [] ->
      poll (u32 (t0 + elapsed)) m = Ok 0 m.
Proof.
  intros H.
  specialize (H 4294966796 1000 100 (master_after_query 4294966796)
                ltac:(lia) ltac:(lia) ltac:(lia) eq_refl eq_refl).
  apply (f_equal (fun r => match r with
                           | Ok _ m => u8lastError m
                           | _ => 0
                           end)) in H.
  vm_compute in H. discriminate H.
Qed.
